(** * Equipment controller of the mechatronic test system

    A shallow embedding of [src/cpp/equipment_controller.cpp] (the POSIX
    branch of its [#ifdef]s) and of the declarations of
    [include/equipment_controller.h], followed by the properties of the
    controller's life cycle, of its test and calibration exchanges and of its
    reporting operations.

    The controller is a C++ object with mutable fields that talks to a serial
    line, reads the wall clock, sleeps and calls a user callback.  Here its
    methods are written in a small state monad over the object's fields and a
    log of the actions that leave the object; the answers of the operating
    system are an oracle that may depend on everything that happened before.
    The callback is taken to return normally and not to call back into the
    controller.  The two programs that drive the controller,
    [src/cpp/main.cpp] and [tests/unit/simple_test.cpp], are embedded in
    the same monad, with what they write as part of their state.  The
    definitions come first (library functions, data, the serial interface,
    the controller, the words of the specification, a few concrete
    surroundings, the programs), the lemmas and theorems after them. *)

From Stdlib Require Import ZArith List String Ascii Bool Lia.
From Stdlib Require Import Floats DecimalString DecimalPos DecimalZ.
Import ListNotations.

Local Open Scope string_scope.
Local Open Scope Z_scope.

(** ** Strings, as the code uses [std::string] *)

Module Str.

(** [std::isspace] in the "C" locale. *)
Definition isspace (c : ascii) : bool :=
  let n := nat_of_ascii c in
  (Nat.eqb n 32 || (Nat.leb 9 n && Nat.leb n 13))%bool.

(** [s.find(pat) != std::string::npos] *)
Fixpoint contains (pat s : string) : bool :=
  (String.prefix pat s ||
   match s with
   | EmptyString => false
   | String _ rest => contains pat rest
   end)%bool.

(** [s.find(c) != std::string::npos] for a character. *)
Fixpoint contains_char (c : ascii) (s : string) : bool :=
  match s with
  | EmptyString => false
  | String d rest => (Ascii.eqb c d || contains_char c rest)%bool
  end.

(** What [dst += buf] appends when [buf] is a [char] array: the bytes in
    front of the first NUL. *)
Fixpoint c_str (buf : string) : string :=
  match buf with
  | EmptyString => EmptyString
  | String c rest =>
      if Ascii.eqb c Ascii.zero then EmptyString else String c (c_str rest)
  end.

(** [s.erase(std::find_if(s.rbegin(), s.rend(), not-isspace).base(), s.end())]:
    the white space at the end of [s] is dropped. *)
Fixpoint rstrip (s : string) : string :=
  match s with
  | EmptyString => EmptyString
  | String c rest =>
      match rstrip rest with
      | EmptyString => if isspace c then EmptyString else String c EmptyString
      | kept => String c kept
      end
  end.

(** The loop [while (std::getline(iss, token, ':')) tokens.push_back(token);]
    on a stream that holds [iss].  [read_tokens] is in the middle of one
    [getline]: [token] holds what it has extracted so far.  A [getline]
    that meets the end of the stream before it extracted anything (not
    even a delimiter) fails and ends the loop, so a delimiter in last
    position opens no further token. *)
Fixpoint read_tokens (iss token : string) : list string :=
  match iss with
  | EmptyString => [token]
  | String c rest =>
      if Ascii.eqb c ":"%char then
        token :: match rest with
                 | EmptyString => []
                 | String _ _ => read_tokens rest EmptyString
                 end
      else read_tokens rest (token ++ String c EmptyString)
  end.

Definition split_colon (s : string) : list string :=
  match s with
  | EmptyString => []
  | String _ _ => read_tokens s EmptyString
  end.

(** The line terminator ["\r\n"]. *)
Definition crlf : string := String "013"%char (String "010"%char EmptyString).

(** [tokens[i]] where the code has checked [i < tokens.size()]. *)
Definition at_ (tokens : list string) (i : nat) : string :=
  nth i tokens EmptyString.

End Str.

(** ** [std::stod], as libstdc++ implements it on [strtod]

    [std::stod(str)] calls [strtod(str.c_str(), &end)]; it throws
    [std::invalid_argument] when no conversion was performed ([end] is the
    start of the text), [std::out_of_range] when [strtod] set [errno] to
    [ERANGE], and returns the converted value otherwise, whatever follows
    the numeral.  [strtod] is the one of the "C" locale: optional white
    space, an optional sign, then a decimal numeral, a hexadecimal one, an
    infinity or a NaN; the value is rounded to the nearest binary64 number,
    ties to even.  A [double] is a primitive float of the kernel. *)

Module Stod.

Inductive outcome : Type :=
| Converted (value : float)
| Invalid_argument
| Out_of_range.

Definition prec : Z := 53.
Definition emax : Z := 1024.

Definition tolower (c : ascii) : ascii :=
  let n := nat_of_ascii c in
  if (Nat.leb 65 n && Nat.leb n 90)%bool then ascii_of_nat (n + 32) else c.

Fixpoint lower (s : string) : string :=
  match s with
  | EmptyString => EmptyString
  | String c rest => String (tolower c) (lower rest)
  end.

Definition digit_value (c : ascii) : option Z :=
  let n := nat_of_ascii c in
  if (Nat.leb 48 n && Nat.leb n 57)%bool then Some (Z.of_nat n - 48) else None.

Definition xdigit_value (c : ascii) : option Z :=
  let n := nat_of_ascii (tolower c) in
  if (Nat.leb 48 n && Nat.leb n 57)%bool then Some (Z.of_nat n - 48)
  else if (Nat.leb 97 n && Nat.leb n 102)%bool then Some (Z.of_nat n - 87)
  else None.

(** The digits in front of [s]: the number they add to [acc] in base
    [base], how many they are, and what follows them. *)
Fixpoint digits (base : Z) (value : ascii -> option Z) (s : string)
    (acc count : Z) : Z * Z * string :=
  match s with
  | EmptyString => (acc, count, s)
  | String c rest =>
      match value c with
      | Some d => digits base value rest (acc * base + d) (count + 1)
      | None => (acc, count, s)
      end
  end.

Definition skip_space (s : string) : string :=
  (fix skip (s : string) : string :=
     match s with
     | String c rest => if Str.isspace c then skip rest else s
     | EmptyString => s
     end) s.

(** An optional sign: whether it is a minus, and the rest. *)
Definition sign (s : string) : bool * string :=
  match s with
  | String "-"%char rest => (true, rest)
  | String "+"%char rest => (false, rest)
  | _ => (false, s)
  end.

(** The exponent part [e[+-]ddd] (or [p[+-]ddd]); 0 when there is none or
    when no digit follows the letter. *)
Definition exponent (letter : ascii) (s : string) : Z :=
  match s with
  | String c rest =>
      if Ascii.eqb (tolower c) letter then
        let '(neg, rest') := sign rest in
        let '(e, n, _) := digits 10 digit_value rest' 0 0 in
        if n =? 0 then 0 else if neg then - e else e
      else 0
  | EmptyString => 0
  end.

(** A mantissa [ddd[.ddd]] in base [base]: its digits read as one integer,
    the number of digits, the number of those behind the point, and the
    rest of the text. *)
Definition mantissa (base : Z) (value : ascii -> option Z) (s : string)
    : Z * Z * Z * string :=
  let '(m1, n1, rest1) := digits base value s 0 0 in
  match rest1 with
  | String "."%char rest =>
      let '(m2, n2, rest2) := digits base value rest m1 0 in
      (m2, n1 + n2, n2, rest2)
  | _ => (m1, n1, 0, rest1)
  end.

Definition same_value (m1 e1 m2 e2 : Z) : bool :=
  let e := Z.min e1 e2 in
  Z.shiftl m1 (e1 - e) =? Z.shiftl m2 (e2 - e).

(** The positive rational [num / den] rounded to binary64, and whether
    [strtod] reports [ERANGE] for it: on overflow, and when the result is
    tiny (below the least normal number once rounded to 53 bits) and not
    exact.  The quotient is taken with more than 64 bits and a sticky bit,
    which decides every rounding to 53 bits or fewer. *)
Definition round_ratio (neg : bool) (num den : Z) : float * bool :=
  if num =? 0 then (SF2Prim (S754_zero neg), false)
  else
    let s := Z.log2_up den + 64 in
    let scaled := Z.shiftl num s in
    let sticky := if scaled mod den =? 0 then 0 else 1 in
    let x := 2 * (scaled / den) + sticky in
    let e := - (s + 1) in
    let r := binary_round prec emax neg (Z.to_pos x) e in
    let wide := binary_round prec (emax + Z.log2 x + s + 64) neg (Z.to_pos x) e in
    let tiny :=
      match wide with
      | S754_finite _ m ex => Z.pos (digits2_pos m) + ex <=? 3 - emax - 1
      | _ => false
      end in
    let erange :=
      match r with
      | S754_finite _ m ex => (tiny && negb (same_value (Z.pos m) ex x e))%bool
      | S754_zero _ => true
      | _ => true
      end in
    (SF2Prim r, erange).

(** [strtod]: [None] when no conversion is performed, else the value and
    whether [errno] is [ERANGE]. *)
Definition strtod (str : string) : option (float * bool) :=
  let '(neg, s) := sign (skip_space str) in
  if String.prefix "inf" (lower s) then
    Some (if neg then neg_infinity else infinity, false)
  else if String.prefix "nan" (lower s) then Some (nan, false)
  else
    match s with
    | String "0"%char (String x rest) =>
        if Ascii.eqb (tolower x) "x"%char then
          let '(m, n, frac, rest') := mantissa 16 xdigit_value rest in
          if n =? 0 then Some (SF2Prim (S754_zero neg), false)
          else
            let e := exponent "p"%char rest' - 4 * frac in
            Some (if 0 <=? e then round_ratio neg (Z.shiftl m e) 1
                  else round_ratio neg m (Z.shiftl 1 (- e)))
        else
          let '(m, n, frac, rest') := mantissa 10 digit_value s in
          let e := exponent "e"%char rest' - frac in
          Some (if 0 <=? e then round_ratio neg (m * 10 ^ e) 1
                else round_ratio neg m (10 ^ (- e)))
    | _ =>
        let '(m, n, frac, rest') := mantissa 10 digit_value s in
        if n =? 0 then None
        else
          let e := exponent "e"%char rest' - frac in
          Some (if 0 <=? e then round_ratio neg (m * 10 ^ e) 1
                else round_ratio neg m (10 ^ (- e)))
    end.

Definition stod (str : string) : outcome :=
  match strtod str with
  | None => Invalid_argument
  | Some (value, erange) => if erange then Out_of_range else Converted value
  end.

(** [e.what()] of the exception [std::stod] throws: libstdc++ passes the
    name of the function. *)
Definition what : string := "stod".

End Stod.

(** ** The wall clock, as [Impl::getCurrentTimestamp] reads it *)

Module Chrono.

(** [struct tm], the fields that the format uses. *)
Record tm : Type := {
  tm_year : Z;   (* years since 1900 *)
  tm_mon : Z;    (* 0 .. 11 *)
  tm_mday : Z;   (* 1 .. 31 *)
  tm_hour : Z;   (* 0 .. 23 *)
  tm_min : Z;    (* 0 .. 59 *)
  tm_sec : Z     (* 0 .. 60 *)
}.

Definition decimal (z : Z) : string := NilZero.string_of_int (Z.to_int z).

(** A field of width two, padded with a zero. *)
Definition two_digits (z : Z) : string :=
  if (0 <=? z) && (z <? 10) then String "0"%char (decimal z) else decimal z.

(** [std::put_time(&t, "%Y-%m-%d %H:%M:%S")] *)
Definition put_time (t : tm) : string :=
  decimal (tm_year t + 1900) ++ "-" ++ two_digits (tm_mon t + 1) ++ "-" ++
  two_digits (tm_mday t) ++ " " ++ two_digits (tm_hour t) ++ ":" ++
  two_digits (tm_min t) ++ ":" ++ two_digits (tm_sec t).

(** The ranges the C standard gives the fields of a [struct tm]. *)
Definition valid (t : tm) : Prop :=
  0 <= tm_mon t <= 11 /\ 1 <= tm_mday t <= 31 /\ 0 <= tm_hour t <= 23 /\
  0 <= tm_min t <= 59 /\ 0 <= tm_sec t <= 60.

End Chrono.

(** ** The data of [equipment_controller.h] *)

Inductive EquipmentStatus : Type := IDLE | RUNNING | PAUSED | ERROR | MAINTENANCE.

Definition status_eqb (a b : EquipmentStatus) : bool :=
  match a, b with
  | IDLE, IDLE | RUNNING, RUNNING | PAUSED, PAUSED
  | ERROR, ERROR | MAINTENANCE, MAINTENANCE => true
  | _, _ => false
  end.

(** [TestResult result;] leaves the two fields of built-in type without a
    value: they are [None] until the code assigns them. *)
Record TestResult : Type := {
  test_id : string;
  device_id : string;
  passed : option bool;
  measurement_value : option float;
  units : string;
  timestamp : string;
  notes : string
}.

Record EquipmentConfig : Type := {
  device_port : string;
  baud_rate : Z;
  measurement_tolerance : float;
  max_retry_attempts : Z;
  enable_logging : bool;
  log_file_path : string
}.

(** ** What leaves the object

    Every action of the controller on its surroundings is appended to a log:
    the system calls of the serial line, the sleeps, the readings of the
    clock, and the calls of the status callback.  [Commit] marks the
    assignment [status = newStatus] of [Impl::setStatus]; it is the only
    assignment to [status] after construction. *)

Inductive Event : Type :=
| Open (port : string)                (* open(port, O_RDWR | O_NOCTTY | O_SYNC) *)
| Tcgetattr (fd : Z)
| Tcsetattr (fd : Z)
| Close (fd : Z)
| Write (fd : Z) (bytes : string)     (* write(fd, bytes, length) *)
| Poll (fd : Z) (timeout_ms : Z)      (* the read loop of one receiveResponse *)
| Sleep (ms : Z)                      (* std::this_thread::sleep_for *)
| Localtime                           (* system_clock::now, to_time_t, localtime *)
| Commit (status : EquipmentStatus) (message : string)
| Callback (status : EquipmentStatus) (message : string).

(** The answers of the operating system.  Each one may depend on the whole
    log so far, so nothing is assumed of the device or the clock.  [sys_read]
    gives, for one [receiveResponse], what the successive [read] calls of its
    polling loop return until the timeout elapses (an empty chunk is a
    [read] that returned nothing). *)
Record OS : Type := {
  sys_open : list Event -> string -> Z;
  sys_tcgetattr : list Event -> Z -> Z;
  sys_tcsetattr : list Event -> Z -> Z;
  sys_write : list Event -> Z -> string -> Z;
  sys_read : list Event -> Z -> Z -> list string;
  sys_localtime : list Event -> Chrono.tm
}.

(** ** A state monad with a log *)

Definition Eff (S A : Type) : Type := S -> list Event -> A * S * list Event.

Definition ret {S A : Type} (a : A) : Eff S A := fun s l => (a, s, l).

Definition bind {S A B : Type} (m : Eff S A) (f : A -> Eff S B) : Eff S B :=
  fun s l => let '(a, s', l') := m s l in f a s' l'.

Definition gets {S A : Type} (f : S -> A) : Eff S A := fun s l => (f s, s, l).

Definition modify {S : Type} (f : S -> S) : Eff S unit := fun s l => (tt, f s, l).

(** An action on the surroundings: it is logged, and answered from the log
    in front of it. *)
Definition call {S A : Type} (e : Event) (answer : list Event -> A) : Eff S A :=
  fun s l => (answer l, s, (l ++ [e])%list).

Declare Scope eff_scope.
Delimit Scope eff_scope with eff.
Notation "x <- m ;; k" := (bind m (fun x => k))
  (at level 61, m at next level, right associativity) : eff_scope.
Notation "m ;;; k" := (bind m (fun _ => k))
  (at level 61, right associativity) : eff_scope.
Local Open Scope eff_scope.

(** ** [class SerialInterface] *)

Module SerialInterface.

Record t : Type := { serial_fd : Z; connected : bool }.

Definition new : t := {| serial_fd := -1; connected := false |}.

Definition set_fd (fd : Z) (h : t) : t :=
  {| serial_fd := fd; connected := connected h |}.
Definition set_connected (b : bool) (h : t) : t :=
  {| serial_fd := serial_fd h; connected := b |}.

Section Methods.
Variable os : OS.

(** The baud rate is not used on this branch: the speed is [B115200]. *)
Definition connect (port : string) (baud_rate : Z) : Eff t bool :=
  fd <- call (Open port) (fun l => sys_open os l port) ;;
  modify (set_fd fd) ;;;
  if fd <? 0 then ret false
  else
    r <- call (Tcgetattr fd) (fun l => sys_tcgetattr os l fd) ;;
    if negb (r =? 0) then call (Close fd) (fun _ => tt) ;;; ret false
    else
      r <- call (Tcsetattr fd) (fun l => sys_tcsetattr os l fd) ;;
      if negb (r =? 0) then call (Close fd) (fun _ => tt) ;;; ret false
      else modify (set_connected true) ;;; ret true.

Definition disconnect : Eff t bool :=
  c <- gets connected ;;
  if negb c then ret true
  else
    fd <- gets serial_fd ;;
    (if 0 <=? fd
     then call (Close fd) (fun _ => tt) ;;; modify (set_fd (-1))
     else ret tt) ;;;
    modify (set_connected false) ;;;
    ret true.

Definition sendCommand (command : string) : Eff t bool :=
  c <- gets connected ;;
  if negb c then ret false
  else
    let cmd := command ++ Str.crlf in
    fd <- gets serial_fd ;;
    n <- call (Write fd cmd) (fun l => sys_write os l fd cmd) ;;
    ret (n =? Z.of_nat (String.length cmd)).

(** The polling loop: each chunk that a [read] of at most 255 bytes
    returns is appended as a C string, and the loop ends with the first
    line feed or with the timeout. *)
Fixpoint poll (chunks : list string) (response : string) : string :=
  match chunks with
  | [] => response
  | chunk :: later =>
      let buffer := String.substring 0 255 chunk in
      match buffer with
      | EmptyString => poll later response
      | String _ _ =>
          let response := response ++ Str.c_str buffer in
          if Str.contains_char "010"%char response then response
          else poll later response
      end
  end.

Definition receiveResponse (timeout_ms : Z) : Eff t string :=
  c <- gets connected ;;
  if negb c then ret EmptyString
  else
    fd <- gets serial_fd ;;
    chunks <- call (Poll fd timeout_ms) (fun l => sys_read os l fd timeout_ms) ;;
    ret (Str.rstrip (poll chunks EmptyString)).

Definition isConnected : Eff t bool := gets connected.

End Methods.

End SerialInterface.

(** [createHardwareInterface]: only the serial interface exists. *)
Definition createHardwareInterface (interface_type : string)
    : option SerialInterface.t :=
  if String.eqb interface_type "serial" then Some SerialInterface.new else None.

(** ** [class EquipmentController::Impl]

    [statusCallback] is a [std::function]: what matters of it is whether it
    holds a target, and the calls it receives, which are logged.  The mutex
    only orders threads; [workerThread] is never started and [shouldStop] is
    read by no method: the three are left out. *)

Record Impl : Type := {
  status : EquipmentStatus;
  config : option EquipmentConfig;
  lastError : string;
  statusCallback : bool;
  hardware : option SerialInterface.t
}.

Definition set_status (v : EquipmentStatus) (i : Impl) : Impl :=
  {| status := v; config := config i; lastError := lastError i;
     statusCallback := statusCallback i; hardware := hardware i |}.
Definition set_config (v : EquipmentConfig) (i : Impl) : Impl :=
  {| status := status i; config := Some v; lastError := lastError i;
     statusCallback := statusCallback i; hardware := hardware i |}.
Definition set_lastError (v : string) (i : Impl) : Impl :=
  {| status := status i; config := config i; lastError := v;
     statusCallback := statusCallback i; hardware := hardware i |}.
Definition set_statusCallback (v : bool) (i : Impl) : Impl :=
  {| status := status i; config := config i; lastError := lastError i;
     statusCallback := v; hardware := hardware i |}.
Definition set_hardware (v : option SerialInterface.t) (i : Impl) : Impl :=
  {| status := status i; config := config i; lastError := lastError i;
     statusCallback := statusCallback i; hardware := v |}.

(** [Impl() : status(EquipmentStatus::IDLE), shouldStop(false) {}] *)
Definition Impl_new : Impl :=
  {| status := IDLE; config := None; lastError := EmptyString;
     statusCallback := false; hardware := None |}.

(** [TestResult result;] *)
Definition TestResult_new : TestResult :=
  {| test_id := EmptyString; device_id := EmptyString; passed := None;
     measurement_value := None; units := EmptyString;
     timestamp := EmptyString; notes := EmptyString |}.

Definition set_test_id (v : string) (r : TestResult) : TestResult :=
  {| test_id := v; device_id := device_id r; passed := passed r;
     measurement_value := measurement_value r; units := units r;
     timestamp := timestamp r; notes := notes r |}.
Definition set_device_id (v : string) (r : TestResult) : TestResult :=
  {| test_id := test_id r; device_id := v; passed := passed r;
     measurement_value := measurement_value r; units := units r;
     timestamp := timestamp r; notes := notes r |}.
Definition set_passed (v : bool) (r : TestResult) : TestResult :=
  {| test_id := test_id r; device_id := device_id r; passed := Some v;
     measurement_value := measurement_value r; units := units r;
     timestamp := timestamp r; notes := notes r |}.
Definition set_measurement_value (v : float) (r : TestResult) : TestResult :=
  {| test_id := test_id r; device_id := device_id r; passed := passed r;
     measurement_value := Some v; units := units r;
     timestamp := timestamp r; notes := notes r |}.
Definition set_units (v : string) (r : TestResult) : TestResult :=
  {| test_id := test_id r; device_id := device_id r; passed := passed r;
     measurement_value := measurement_value r; units := v;
     timestamp := timestamp r; notes := notes r |}.
Definition set_timestamp (v : string) (r : TestResult) : TestResult :=
  {| test_id := test_id r; device_id := device_id r; passed := passed r;
     measurement_value := measurement_value r; units := units r;
     timestamp := v; notes := notes r |}.
Definition set_notes (v : string) (r : TestResult) : TestResult :=
  {| test_id := test_id r; device_id := device_id r; passed := passed r;
     measurement_value := measurement_value r; units := units r;
     timestamp := timestamp r; notes := v |}.

Set Warnings "-inexact-float".

(** [std::vector::push_back] *)
Definition push_back {A : Type} (x : A) (v : list A) : list A := (v ++ [x])%list.

(** [EquipmentController::getHealthMetrics] *)
Definition getHealthMetrics : Eff Impl (list (string * float)) :=
  let metrics := [] in
  let metrics := push_back ("Temperature", 23.5%float) metrics in
  let metrics := push_back ("Vibration", 0.02%float) metrics in
  let metrics := push_back ("Power_Consumption", 125.3%float) metrics in
  let metrics := push_back ("Uptime_Hours", 1234.5%float) metrics in
  let metrics := push_back ("Error_Rate", 0.001%float) metrics in
  ret metrics.

(** ** [class EquipmentController] *)

Section Controller.

Variable os : OS.

(** [pImpl->hardware->method(...)]: the method runs on the object that
    [hardware] owns; [None] when the pointer is null, which the code
    tests before every use. *)
Definition deref {A : Type} (method : Eff SerialInterface.t A)
    : Eff Impl (option A) :=
  fun i l =>
    match hardware i with
    | None => (None, i, l)
    | Some h => let '(a, h', l') := method h l in (Some a, set_hardware (Some h') i, l')
    end.

Definition setStatus (newStatus : EquipmentStatus) (message : string)
    : Eff Impl unit :=
  modify (set_status newStatus) ;;;
  call (Commit newStatus message) (fun _ => tt) ;;;
  cb <- gets statusCallback ;;
  if cb then
    st <- gets status ;;
    call (Callback st message) (fun _ => tt)
  else ret tt.

Definition getCurrentTimestamp : Eff Impl string :=
  t <- call Localtime (fun l => sys_localtime os l) ;;
  ret (Chrono.put_time t).

(** The assignment to [pImpl->hardware] destroys the interface it held,
    and [~SerialInterface] disconnects. *)
Definition initialize (cfg : EquipmentConfig) : Eff Impl bool :=
  modify (set_config cfg) ;;;
  deref (SerialInterface.disconnect) ;;;
  modify (set_hardware (createHardwareInterface "serial")) ;;;
  hw <- gets hardware ;;
  match hw with
  | None =>
      modify (set_lastError "Failed to create hardware interface") ;;;
      setStatus ERROR "Failed to create hardware interface" ;;;
      ret false
  | Some _ =>
      ok <- deref (SerialInterface.connect os (device_port cfg) (baud_rate cfg)) ;;
      match ok with
      | Some true =>
          setStatus IDLE "Equipment initialized successfully" ;;;
          ret true
      | _ =>
          modify (set_lastError
                    ("Failed to connect to device on port " ++ device_port cfg)) ;;;
          setStatus IDLE "Equipment initialized (simulation mode)" ;;;
          ret false
      end
  end.

Definition start : Eff Impl bool :=
  s <- gets status ;;
  if negb (status_eqb s IDLE) && negb (status_eqb s PAUSED) then
    modify (set_lastError "Equipment must be in IDLE or PAUSED state to start") ;;;
    ret false
  else
    setStatus RUNNING "Equipment started" ;;;
    ret true.

Definition stop : Eff Impl bool :=
  s <- gets status ;;
  if status_eqb s IDLE then ret true
  else
    setStatus IDLE "Equipment stopped" ;;;
    ret true.

Definition pause : Eff Impl bool :=
  s <- gets status ;;
  if negb (status_eqb s RUNNING) then
    modify (set_lastError "Equipment must be running to pause") ;;;
    ret false
  else
    setStatus PAUSED "Equipment paused" ;;;
    ret true.

Definition resume : Eff Impl bool :=
  s <- gets status ;;
  if negb (status_eqb s PAUSED) then
    modify (set_lastError "Equipment must be paused to resume") ;;;
    ret false
  else
    setStatus RUNNING "Equipment resumed" ;;;
    ret true.

(** The command of [runTest]: ["TEST:" + device_id], then [":" + param]
    for each parameter. *)
Definition test_command (device_id : string) (test_parameters : list string)
    : string :=
  fold_left (fun command param => command ++ ":" ++ param)
            test_parameters ("TEST:" ++ device_id).

(** The statements of [runTest] behind [// Parse response].  [std::stod]
    is the only call that throws; the handler that catches its exception
    is the [catch (const std::exception& e)] of [runTest]. *)
Definition parse_response (response : string) (result : TestResult)
    : TestResult :=
  let tokens := Str.split_colon response in
  if (Nat.leb 4 (List.length tokens) && String.eqb (Str.at_ tokens 0) "RESULT")%bool
  then
    match Stod.stod (Str.at_ tokens 1) with
    | Stod.Converted value =>
        set_notes "Test completed successfully"
          (set_passed (String.eqb (Str.at_ tokens 3) "PASS")
             (set_units (Str.at_ tokens 2)
                (set_measurement_value value result)))
    | Stod.Invalid_argument | Stod.Out_of_range =>
        set_notes ("Test execution error: " ++ Stod.what)
          (set_passed false result)
    end
  else
    set_notes ("Invalid response format: " ++ response)
      (set_passed false result).

(** What [runTest] does with the response it received: an empty one is a
    timeout, any other is parsed. *)
Definition decode_response (response : string) (result : TestResult)
    : TestResult :=
  match response with
  | EmptyString =>
      set_notes "No response from device" (set_passed false result)
  | String _ _ => parse_response response result
  end.

Definition runTest (device_id : string) (test_parameters : list string)
    : Eff Impl TestResult :=
  id_time <- getCurrentTimestamp ;;
  stamp <- getCurrentTimestamp ;;
  let result :=
    set_timestamp stamp
      (set_test_id ("TEST_" ++ id_time)
         (set_device_id device_id TestResult_new)) in
  s <- gets status ;;
  if negb (status_eqb s RUNNING) then
    ret (set_notes "Equipment not in running state" (set_passed false result))
  else
    c <- deref SerialInterface.isConnected ;;
    match c with
    | Some true =>
        sent <- deref (SerialInterface.sendCommand os
                         (test_command device_id test_parameters)) ;;
        match sent with
        | Some true =>
            response <- deref (SerialInterface.receiveResponse os 5000) ;;
            ret (decode_response (match response with
                                  | Some r => r
                                  | None => EmptyString
                                  end) result)
        | _ =>
            ret (set_notes "Failed to send test command" (set_passed false result))
        end
    | _ => ret (set_notes "Hardware not connected" (set_passed false result))
    end.

Definition getStatus : Eff Impl EquipmentStatus := gets status.

Definition getLastError : Eff Impl string := gets lastError.

Definition setStatusCallback (callback : bool) : Eff Impl unit :=
  modify (set_statusCallback callback).

Definition calibrate : Eff Impl bool :=
  s <- gets status ;;
  if negb (status_eqb s IDLE) then
    modify (set_lastError "Equipment must be idle for calibration") ;;;
    ret false
  else
    setStatus MAINTENANCE "Calibration in progress" ;;;
    call (Sleep 2000) (fun _ => tt) ;;;
    c <- deref SerialInterface.isConnected ;;
    ok <- match c with
          | Some true =>
              deref (SerialInterface.sendCommand os "CALIBRATE") ;;;
              response <- deref (SerialInterface.receiveResponse os 10000) ;;
              match response with
              | Some r => ret (Str.contains "CAL_OK" r)
              | None => ret false
              end
          | _ => ret false
          end ;;
    if ok : bool then
      setStatus IDLE "Calibration completed successfully" ;;;
      ret true
    else
      setStatus ERROR "Calibration failed" ;;;
      ret false.

(** *** Calls of the public operations, one after the other *)

Inductive Op : Type :=
| Initialize (cfg : EquipmentConfig)
| Start
| Stop
| Pause
| Resume
| RunTest (device_id : string) (test_parameters : list string)
| GetStatus
| GetLastError
| SetStatusCallback (callback : bool)
| Calibrate
| GetHealthMetrics.

Inductive Value : Type :=
| VBool (b : bool)
| VResult (r : TestResult)
| VStatus (s : EquipmentStatus)
| VString (s : string)
| VUnit
| VMetrics (m : list (string * float)).

Definition exec (op : Op) : Eff Impl Value :=
  match op with
  | Initialize cfg => b <- initialize cfg ;; ret (VBool b)
  | Start => b <- start ;; ret (VBool b)
  | Stop => b <- stop ;; ret (VBool b)
  | Pause => b <- pause ;; ret (VBool b)
  | Resume => b <- resume ;; ret (VBool b)
  | RunTest device_id test_parameters =>
      r <- runTest device_id test_parameters ;; ret (VResult r)
  | GetStatus => s <- getStatus ;; ret (VStatus s)
  | GetLastError => s <- getLastError ;; ret (VString s)
  | SetStatusCallback callback => setStatusCallback callback ;;; ret VUnit
  | Calibrate => b <- calibrate ;; ret (VBool b)
  | GetHealthMetrics => m <- getHealthMetrics ;; ret (VMetrics m)
  end.

Fixpoint run (ops : list Op) : Eff Impl (list Value) :=
  match ops with
  | [] => ret []
  | op :: later =>
      v <- exec op ;;
      vs <- run later ;;
      ret (v :: vs)
  end.

End Controller.

(** ** Words of the specification *)

(** The four life-cycle operations. *)
Inductive Lifecycle : Type := LStart | LStop | LPause | LResume.

Definition op_of (t : Lifecycle) : Op :=
  match t with
  | LStart => Start
  | LStop => Stop
  | LPause => Pause
  | LResume => Resume
  end.

(** The table of legal transitions, as the specification lists it: the
    status a permitted operation leads to, [None] when the table has no
    line for it. *)
Definition table (from : EquipmentStatus) (t : Lifecycle)
    : option EquipmentStatus :=
  match t, from with
  | LStart, IDLE | LStart, PAUSED => Some RUNNING
  | LStop, _ => Some IDLE
  | LPause, RUNNING => Some PAUSED
  | LResume, PAUSED => Some RUNNING
  | _, _ => None
  end.

(** The message of each life-cycle operation when it changes the status. *)
Definition message (t : Lifecycle) : string :=
  match t with
  | LStart => "Equipment started"
  | LStop => "Equipment stopped"
  | LPause => "Equipment paused"
  | LResume => "Equipment resumed"
  end.

(** The reason each operation records when it refuses. *)
Definition refusal (op : Op) : option string :=
  match op with
  | Start => Some "Equipment must be in IDLE or PAUSED state to start"
  | Pause => Some "Equipment must be running to pause"
  | Resume => Some "Equipment must be paused to resume"
  | Calibrate => Some "Equipment must be idle for calibration"
  | _ => None
  end.

Definition refusal_text (op : Op) : string :=
  match refusal op with
  | Some reason => reason
  | None => EmptyString
  end.

(** The operations with a precondition on the status that they check
    before anything else, and the statuses in which they refuse. *)
Definition refuses (op : Op) (s : EquipmentStatus) : bool :=
  match op, s with
  | Start, (IDLE | PAUSED) => false
  | Start, _ => true
  | Pause, RUNNING => false
  | Pause, _ => true
  | Resume, PAUSED => false
  | Resume, _ => true
  | Calibrate, IDLE => false
  | Calibrate, _ => true
  | _, _ => false
  end.

(** An operation failed when it answered [false]. *)
Definition returned_false (v : Value) : bool :=
  match v with
  | VBool false => true
  | _ => false
  end.

(** The text an operation records in the last error: the reason of its
    refusal, when it refuses because of the status it finds, and the
    failure of the connection, when [initialize] answers false; nothing
    otherwise. *)
Definition recorded (op : Op) (found : EquipmentStatus) (answer : Value)
    : option string :=
  if refuses op found then Some (refusal_text op)
  else
    match op, answer with
    | Initialize cfg, VBool false =>
        Some ("Failed to connect to device on port " ++ device_port cfg)
    | _, _ => None
    end.

(** The text that the latest operation of a run to record one recorded,
    and [current] when none did. *)
Fixpoint last_message (os : OS) (ops : list Op) (i : Impl) (l : list Event)
    (current : string) : string :=
  match ops with
  | [] => current
  | op :: later =>
      let '(answer, i', l') := exec os op i l in
      last_message os later i' l'
        (match recorded op (status i) answer with
         | Some text => text
         | None => current
         end)
  end.


(** An operation that keeps the callback that is registered. *)
Definition keeps_callback (op : Op) : bool :=
  match op with
  | SetStatusCallback false => false
  | _ => true
  end.







(** ** Reading the log *)

(** The actions on the serial line. *)
Definition is_transport (e : Event) : bool :=
  match e with
  | Open _ | Tcgetattr _ | Tcsetattr _ | Close _ | Write _ _ | Poll _ _ => true
  | Sleep _ | Localtime | Commit _ _ | Callback _ _ => false
  end.

Definition transport (l : list Event) : list Event := filter is_transport l.

(** The events of [setStatus]. *)
Definition is_notification (e : Event) : bool :=
  match e with
  | Commit _ _ | Callback _ _ => true
  | _ => false
  end.

(** What [setStatus] appends to the log. *)
Definition notification (callback : bool) (s : EquipmentStatus) (message : string)
    : list Event :=
  Commit s message :: if callback then [Callback s message] else [].

(** A stretch of the log in which every assignment to the status is
    followed at once by the call of the callback with the same status and
    message, and no callback is called otherwise. *)
Inductive Synchronous : list Event -> Prop :=
| sync_nil : Synchronous []
| sync_notified (s : EquipmentStatus) (m : string) (rest : list Event) :
    Synchronous rest -> Synchronous (Commit s m :: Callback s m :: rest)
| sync_other (e : Event) (rest : list Event) :
    is_notification e = false -> Synchronous rest -> Synchronous (e :: rest).

(** The status changes a log holds, and the ones a subscriber was told. *)
Definition committed (l : list Event) : list (EquipmentStatus * string) :=
  flat_map (fun e => match e with Commit s m => [(s, m)] | _ => [] end) l.

Definition delivered (l : list Event) : list (EquipmentStatus * string) :=
  flat_map (fun e => match e with Callback s m => [(s, m)] | _ => [] end) l.

(** ** Auxiliary definitions for the test identifiers *)

(** The result [runTest] starts from: the identifiers and the time stamp. *)
Definition fresh_result (os : OS) (device_id : string) (l : list Event)
    : TestResult :=
  set_timestamp (Chrono.put_time (sys_localtime os (l ++ [Localtime])))
    (set_test_id ("TEST_" ++ Chrono.put_time (sys_localtime os l))
       (set_device_id device_id TestResult_new)).

(** The number that two decimal digits write, to read a field of a time
    stamp back. *)
Definition read_two_digits (s : string) : Z :=
  match s with
  | String a (String b EmptyString) =>
      (Z.of_nat (nat_of_ascii a) - 48) * 10 + (Z.of_nat (nat_of_ascii b) - 48)
  | _ => -1
  end.

(** ** Surroundings to run the controller in *)

Module Scenario.

Definition morning : Chrono.tm :=
  {| Chrono.tm_year := 124; Chrono.tm_mon := 2; Chrono.tm_mday := 7;
     Chrono.tm_hour := 9; Chrono.tm_min := 30; Chrono.tm_sec := 5 |}.

(** No device: the port cannot be opened, and the clock stands still. *)
Definition no_device : OS :=
  {| sys_open := fun _ _ => -1;
     sys_tcgetattr := fun _ _ => -1;
     sys_tcsetattr := fun _ _ => -1;
     sys_write := fun _ _ _ => -1;
     sys_read := fun _ _ _ => [];
     sys_localtime := fun _ => morning |}.

(** A device on file descriptor 3 that takes every line, answers a test
    in two chunks and a calibration with [CAL_OK]; the clock advances by
    one second with every action logged. *)
Definition bench : OS :=
  {| sys_open := fun _ _ => 3;
     sys_tcgetattr := fun _ _ => 0;
     sys_tcsetattr := fun _ _ => 0;
     sys_write := fun _ _ bytes => Z.of_nat (String.length bytes);
     sys_read := fun _ _ timeout_ms =>
       if timeout_ms =? 5000
       then [EmptyString; "RESULT:4.98"; ":V:PASS" ++ Str.crlf]
       else ["CAL_OK" ++ Str.crlf];
     sys_localtime := fun l =>
       {| Chrono.tm_year := 124; Chrono.tm_mon := 2; Chrono.tm_mday := 7;
          Chrono.tm_hour := 9; Chrono.tm_min := 30;
          Chrono.tm_sec := Z.of_nat (List.length l) mod 60 |} |}.


Definition usb_config : EquipmentConfig :=
  {| device_port := "/dev/ttyUSB0"; baud_rate := 115200;
     measurement_tolerance := 0.1%float; max_retry_attempts := 3;
     enable_logging := false; log_file_path := EmptyString |}.

(** The controller after a callback was registered and it was initialized
    on the bench and started (see [bench_reaches_running]). *)
Definition running : Impl :=
  {| status := RUNNING; config := Some usb_config; lastError := EmptyString;
     statusCallback := true;
     hardware := Some {| SerialInterface.serial_fd := 3;
                         SerialInterface.connected := true |} |}.

End Scenario.

(** ** Further words, for the serial line and the log *)

(** Text made of white space only, and text whose last character is white
    space. *)
Fixpoint all_space (s : string) : bool :=
  match s with
  | EmptyString => true
  | String c rest => (Str.isspace c && all_space rest)%bool
  end.

Fixpoint ends_in_space (s : string) : bool :=
  match s with
  | EmptyString => false
  | String c EmptyString => Str.isspace c
  | String _ rest => ends_in_space rest
  end.

(** What one [read] of the polling loop adds to the response. *)
Definition as_read (chunk : string) : string :=
  Str.c_str (String.substring 0 255 chunk).

Definition line_feed : ascii := "010"%char.

(** Tokens written one after the other with a colon in between. *)
Fixpoint join_colon (tokens : list string) : string :=
  match tokens with
  | [] => EmptyString
  | [token] => token
  | token :: later => token ++ ":" ++ join_colon later
  end.

Fixpoint ends_in_colon (s : string) : bool :=
  match s with
  | EmptyString => false
  | String c EmptyString => Ascii.eqb c ":"%char
  | String _ rest => ends_in_colon rest
  end.

(** The descriptors the system handed out along a stretch [todo] of the
    log that follows [before]: one for each [Open] that it answered with a
    descriptor; and the descriptors given back. *)
Fixpoint opened_from (os : OS) (before todo : list Event) : Z :=
  match todo with
  | [] => 0
  | e :: rest =>
      match e with
      | Open port => if 0 <=? sys_open os before port then 1 else 0
      | _ => 0
      end + opened_from os (before ++ [e]) rest
  end.

Definition opened (os : OS) (l : list Event) : Z := opened_from os [] l.

Fixpoint closed (l : list Event) : Z :=
  match l with
  | [] => 0
  | Close _ :: rest => 1 + closed rest
  | _ :: rest => closed rest
  end.

(** The descriptors the controller holds: that of a connected interface. *)
Definition held (i : Impl) : Z :=
  match hardware i with
  | Some h => if SerialInterface.connected h then 1 else 0
  | None => 0
  end.

(** The status that a list of status changes ends in, from [start]. *)
Definition ends_in (changes : list (EquipmentStatus * string))
    (start : EquipmentStatus) : EquipmentStatus :=
  last (map fst changes) start.

(** What the destructor of the interface that [initialize] replaces logs. *)
Definition closes_of (i : Impl) : list Event :=
  match hardware i with
  | Some h =>
      if (SerialInterface.connected h && (0 <=? SerialInterface.serial_fd h))%bool
      then [Close (SerialInterface.serial_fd h)] else []
  | None => []
  end.

(** A connected interface holds a descriptor that [open] gave. *)
Definition holds_valid (i : Impl) : Prop :=
  match hardware i with
  | Some h =>
      SerialInterface.connected h = true -> 0 <= SerialInterface.serial_fd h
  | None => True
  end.

(** The callback that is registered after an operation. *)
Definition callback_after (op : Op) (i : Impl) : bool :=
  match op with
  | SetStatusCallback callback => callback
  | _ => statusCallback i
  end.

(** ** Further words, for runs of the controller *)

(** An operation that registers a callback. *)
Definition registers (op : Op) : bool :=
  match op with
  | SetStatusCallback true => true
  | _ => false
  end.

(** The statuses of normal operation. *)
Definition operational (s : EquipmentStatus) : bool :=
  match s with
  | IDLE | RUNNING | PAUSED => true
  | ERROR | MAINTENANCE => false
  end.

Definition is_calibrate (op : Op) : bool :=
  match op with
  | Calibrate => true
  | _ => false
  end.

(** The operations that assign the status whatever it was. *)
Definition resets (op : Op) : bool :=
  match op with
  | Initialize _ | Stop => true
  | _ => false
  end.

(** [~EquipmentController]: the worker thread is never started, so [~Impl]
    has nothing to join; the members are destroyed, and [~SerialInterface]
    disconnects the interface that [hardware] owns. *)
Definition destroy : Eff Impl unit :=
  deref SerialInterface.disconnect ;;;
  modify (set_hardware None).

(** Two calls that differ at most in the configuration that [initialize]
    is given, and there in anything but the port. *)
Definition alike (a b : Op) : Prop :=
  match a, b with
  | Initialize c, Initialize d => device_port c = device_port d
  | _, _ => a = b
  end.

(** The controller, its stored configuration apart. *)
Definition without_config (i : Impl) : Impl :=
  {| status := status i; config := None; lastError := lastError i;
     statusCallback := statusCallback i; hardware := hardware i |}.

(** An answer that reports success: [true], or a test that passed. *)
Definition succeeded (v : Value) : bool :=
  match v with
  | VBool b => b
  | VResult r =>
      match passed r with
      | Some verdict => verdict
      | None => false
      end
  | _ => false
  end.

Definition is_initialize (op : Op) : bool :=
  match op with
  | Initialize _ => true
  | _ => false
  end.

(** The operations that talk to the device. *)
Definition needs_device (op : Op) : bool :=
  match op with
  | RunTest _ _ | Calibrate => true
  | _ => false
  end.

(** The note of a test that measured. *)
Definition completed : string := "Test completed successfully".

(** ** [std::stoi], as libstdc++ implements it on [strtol]

    [std::stoi(str)] calls [strtol(str.c_str(), &end, 10)]: optional white
    space, an optional sign, decimal digits.  It throws
    [std::invalid_argument] when there is no digit and [std::out_of_range]
    when the number does not fit an [int] (or a [long], which [strtol]
    reports with [ERANGE]); whatever follows the digits is ignored. *)

Module Stoi.

Inductive exception : Type := invalid_argument | out_of_range.

Inductive outcome : Type :=
| Converted (value : Z)
| Throws (e : exception).

Definition int_min : Z := - 2 ^ 31.
Definition int_max : Z := 2 ^ 31 - 1.

Definition stoi (str : string) : outcome :=
  let '(neg, s) := Stod.sign (Stod.skip_space str) in
  let '(n, count, _) := Stod.digits 10 Stod.digit_value s 0 0 in
  if count =? 0 then Throws invalid_argument
  else
    let value := if neg then - n else n in
    if ((int_min <=? value) && (value <=? int_max))%bool then Converted value
    else Throws out_of_range.

End Stoi.

(** ** The command-line program, [src/cpp/main.cpp]

    The program writes to [std::cout] and [std::cerr], reads lines from
    [std::cin] and drives one controller, whose callback prints the status
    changes.  Its state is the controller and what it has written so far;
    the log of the controller's actions is the one of the controller. *)

Module Main.

(** What the program writes: text, an [int] or a [double] to [std::cout],
    text to [std::cerr]; [Indeterminate] stands for the value of a variable
    that was never assigned, written to [std::cout]. *)
Inductive Item : Type :=
| Cout (text : string)
| CoutInt (n : Z)
| CoutDouble (x : float)
| Cerr (text : string)
| Indeterminate.

(** The line feed that [std::endl] and ["\n"] write. *)
Definition endl : string := String "010"%char EmptyString.

(** The [statusStr] of the three [switch] statements. *)
Definition statusStr (s : EquipmentStatus) : string :=
  match s with
  | IDLE => "IDLE"
  | RUNNING => "RUNNING"
  | PAUSED => "PAUSED"
  | ERROR => "ERROR"
  | MAINTENANCE => "MAINTENANCE"
  end.

(** What [statusCallback(status, message)] writes. *)
Definition statusCallback (change : EquipmentStatus * string) : Item :=
  Cout ("[STATUS] " ++ statusStr (fst change) ++ ": " ++ snd change ++ endl).

Definition printUsage : list Item :=
  [ Cout ("Automated Mechatronic Test Inspection System" ++ endl);
    Cout ("Usage: mechatronic_test_system [options]" ++ endl);
    Cout ("Options:" ++ endl);
    Cout ("  -p, --port <port>     Serial port (default: COM1 on Windows, /dev/ttyUSB0 on Linux)" ++ endl);
    Cout ("  -b, --baud <rate>     Baud rate (default: 115200)" ++ endl);
    Cout ("  -t, --test <device>   Run test on specified device" ++ endl);
    Cout ("  -c, --calibrate       Perform equipment calibration" ++ endl);
    Cout ("  -s, --status          Show equipment status" ++ endl);
    Cout ("  -h, --help            Show this help message" ++ endl) ].

(** The first lines of [main]. *)
Definition banner : list Item :=
  [ Cout ("=== Automated Mechatronic Test Inspection System ===" ++ endl);
    Cout ("Version 1.0.0" ++ endl);
    Cout ("Copyright 2024 - Mechatronic Test System Team" ++ endl);
    Cout endl ].

(** The local variables of [main] that the arguments set. *)
Record Locals : Type := {
  config : EquipmentConfig;
  test_device : string;
  run_calibration : bool;
  show_status : bool
}.

(** The default configuration, and the locals as declared. *)
Definition defaults : Locals :=
  {| config := {| device_port := "/dev/ttyUSB0"; baud_rate := 115200;
                  measurement_tolerance := 0.1%float; max_retry_attempts := 3;
                  enable_logging := true;
                  log_file_path := "mechatronic_test.log" |};
     test_device := EmptyString;
     run_calibration := false;
     show_status := false |}.

Definition set_device_port (value : string) (v : Locals) : Locals :=
  {| config := {| device_port := value;
                  baud_rate := baud_rate (config v);
                  measurement_tolerance := measurement_tolerance (config v);
                  max_retry_attempts := max_retry_attempts (config v);
                  enable_logging := enable_logging (config v);
                  log_file_path := log_file_path (config v) |};
     test_device := test_device v;
     run_calibration := run_calibration v;
     show_status := show_status v |}.

Definition set_baud_rate (value : Z) (v : Locals) : Locals :=
  {| config := {| device_port := device_port (config v);
                  baud_rate := value;
                  measurement_tolerance := measurement_tolerance (config v);
                  max_retry_attempts := max_retry_attempts (config v);
                  enable_logging := enable_logging (config v);
                  log_file_path := log_file_path (config v) |};
     test_device := test_device v;
     run_calibration := run_calibration v;
     show_status := show_status v |}.

Definition set_test_device (value : string) (v : Locals) : Locals :=
  {| config := config v; test_device := value;
     run_calibration := run_calibration v; show_status := show_status v |}.

Definition set_run_calibration (value : bool) (v : Locals) : Locals :=
  {| config := config v; test_device := test_device v;
     run_calibration := value; show_status := show_status v |}.

Definition set_show_status (value : bool) (v : Locals) : Locals :=
  {| config := config v; test_device := test_device v;
     run_calibration := run_calibration v; show_status := value |}.

(** How the loop over the arguments ends: it ran through them, [main]
    returned from inside it, or [std::stoi] threw; nothing catches its
    exception. *)
Inductive Parsed : Type :=
| Proceed (v : Locals)
| Return (code : Z) (out : list Item)
| Uncaught (e : Stoi.exception).

(** The loop [for (int i = 1; i < argc; ++i)] over [argv[1]], ...; an
    option with a value takes the argument that follows, [argv[++i]]. *)
Fixpoint parse_args (args : list string) (v : Locals) : Parsed :=
  match args with
  | [] => Proceed v
  | arg :: rest =>
      if ((arg =? "-h") || (arg =? "--help"))%string then Return 0 printUsage
      else if ((arg =? "-p") || (arg =? "--port"))%string then
        match rest with
        | value :: rest' => parse_args rest' (set_device_port value v)
        | [] => Return 1 [Cerr ("Error: Port argument requires a value" ++ endl)]
        end
      else if ((arg =? "-b") || (arg =? "--baud"))%string then
        match rest with
        | value :: rest' =>
            match Stoi.stoi value with
            | Stoi.Converted rate => parse_args rest' (set_baud_rate rate v)
            | Stoi.Throws e => Uncaught e
            end
        | [] => Return 1 [Cerr ("Error: Baud rate argument requires a value" ++ endl)]
        end
      else if ((arg =? "-t") || (arg =? "--test"))%string then
        match rest with
        | value :: rest' => parse_args rest' (set_test_device value v)
        | [] => Return 1 [Cerr ("Error: Test device argument requires a value" ++ endl)]
        end
      else if ((arg =? "-c") || (arg =? "--calibrate"))%string then
        parse_args rest (set_run_calibration true v)
      else if ((arg =? "-s") || (arg =? "--status"))%string then
        parse_args rest (set_show_status true v)
      else
        Return 1 (Cerr ("Error: Unknown argument: " ++ arg ++ endl) :: printUsage)
  end.

(** The controller and what was written so far. *)
Definition Session : Type := (Impl * list Item)%type.

Definition print (items : list Item) : Eff Session unit :=
  modify (fun s : Session => (fst s, (snd s ++ items)%list)).

(** A call of a method of the controller.  The callback that [main]
    registers writes a line for each call the controller makes of it;
    these calls are the [Callback] events that the method adds to the
    log. *)
Definition controller {A : Type} (method : Eff Impl A) : Eff Session A :=
  fun s l =>
    let '(a, i', l') := method (fst s) l in
    (a,
     (i', (snd s ++ map statusCallback (delivered (skipn (List.length l) l')))%list),
     l').

(** [result.passed ? yes : no] *)
Definition verdict (result : TestResult) (yes no : string) : Item :=
  match passed result with
  | Some true => Cout yes
  | Some false => Cout no
  | None => Indeterminate
  end.

(** The lines under ["Test Results:"]. *)
Definition print_result (result : TestResult) : list Item :=
  [ Cout (endl ++ "Test Results:" ++ endl);
    Cout ("  Test ID: " ++ test_id result ++ endl);
    Cout ("  Device ID: " ++ device_id result ++ endl);
    Cout ("  Timestamp: " ++ timestamp result ++ endl);
    Cout "  Result: "; verdict result "PASS" "FAIL"; Cout endl;
    Cout "  Measurement: ";
    match measurement_value result with
    | Some value => CoutDouble value
    | None => Indeterminate
    end;
    Cout (" " ++ units result ++ endl);
    Cout ("  Notes: " ++ notes result ++ endl) ].

Definition is_quit (command : string) : bool :=
  ((command =? "quit") || (command =? "exit"))%string.

(** How [main] ends: it returns, an exception ends the program, or it
    stays in the loop of the interactive mode for ever. *)
Inductive Exit : Type :=
| Returned (code : Z)
| Aborted (e : Stoi.exception)
| Spins.

Section Program.

Variable os : OS.

(** [if (controller.method()) cout << done; else cout << failed <<
    controller.getLastError();] of the interactive mode. *)
Definition attempt (method : Eff Impl bool) (done failed : string)
    : Eff Session unit :=
  ok <- controller method ;;
  if ok then print [Cout (done ++ endl)]
  else
    e <- controller getLastError ;;
    print [Cout (failed ++ e ++ endl)].

(** One round of the interactive loop behind the [getline]: whether it
    leaves the loop. *)
Definition interact (command : string) : Eff Session bool :=
  if is_quit command then ret true
  else
    (if (command =? "start")%string then
       attempt start "Equipment started." "Failed to start: "
     else if (command =? "stop")%string then
       attempt stop "Equipment stopped." "Failed to stop: "
     else if (command =? "pause")%string then
       attempt pause "Equipment paused." "Failed to pause: "
     else if (command =? "resume")%string then
       attempt resume "Equipment resumed." "Failed to resume: "
     else if (String.substring 0 4 command =? "test")%string then
       let device :=
         if Nat.ltb 5 (String.length command)
         then String.substring 5 (String.length command - 5) command
         else "default_device" in
       result <- controller (runTest os device ["default"; "test"]) ;;
       print [Cout "Test "; verdict result "PASSED" "FAILED"; Cout endl;
              Cout ("Notes: " ++ notes result ++ endl)]
     else if (command =? "calibrate")%string then
       attempt (calibrate os) "Calibration completed." "Calibration failed: "
     else if (command =? "status")%string then
       status <- controller getStatus ;;
       print [Cout "Status: "; Cout (statusStr status); Cout endl]
     else if negb (command =? "")%string then
       print [Cout ("Unknown command. Type 'quit' to exit." ++ endl)]
     else ret tt) ;;;
    ret false.

(** The loop [while (true)] on an input of the complete lines [lines]
    followed by [last], the characters behind the last line feed.  At the
    end of the input [getline] gives [last] and, from then on, fails and
    leaves [command] as it is: unless [last] leaves the loop, the loop
    repeats the round on [last] for ever.  The answer is whether the loop
    was left; when it is not, the state is the one after the first of
    these rounds. *)
Fixpoint loop (lines : list string) (last : string) : Eff Session bool :=
  print [Cout (endl ++ "> ")] ;;;
  match lines with
  | command :: rest =>
      quits <- interact command ;;
      if quits then ret true else loop rest last
  | [] => interact last
  end.

(** [// Create and initialize equipment controller] *)
Definition create_and_initialize (v : Locals) : Eff Session unit :=
  controller (setStatusCallback true) ;;;
  print [Cout ("Initializing equipment controller..." ++ endl);
         Cout ("Port: " ++ device_port (config v) ++ endl);
         Cout "Baud Rate: "; CoutInt (baud_rate (config v)); Cout endl] ;;;
  ok <- controller (initialize os (config v)) ;;
  if ok then ret tt
  else
    e <- controller getLastError ;;
    print [Cerr ("Error: Failed to initialize equipment controller: " ++ e ++ endl);
           Cout ("Note: This is expected if no hardware is connected. Continuing in simulation mode." ++ endl)].

(** [// Show status if requested] *)
Definition show_status_if_requested (v : Locals) : Eff Session unit :=
  if show_status v then
    print [Cout (endl ++ "=== Equipment Status ===" ++ endl)] ;;;
    status <- controller getStatus ;;
    print [Cout ("Status: " ++ statusStr status ++ endl)] ;;;
    metrics <- controller getHealthMetrics ;;
    print [Cout (endl ++ "Health Metrics:" ++ endl)] ;;;
    print (flat_map (fun metric : string * float =>
                       [Cout ("  " ++ fst metric ++ ": "); CoutDouble (snd metric);
                        Cout endl]) metrics)
  else ret tt.

(** [// Run calibration if requested] *)
Definition run_calibration_if_requested (v : Locals) : Eff Session unit :=
  if run_calibration v then
    print [Cout (endl ++ "=== Equipment Calibration ===" ++ endl)] ;;;
    ok <- controller (calibrate os) ;;
    if ok then print [Cout ("Calibration completed successfully!" ++ endl)]
    else
      e <- controller getLastError ;;
      print [Cerr ("Calibration failed: " ++ e ++ endl)]
  else ret tt.

(** [// Run test if device specified]: the code [main] returns from inside
    it, if it does. *)
Definition run_test_if_specified (v : Locals) : Eff Session (option Z) :=
  if (test_device v =? "")%string then ret None
  else
    print [Cout (endl ++ "=== Running Test ===" ++ endl);
           Cout ("Device: " ++ test_device v ++ endl)] ;;;
    ok <- controller start ;;
    if ok then
      result <- controller (runTest os (test_device v)
                              ["voltage"; "5.0"; "current"; "0.1"]) ;;
      print (print_result result) ;;;
      controller stop ;;;
      ret None
    else
      e <- controller getLastError ;;
      print [Cerr ("Error: Failed to start equipment: " ++ e ++ endl)] ;;;
      ret (Some 1).

(** [// If no specific action requested, run interactive mode]: whether
    [main] gets past it. *)
Definition interactive_mode (v : Locals) (lines : list string) (last : string)
    : Eff Session bool :=
  if (negb (show_status v) && negb (run_calibration v) &&
      (test_device v =? "")%string)%bool
  then
    print [Cout (endl ++ "=== Interactive Mode ===" ++ endl);
           Cout ("Commands: start, stop, pause, resume, test <device>, calibrate, status, quit" ++ endl)] ;;;
    loop lines last
  else ret true.

(** [main] behind the loop over the arguments.  Where it returns, the
    controller, a local variable, is destroyed. *)
Definition after_arguments (v : Locals) (lines : list string) (last : string)
    : Eff Session Exit :=
  create_and_initialize v ;;;
  show_status_if_requested v ;;;
  run_calibration_if_requested v ;;;
  early <- run_test_if_specified v ;;
  match early with
  | Some code =>
      controller destroy ;;;
      ret (Returned code)
  | None =>
      past <- interactive_mode v lines last ;;
      if past then
        print [Cout (endl ++ "Shutting down..." ++ endl)] ;;;
        controller stop ;;;
        controller destroy ;;;
        ret (Returned 0)
      else ret Spins
  end.

(** [main(argc, argv)] with the arguments [argv[1]], ... and the standard
    input: how it ends, the log of the controller and what was written. *)
Definition main (args lines : list string) (last : string)
    : Exit * list Event * list Item :=
  match parse_args args defaults with
  | Return code out => (Returned code, [], (banner ++ out)%list)
  | Uncaught e => (Aborted e, [], banner)
  | Proceed v =>
      let '(exit, s, l) := after_arguments v lines last (Impl_new, banner) [] in
      (exit, l, snd s)
  end.

End Program.

End Main.

(** ** The unit tests, [tests/unit/simple_test.cpp]

    Each test function builds a controller of its own, which is destroyed
    when the function returns; the system and its log are shared.  No test
    function throws: the handlers of [run_test] are not reached. *)

Module SimpleTest.

Record SimpleTestFramework : Type := {
  tests_run : Z;
  tests_passed : Z;
  tests_failed : Z
}.

(** The framework and what was written so far. *)
Definition State : Type := (SimpleTestFramework * list Main.Item)%type.

Definition print (items : list Main.Item) : Eff State unit :=
  modify (fun st : State => (fst st, (snd st ++ items)%list)).

Definition count (f : SimpleTestFramework -> SimpleTestFramework) : Eff State unit :=
  modify (fun st : State => (f (fst st), snd st)).

Definition run_test (test_name : string) (test_func : Eff unit bool)
    : Eff State unit :=
  print [Main.Cout ("Running test: " ++ test_name ++ " ... ")] ;;;
  count (fun f => {| tests_run := tests_run f + 1;
                     tests_passed := tests_passed f;
                     tests_failed := tests_failed f |}) ;;;
  ok <- (fun st l => let '(ok, _, l') := test_func tt l in (ok, st, l')) ;;
  if ok : bool then
    count (fun f => {| tests_run := tests_run f;
                       tests_passed := tests_passed f + 1;
                       tests_failed := tests_failed f |}) ;;;
    print [Main.Cout ("PASS" ++ Main.endl)]
  else
    count (fun f => {| tests_run := tests_run f;
                       tests_passed := tests_passed f;
                       tests_failed := tests_failed f + 1 |}) ;;;
    print [Main.Cout ("FAIL" ++ Main.endl)].

Definition print_summary : Eff State unit :=
  f <- gets (fun st : State => fst st) ;;
  print [Main.Cout (Main.endl ++ "=== Test Summary ===" ++ Main.endl);
         Main.Cout "Tests run: "; Main.CoutInt (tests_run f); Main.Cout Main.endl;
         Main.Cout "Passed: "; Main.CoutInt (tests_passed f); Main.Cout Main.endl;
         Main.Cout "Failed: "; Main.CoutInt (tests_failed f); Main.Cout Main.endl;
         Main.Cout "Success rate: ";
         Main.CoutInt (if 0 <? tests_run f
                       then Z.quot (tests_passed f * 100) (tests_run f) else 0);
         Main.Cout ("%" ++ Main.endl)].

Definition all_tests_passed (f : SimpleTestFramework) : bool :=
  ((tests_failed f =? 0) && (0 <? tests_run f))%bool.

(** [EquipmentController controller; ... return a;] *)
Definition with_controller {A : Type} (body : Eff Impl A) : Eff unit A :=
  fun _ l =>
    let '(a, i, l1) := body Impl_new l in
    let '(_, _, l2) := destroy i l1 in
    (a, tt, l2).

(** The flag that the callback of [test_status_callback] sets: whether
    the callback was called since the log was [before]. *)
Definition callback_called (before : list Event) : Eff Impl bool :=
  fun i l =>
    (match delivered (skipn (List.length before) l) with
     | [] => false
     | _ :: _ => true
     end, i, l).

Section Tests.

Variable os : OS.

Definition test_equipment_controller_creation : Eff unit bool :=
  with_controller (ret true).

Definition test_equipment_controller_status : Eff unit bool :=
  with_controller
    (status <- getStatus ;;
     ret (status_eqb status IDLE)).

Definition test_equipment_configuration : Eff unit bool :=
  with_controller
    (initialize os
       {| device_port := "test_port"; baud_rate := 115200;
          measurement_tolerance := 0.1%float; max_retry_attempts := 3;
          enable_logging := true; log_file_path := "test.log" |} ;;;
     ret true).

Definition test_equipment_state_transitions : Eff unit bool :=
  with_controller
    (status <- getStatus ;;
     if negb (status_eqb status IDLE) then ret false
     else
       start ;;;
       stop ;;;
       pause ;;;
       resume ;;;
       ret true).

Definition test_test_execution : Eff unit bool :=
  with_controller
    (result <- runTest os "test_device" ["test_param"] ;;
     ret (negb (test_id result =? "")%string &&
          negb (device_id result =? "")%string)%bool).

Definition test_health_metrics : Eff unit bool :=
  with_controller
    (metrics <- getHealthMetrics ;;
     ret (match metrics with
          | [] => false
          | _ :: _ => true
          end)).

(** The interface is destroyed when the function returns. *)
Definition test_hardware_interface_creation : Eff unit bool :=
  fun _ l =>
    match createHardwareInterface "serial" with
    | Some interface =>
        let '(_, _, l') := SerialInterface.disconnect interface l in (true, tt, l')
    | None => (false, tt, l)
    end.

Definition test_calibration_interface : Eff unit bool :=
  with_controller
    (calibrate os ;;;
     ret true).

Definition test_status_callback : Eff unit bool :=
  fun u l =>
    with_controller
      (setStatusCallback true ;;;
       initialize os
         {| device_port := "test_port"; baud_rate := 115200;
            measurement_tolerance := 0.1%float; max_retry_attempts := 3;
            enable_logging := false; log_file_path := EmptyString |} ;;;
       call (Sleep 50) (fun _ => tt) ;;;
       callback_called l) u l.

Definition test_error_handling : Eff unit bool :=
  with_controller
    (getLastError ;;;
     ret true).

(** [main()]: its return code, the log and what it wrote. *)
Definition main : Z * list Event * list Main.Item :=
  let '(_, st, l) :=
    (print [Main.Cout ("=== Automated Mechatronic Test System - Unit Tests ===" ++ Main.endl);
            Main.Cout ("Running basic functionality tests..." ++ Main.endl);
            Main.Cout Main.endl] ;;;
     run_test "Equipment Controller Creation" test_equipment_controller_creation ;;;
     run_test "Equipment Controller Status" test_equipment_controller_status ;;;
     run_test "Equipment Configuration" test_equipment_configuration ;;;
     run_test "Equipment State Transitions" test_equipment_state_transitions ;;;
     run_test "Test Execution Interface" test_test_execution ;;;
     run_test "Health Metrics" test_health_metrics ;;;
     run_test "Hardware Interface Creation" test_hardware_interface_creation ;;;
     run_test "Calibration Interface" test_calibration_interface ;;;
     run_test "Status Callback" test_status_callback ;;;
     run_test "Error Handling" test_error_handling ;;;
     print_summary)%eff
      ({| tests_run := 0; tests_passed := 0; tests_failed := 0 |}, []) [] in
  ((if all_tests_passed (fst st) then 0 else 1), l, snd st).

End Tests.

End SimpleTest.

(** A test function that answers [true] whatever happened before. *)
Definition passes (test_func : Eff unit bool) : Prop :=
  forall l : list Event, fst (fst (test_func tt l)) = true.

(** ** Further words, for the program *)

(** The descriptors opened and not closed along the log are those the
    controller holds, and it holds a descriptor that [open] gave. *)
Definition balanced (os : OS) (i : Impl) (l : list Event) : Prop :=
  holds_valid i /\ opened os l - closed l = held i.

(** A stretch of the program that keeps the descriptors balanced. *)
Definition keeps (os : OS) {A : Type} (m : Eff Main.Session A) : Prop :=
  forall (s : Main.Session) (l : list Event),
  balanced os (fst s) l ->
  let '(_, s', l') := m s l in balanced os (fst s') l'.

(** A reading of the clock; [runTest] reads it, and nothing else does. *)
Definition is_clock (e : Event) : bool :=
  match e with
  | Localtime => true
  | _ => false
  end.

(** ** The scenarios at work *)

Example bench_reaches_running :
  run Scenario.bench
    [SetStatusCallback true; Initialize Scenario.usb_config; Start] Impl_new [] =
  ([VUnit; VBool true; VBool true],
   Scenario.running,
   [Open "/dev/ttyUSB0"; Tcgetattr 3; Tcsetattr 3;
    Commit IDLE "Equipment initialized successfully";
    Callback IDLE "Equipment initialized successfully";
    Commit RUNNING "Equipment started"; Callback RUNNING "Equipment started"]).
Proof. reflexivity. Qed.

Example initialize_without_device :
  initialize Scenario.no_device Scenario.usb_config Impl_new [] =
  (false,
   {| status := IDLE; config := Some Scenario.usb_config;
      lastError := "Failed to connect to device on port /dev/ttyUSB0";
      statusCallback := false;
      hardware := Some SerialInterface.new |},
   [Open "/dev/ttyUSB0"; Commit IDLE "Equipment initialized (simulation mode)"]).
Proof. reflexivity. Qed.

Example calibrate_without_device :
  calibrate Scenario.no_device Impl_new [] =
  (false, set_status ERROR Impl_new,
   [Commit MAINTENANCE "Calibration in progress"; Sleep 2000;
    Commit ERROR "Calibration failed"]).
Proof. reflexivity. Qed.

Example calibrate_on_the_bench :
  calibrate Scenario.bench (set_status IDLE Scenario.running) [] =
  (true, set_status IDLE Scenario.running,
   [Commit MAINTENANCE "Calibration in progress";
    Callback MAINTENANCE "Calibration in progress"; Sleep 2000;
    Write 3 ("CALIBRATE" ++ Str.crlf); Poll 3 10000;
    Commit IDLE "Calibration completed successfully";
    Callback IDLE "Calibration completed successfully"]).
Proof. reflexivity. Qed.

Example stod_takes_the_numeral_in_front :
  Stod.stod "4.98" = Stod.Converted 4.98%float /\
  Stod.stod " 4.98abc" = Stod.Converted 4.98%float /\
  Stod.stod "abc" = Stod.Invalid_argument /\
  Stod.stod "1e999" = Stod.Out_of_range.
Proof. repeat split. Qed.

Example getline_drops_an_empty_last_token :
  Str.split_colon "RESULT:4.98:V:PASS" = ["RESULT"; "4.98"; "V"; "PASS"] /\
  Str.split_colon "RESULT:4.98:V:" = ["RESULT"; "4.98"; "V"] /\
  Str.split_colon "RESULT::V:PASS" = ["RESULT"; ""; "V"; "PASS"].
Proof. repeat split. Qed.

(** ** The life cycle *)

Lemma status_eqb_eq (a b : EquipmentStatus) : status_eqb a b = true <-> a = b.
Proof. destruct a, b; cbn; split; intro H; try reflexivity; discriminate H. Qed.

(** What a life-cycle operation does, read off the table. *)
Lemma lifecycle_step (os : OS) (t : Lifecycle) (i : Impl) (l : list Event) :
  exec os (op_of t) i l =
  match table (status i) t with
  | Some target =>
      if status_eqb (status i) target then (VBool true, i, l)
      else (VBool true, set_status target i,
            (l ++ notification (statusCallback i) target (message t))%list)
  | None => (VBool false, set_lastError (refusal_text (op_of t)) i, l)
  end.
Proof.
  destruct i as [s c e cb h].
  destruct t, s, cb; cbn; try rewrite <- app_assoc; reflexivity.
Qed.

(** C1. From a controller in any state, and so from a new one in status
    Idle, after every sequence of start, stop, pause and resume calls a
    further call succeeds exactly when the table has a line for it, and then
    leads to the status of that line; every other call returns false,
    changes nothing but the last error, which holds the reason of the
    refusal and is what getLastError returns.  The operations are total
    functions: no call throws or aborts. *)
Theorem lifecycle_follows_table (os : OS) (i0 : Impl) (l0 : list Event)
    (before : list Lifecycle) (t : Lifecycle) :
  let '(_, i, l) := run os (map op_of before) i0 l0 in
  let '(v, i', l') := exec os (op_of t) i l in
  match table (status i) t with
  | Some target =>
      v = VBool true /\ status i' = target /\ lastError i' = lastError i
  | None =>
      v = VBool false /\ i' = set_lastError (lastError i') i /\ l' = l /\
      refusal (op_of t) = Some (fst (fst (getLastError i' l'))) /\
      lastError i' <> EmptyString
  end.
Proof.
  destruct (run os (map op_of before) i0 l0) as [[vs i] l].
  rewrite lifecycle_step.
  destruct (table (status i) t) as [target|] eqn:Ht.
  - destruct (status_eqb (status i) target) eqn:Hs.
    + apply status_eqb_eq in Hs. repeat split. exact Hs.
    + repeat split.
  - destruct t, (status i); try discriminate Ht; cbn; repeat split; discriminate.
Qed.

(** ** Initialization *)

(** [connect] answers true exactly when it leaves the interface connected,
    and acts on the serial line only. *)
Lemma connect_outcome (os : OS) (port : string) (baud : Z) (l : list Event) :
  let '(ok, h', l') := SerialInterface.connect os port baud SerialInterface.new l in
  SerialInterface.connected h' = ok /\
  exists calls, l' = (l ++ calls)%list /\ Forall (fun e => is_transport e = true) calls.
Proof.
  unfold SerialInterface.connect, bind, call, modify, ret.
  cbn. destruct (sys_open os l port <? 0); cbn.
  { split; [reflexivity|]. eexists; split; [reflexivity|]. repeat constructor. }
  destruct (sys_tcgetattr os _ _ =? 0); cbn.
  2:{ split; [reflexivity|]. rewrite <- !app_assoc.
      eexists; split; [reflexivity|]. repeat constructor. }
  destruct (sys_tcsetattr os _ _ =? 0); cbn; rewrite <- !app_assoc.
  all: split; [reflexivity|]; eexists; (split; [reflexivity|]); repeat constructor.
Qed.

(** The destructor of the interface that [initialize] replaces. *)
Lemma disconnect_outcome (i : Impl) (l : list Event) :
  let '(_, i', l') := deref SerialInterface.disconnect i l in
  status i' = status i /\ lastError i' = lastError i /\
  statusCallback i' = statusCallback i /\
  exists calls, l' = (l ++ calls)%list /\ Forall (fun e => is_transport e = true) calls.
Proof.
  destruct i as [s c e cb h].
  unfold deref, SerialInterface.disconnect, bind, call, gets, modify, ret.
  destruct h as [[fd [|]]|]; cbn; [destruct (0 <=? fd); cbn| |];
    repeat split;
    first [ exists [Close fd]; split; [reflexivity | repeat constructor]
          | exists []; split; [rewrite app_nil_r; reflexivity | constructor] ].
Qed.

(** All of [initialize]. *)
Lemma initialize_outcome (os : OS) (cfg : EquipmentConfig) (i : Impl)
    (l : list Event) :
  let '(ok, i', l') := initialize os cfg i l in
  status i' = IDLE /\
  statusCallback i' = statusCallback i /\
  lastError i' =
    (if ok then lastError i
     else "Failed to connect to device on port " ++ device_port cfg) /\
  option_map SerialInterface.connected (hardware i') = Some ok /\
  (exists l1,
      ok = fst (fst (SerialInterface.connect os (device_port cfg) (baud_rate cfg)
                       SerialInterface.new l1))) /\
  exists calls,
    Forall (fun e => is_transport e = true) calls /\
    l' = (l ++ calls ++
          notification (statusCallback i) IDLE
            (if ok then "Equipment initialized successfully"
             else "Equipment initialized (simulation mode)"))%list.
Proof.
  pose proof (disconnect_outcome (set_config cfg i) l) as D.
  unfold initialize.
  unfold bind at 1. unfold modify at 1. unfold bind at 1.
  destruct (deref SerialInterface.disconnect (set_config cfg i) l)
    as [[b i1] l1].
  destruct D as (Ds & De & Dc & calls1 & -> & T1).
  replace (status (set_config cfg i)) with (status i) in Ds by (destruct i; reflexivity).
  replace (lastError (set_config cfg i)) with (lastError i) in De by (destruct i; reflexivity).
  replace (statusCallback (set_config cfg i)) with (statusCallback i) in Dc
    by (destruct i; reflexivity).
  destruct i1 as [s1 c1 e1 cb1 h1]. cbn in Ds, De, Dc. subst s1 e1 cb1.
  unfold bind, modify, gets, ret, deref, setStatus, call.
  cbn -[SerialInterface.connect String.append].
  pose proof (connect_outcome os (device_port cfg) (baud_rate cfg) (l ++ calls1)%list) as C.
  destruct (SerialInterface.connect os (device_port cfg) (baud_rate cfg)
              SerialInterface.new (l ++ calls1)%list) as [[ok h'] l2] eqn:E.
  destruct C as (Hc & calls2 & -> & T2).
  assert (Forall (fun e => is_transport e = true) (calls1 ++ calls2)%list) as T
    by (apply Forall_app; split; assumption).
  destruct ok, (statusCallback i); cbn -[String.append SerialInterface.connect];
    (split; [reflexivity|]); (split; [reflexivity|]); (split; [reflexivity|]);
    (split; [rewrite Hc; reflexivity|]);
    (split; [exists (l ++ calls1)%list; rewrite E; reflexivity|]);
    exists (calls1 ++ calls2)%list; (split; [exact T|]);
    rewrite <- !app_assoc; reflexivity.
Qed.

(** C2. For every configuration and from every state, initialize leaves
    the status at Idle, whether or not the connection of the transport
    succeeded.  Its result is the result of the transport's connect on a
    fresh serial interface; when that is false, the last error is the
    non-empty text "Failed to connect to device on port <port>" and
    getStatus still reports Idle; when it is true the last error is
    untouched. *)
Theorem initialize_leaves_idle (os : OS) (cfg : EquipmentConfig) (i : Impl)
    (l : list Event) :
  let '(ok, i', l') := initialize os cfg i l in
  fst (fst (getStatus i' l')) = IDLE /\
  (exists l1,
      ok = fst (fst (SerialInterface.connect os (device_port cfg) (baud_rate cfg)
                       SerialInterface.new l1))) /\
  option_map SerialInterface.connected (hardware i') = Some ok /\
  if ok then lastError i' = lastError i
  else fst (fst (getLastError i' l')) =
         "Failed to connect to device on port " ++ device_port cfg /\
       fst (fst (getLastError i' l')) <> EmptyString.
Proof.
  pose proof (initialize_outcome os cfg i l) as H.
  destruct (initialize os cfg i l) as [[ok i'] l'].
  destruct H as (Hs & _ & He & Hh & Hc & _).
  split; [exact Hs|]. split; [exact Hc|]. split; [exact Hh|].
  unfold getLastError, gets. cbn [fst snd].
  destruct ok; [exact He|]. split; [exact He|].
  rewrite He. discriminate.
Qed.

(** ** Running a test *)

Lemma runTest_not_running (os : OS) (device_id : string)
    (test_parameters : list string) (i : Impl) (l : list Event) :
  status i <> RUNNING ->
  runTest os device_id test_parameters i l =
  (set_notes "Equipment not in running state"
     (set_passed false (fresh_result os device_id l)),
   i, ((l ++ [Localtime]) ++ [Localtime])%list).
Proof.
  intro H. unfold runTest, getCurrentTimestamp, bind, call, gets, ret, fresh_result.
  destruct (status i); try reflexivity. contradiction H; reflexivity.
Qed.

(** With the status Running and a connected interface, [runTest] sends the
    command and decodes what it receives. *)
Lemma runTest_exchange (os : OS) (device_id : string)
    (test_parameters : list string) (i : Impl) (l : list Event)
    (h : SerialInterface.t) :
  status i = RUNNING -> hardware i = Some h -> SerialInterface.connected h = true ->
  runTest os device_id test_parameters i l =
  let l2 := ((l ++ [Localtime]) ++ [Localtime])%list in
  let result := fresh_result os device_id l in
  let '(sent, _, l3) :=
    SerialInterface.sendCommand os (test_command device_id test_parameters) h l2 in
  if sent then
    let '(response, _, l4) := SerialInterface.receiveResponse os 5000 h l3 in
    (decode_response response result, i, l4)
  else
    (set_notes "Failed to send test command" (set_passed false result), i, l3).
Proof.
  destruct i as [s c e cb hw]. cbn [status hardware]. intros -> -> Hc.
  destruct h as [fd conn]. cbn in Hc. subst conn.
  unfold runTest, getCurrentTimestamp, deref, SerialInterface.isConnected,
    SerialInterface.sendCommand, SerialInterface.receiveResponse,
    bind, call, gets, ret, fresh_result.
  cbn -[String.append Str.rstrip SerialInterface.poll decode_response
        test_command Z.of_nat String.length Chrono.put_time].
  destruct (sys_write os _ fd _ =? _); reflexivity.
Qed.

Lemma transport_app (l1 l2 : list Event) :
  transport (l1 ++ l2) = (transport l1 ++ transport l2)%list.
Proof. apply filter_app. Qed.

(** C3. Whatever the device identifier and the parameters, runTest called
    while the status is not Running returns a result with passed = false
    and the note "Equipment not in running state"; the controller is
    unchanged, and the call only read the clock twice: nothing was sent to
    or received from the transport. *)
Theorem runTest_refused_outside_running (os : OS) (device_id : string)
    (test_parameters : list string) (i : Impl) (l : list Event) :
  status i <> RUNNING ->
  let '(r, i', l') := runTest os device_id test_parameters i l in
  passed r = Some false /\
  notes r = "Equipment not in running state" /\
  i' = i /\
  l' = (l ++ [Localtime; Localtime])%list /\
  transport l' = transport l.
Proof.
  intro H. rewrite (runTest_not_running os device_id test_parameters i l H).
  repeat split.
  - rewrite <- app_assoc. reflexivity.
  - rewrite !transport_app. cbn. rewrite !app_nil_r. reflexivity.
Qed.

Lemma runTest_refused_witness :
  status (set_status PAUSED Scenario.running) <> RUNNING /\
  let '(r, i', l') :=
    runTest Scenario.bench "D1" ["voltage"; "5.0"]
      (set_status PAUSED Scenario.running) [] in
  passed r = Some false /\
  notes r = "Equipment not in running state" /\
  i' = set_status PAUSED Scenario.running /\
  l' = ([] ++ [Localtime; Localtime])%list /\
  transport l' = transport [].
Proof.
  split.
  - discriminate.
  - apply (runTest_refused_outside_running Scenario.bench "D1"
             ["voltage"; "5.0"] (set_status PAUSED Scenario.running) []).
    discriminate.
Defined.

(** ** Numbers, as the specification and as [std::stod] read them *)











(** C6. With the status Running and a connected transport that takes the
    whole line of the command and delivers the response RESULT:4.98:V:PASS,
    runTest for device D1 with the parameters voltage and 5.0 writes the
    command TEST:D1:voltage:5.0 (and the line terminator) and returns a
    result with passed = true, measurement_value = 4.98 and units = "V". *)
Theorem runTest_round_trip (os : OS) (i : Impl) (l : list Event)
    (h : SerialInterface.t) :
  status i = RUNNING ->
  hardware i = Some h ->
  SerialInterface.connected h = true ->
  let fd := SerialInterface.serial_fd h in
  let l2 := (l ++ [Localtime; Localtime])%list in
  let wire := "TEST:D1:voltage:5.0" ++ Str.crlf in
  sys_write os l2 fd wire = Z.of_nat (String.length wire) ->
  fst (fst (SerialInterface.receiveResponse os 5000 h (l2 ++ [Write fd wire])%list))
    = "RESULT:4.98:V:PASS" ->
  let '(r, i', l') := runTest os "D1" ["voltage"; "5.0"] i l in
  passed r = Some true /\
  measurement_value r = Some 4.98%float /\
  units r = "V" /\
  i' = i /\
  l' = (l2 ++ [Write fd wire; Poll fd 5000])%list.
Proof.
  intros Hs Hh Hc fd l2 wire Hw Hr.
  rewrite (runTest_exchange os "D1" ["voltage"; "5.0"] i l h Hs Hh Hc).
  cbv zeta. replace ((l ++ [Localtime]) ++ [Localtime])%list with l2
    by (unfold l2; rewrite <- app_assoc; reflexivity).
  change (test_command "D1" ["voltage"; "5.0"]) with "TEST:D1:voltage:5.0".
  revert Hr.
  unfold SerialInterface.sendCommand, SerialInterface.receiveResponse,
    bind, gets, call, ret.
  rewrite Hc. cbn [negb].
  change ("TEST:D1:voltage:5.0" ++ Str.crlf) with wire.
  fold fd. rewrite Hw, Z.eqb_refl.
  cbn [fst snd]. intros ->.
  repeat split. unfold l2. rewrite <- !app_assoc. reflexivity.
Qed.

Lemma runTest_round_trip_witness :
  let os := Scenario.bench in
  let i := Scenario.running in
  let h := {| SerialInterface.serial_fd := 3; SerialInterface.connected := true |} in
  let wire := "TEST:D1:voltage:5.0" ++ Str.crlf in
  (status i = RUNNING /\ hardware i = Some h /\
   SerialInterface.connected h = true /\
   sys_write os [Localtime; Localtime] 3 wire = Z.of_nat (String.length wire) /\
   fst (fst (SerialInterface.receiveResponse os 5000 h
               [Localtime; Localtime; Write 3 wire])) = "RESULT:4.98:V:PASS") /\
  let '(r, i', l') := runTest os "D1" ["voltage"; "5.0"] i [] in
  passed r = Some true /\
  measurement_value r = Some 4.98%float /\
  units r = "V" /\
  i' = i /\
  l' = [Localtime; Localtime; Write 3 wire; Poll 3 5000].
Proof.
  cbv zeta. split.
  - repeat split.
  - apply (runTest_round_trip Scenario.bench Scenario.running []
             {| SerialInterface.serial_fd := 3; SerialInterface.connected := true |});
      reflexivity.
Defined.

(** ** Calibration *)

(** What [calibrate] does once the status is Idle, by the state of the
    transport: the events it logs and its answer. *)
Lemma calibrate_from_idle (os : OS) (i : Impl) (l : list Event) :
  status i = IDLE ->
  let cb := statusCallback i in
  let l1 := (l ++ notification cb MAINTENANCE "Calibration in progress"
               ++ [Sleep 2000])%list in
  let failure := notification cb ERROR "Calibration failed" in
  let success := notification cb IDLE "Calibration completed successfully" in
  calibrate os i l =
  match hardware i with
  | Some h =>
      if SerialInterface.connected h then
        let fd := SerialInterface.serial_fd h in
        let l2 := (l1 ++ [Write fd ("CALIBRATE" ++ Str.crlf)])%list in
        let response :=
          Str.rstrip (SerialInterface.poll (sys_read os l2 fd 10000) EmptyString) in
        let l3 := (l2 ++ [Poll fd 10000])%list in
        if Str.contains "CAL_OK" response
        then (true, set_status IDLE i, (l3 ++ success)%list)
        else (false, set_status ERROR i, (l3 ++ failure)%list)
      else (false, set_status ERROR i, (l1 ++ failure)%list)
  | None => (false, set_status ERROR i, (l1 ++ failure)%list)
  end.
Proof.
  destruct i as [s c e cb h]. cbn [status hardware statusCallback]. intros ->.
  unfold calibrate, setStatus, deref, SerialInterface.isConnected,
    SerialInterface.sendCommand, SerialInterface.receiveResponse,
    bind, call, gets, modify, ret, notification.
  destruct h as [[fd [|]]|], cb;
    cbn -[String.append Str.rstrip SerialInterface.poll Str.contains];
    repeat rewrite <- app_assoc;
    cbn -[String.append Str.rstrip SerialInterface.poll Str.contains].
  all: try reflexivity.
  all: destruct (Str.contains "CAL_OK" _);
    cbn -[String.append Str.rstrip SerialInterface.poll Str.contains];
    repeat rewrite <- app_assoc; reflexivity.
Qed.

(** C4. calibrate succeeds only from the status Idle.  In any other status
    it returns false and changes nothing but the last error.  In Idle it
    moves the status to Maintenance and sleeps for the settling delay; with
    a connected transport it then sends CALIBRATE and waits up to 10000 ms
    for the response: if that contains CAL_OK the status becomes Idle and
    the answer is true, on any other response the status becomes Error and
    the answer is false; with no transport or a disconnected one the status
    becomes Error and the answer is false. *)
Theorem calibrate_only_from_idle (os : OS) (i : Impl) (l : list Event) :
  let '(ok, i', l') := calibrate os i l in
  let cb := statusCallback i in
  if status_eqb (status i) IDLE then
    let l1 := (l ++ notification cb MAINTENANCE "Calibration in progress"
                 ++ [Sleep 2000])%list in
    match option_map SerialInterface.connected (hardware i) with
    | Some true =>
        exists fd response,
          option_map SerialInterface.serial_fd (hardware i) = Some fd /\
          response = fst (fst (SerialInterface.receiveResponse os 10000
                                 {| SerialInterface.serial_fd := fd;
                                    SerialInterface.connected := true |}
                                 (l1 ++ [Write fd ("CALIBRATE" ++ Str.crlf)])%list)) /\
          if Str.contains "CAL_OK" response then
            ok = true /\ i' = set_status IDLE i /\
            l' = (l1 ++ [Write fd ("CALIBRATE" ++ Str.crlf); Poll fd 10000]
                    ++ notification cb IDLE "Calibration completed successfully")%list
          else
            ok = false /\ i' = set_status ERROR i /\
            l' = (l1 ++ [Write fd ("CALIBRATE" ++ Str.crlf); Poll fd 10000]
                    ++ notification cb ERROR "Calibration failed")%list
    | _ =>
        ok = false /\ i' = set_status ERROR i /\
        l' = (l1 ++ notification cb ERROR "Calibration failed")%list
    end
  else
    ok = false /\ status i' = status i /\ l' = l /\
    i' = set_lastError "Equipment must be idle for calibration" i.
Proof.
  destruct (status_eqb (status i) IDLE) eqn:Hs.
  - assert (status i = IDLE) as Hi by (destruct (status i); try discriminate; reflexivity).
    rewrite (calibrate_from_idle os i l Hi). cbv zeta.
    destruct (hardware i) as [[fd [|]]|]; cbn [option_map SerialInterface.connected
      SerialInterface.serial_fd].
    + match goal with
      | |- context [Str.contains "CAL_OK" ?r] => set (response := r)
      end.
      destruct (Str.contains "CAL_OK" response) eqn:Hr.
      * exists fd, response. split; [reflexivity|]. split; [reflexivity|].
        rewrite Hr. repeat split. repeat rewrite <- app_assoc. reflexivity.
      * exists fd, response. split; [reflexivity|]. split; [reflexivity|].
        rewrite Hr. repeat split. repeat rewrite <- app_assoc. reflexivity.
    + repeat split.
    + repeat split.
  - unfold calibrate, bind, gets, modify, ret. rewrite Hs. cbn. repeat split.
Qed.

(** ** The identifiers of a test *)

Lemma parse_response_ids (response : string) (result : TestResult) :
  test_id (parse_response response result) = test_id result /\
  device_id (parse_response response result) = device_id result.
Proof.
  unfold parse_response.
  destruct (_ && _)%bool; [destruct (Stod.stod _)|]; split; reflexivity.
Qed.

Lemma decode_response_ids (response : string) (result : TestResult) :
  test_id (decode_response response result) = test_id result /\
  device_id (decode_response response result) = device_id result.
Proof.
  destruct response; [split; reflexivity | apply parse_response_ids].
Qed.

(** All calls of [runTest]: the controller is as before, the identifiers
    are the ones set at the start, and behind the two readings of the clock
    the log holds actions on the serial line only. *)
Lemma runTest_outcome (os : OS) (device_id0 : string)
    (test_parameters : list string) (i : Impl) (l : list Event) :
  let '(r, i', l') := runTest os device_id0 test_parameters i l in
  i' = i /\
  test_id r = "TEST_" ++ Chrono.put_time (sys_localtime os l) /\
  device_id r = device_id0 /\
  exists calls,
    l' = (l ++ Localtime :: Localtime :: calls)%list /\
    Forall (fun e => is_transport e = true) calls.
Proof.
  destruct (status_eqb (status i) RUNNING) eqn:Hs.
  - apply status_eqb_eq in Hs.
    destruct (hardware i) as [[fd [|]]|] eqn:Hh.
    + rewrite (runTest_exchange os device_id0 test_parameters i l
                 {| SerialInterface.serial_fd := fd;
                    SerialInterface.connected := true |} Hs Hh eq_refl).
      cbv zeta.
      unfold SerialInterface.sendCommand, SerialInterface.receiveResponse,
        bind, call, gets, ret.
      cbn -[String.append Str.rstrip SerialInterface.poll decode_response
            test_command Z.of_nat String.length fresh_result].
      rewrite <- !app_assoc.
      destruct (_ =? _).
      * destruct (decode_response_ids
                    (Str.rstrip (SerialInterface.poll
                       (sys_read os
                          (l ++ [Localtime] ++ [Localtime] ++
                             [Write fd (test_command device_id0 test_parameters
                                          ++ Str.crlf)])%list fd 5000) EmptyString))
                    (fresh_result os device_id0 l)) as [-> ->].
        repeat split. eexists. split; [reflexivity|]. repeat constructor.
      * repeat split. eexists. split; [reflexivity|]. repeat constructor.
    + destruct i as [s c e cb h]. cbn in Hs, Hh. subst s h.
      cbn. rewrite <- app_assoc. repeat split.
      exists []. split; [reflexivity | constructor].
    + destruct i as [s c e cb h]. cbn in Hs, Hh. subst s h.
      cbn. rewrite <- app_assoc. repeat split.
      exists []. split; [reflexivity | constructor].
  - assert (status i <> RUNNING) as Hn.
    { intro E. apply status_eqb_eq in E. rewrite E in Hs. discriminate Hs. }
    rewrite (runTest_not_running os device_id0 test_parameters i l Hn).
    rewrite <- app_assoc. repeat split.
    exists []. split; [reflexivity | constructor].
Qed.

(** ** The status callback *)

Lemma calibrate_refused (os : OS) (i : Impl) (l : list Event) :
  status i <> IDLE ->
  calibrate os i l =
  (false, set_lastError "Equipment must be idle for calibration" i, l).
Proof.
  intro H. unfold calibrate, bind, gets, modify, ret.
  destruct (status i); try reflexivity. contradiction H; reflexivity.
Qed.

Lemma Synchronous_app (a b : list Event) :
  Synchronous a -> Synchronous b -> Synchronous (a ++ b).
Proof.
  intros Ha Hb. induction Ha as [|s m rest _ IH|e rest He _ IH]; cbn.
  - exact Hb.
  - apply sync_notified, IH.
  - apply sync_other; [exact He | exact IH].
Qed.

Lemma transport_is_quiet (calls : list Event) :
  Forall (fun e => is_transport e = true) calls -> Synchronous calls.
Proof.
  induction 1 as [|e rest He _ IH]; [constructor|].
  apply sync_other; [destruct e; try discriminate He; reflexivity | exact IH].
Qed.

Lemma Synchronous_delivered (l : list Event) :
  Synchronous l -> delivered l = committed l.
Proof.
  unfold delivered, committed.
  induction 1 as [|s m rest _ IH|e rest He _ IH]; cbn.
  - reflexivity.
  - f_equal. exact IH.
  - destruct e; try discriminate He; exact IH.
Qed.

(** What every public operation leaves alone: the last error, unless the
    operation answers false and records a reason; the pairing of
    assignments to the status and calls of the callback; the log, when the
    operation refuses. *)
Lemma exec_frame (os : OS) (op : Op) (i : Impl) (l : list Event) :
  let '(v, i', l') := exec os op i l in
  (lastError i' = lastError i \/ (v = VBool false /\ lastError i' <> EmptyString)) /\
  (keeps_callback op = true -> statusCallback i = true ->
   statusCallback i' = true /\
   exists new, l' = (l ++ new)%list /\ Synchronous new) /\
  (refuses op (status i) = true \/ (op = Stop /\ status i = IDLE) -> l' = l).
Proof.
  assert (lifecycle : forall t,
    let '(v, i', l') := exec os (op_of t) i l in
    (lastError i' = lastError i \/ (v = VBool false /\ lastError i' <> EmptyString)) /\
    (statusCallback i = true ->
     statusCallback i' = true /\
     exists new, l' = (l ++ new)%list /\ Synchronous new) /\
    (refuses (op_of t) (status i) = true \/ (op_of t = Stop /\ status i = IDLE) ->
     l' = l)).
  { intro t. rewrite lifecycle_step.
    destruct i as [s c e cb h]. cbn [status statusCallback lastError].
    destruct t, s; cbn -[String.append];
      (split; [first [left; reflexivity
                     | right; split; [reflexivity | discriminate]]|]);
      (split; [intros ->; split; [reflexivity|];
               first [ exists []; split; [rewrite app_nil_r; reflexivity|constructor]
                     | eexists; split; [reflexivity|repeat constructor] ]
              | intros [H|[H1 H2]]; first [reflexivity | discriminate]]). }
  pose (quiet := fun l0 : list Event =>
                   ex_intro (fun new => l0 = (l0 ++ new)%list /\ Synchronous new) []
                     (conj (eq_sym (app_nil_r l0)) sync_nil)).
  destruct op as [cfg| | | | |dev params| | |callback| |].
  - pose proof (initialize_outcome os cfg i l) as H. cbn [exec]. unfold bind, ret.
    destruct (initialize os cfg i l) as [[ok i'] l'].
    destruct H as (_ & Hcb & He & _ & _ & calls & T & ->).
    split; [destruct ok; [left; exact He
                         | right; split; [reflexivity | rewrite He; discriminate]]|].
    split; [|intros [H|[H _]]; discriminate H].
    intros _ Hi. rewrite Hi in *. split; [exact Hcb|].
    eexists. split; [reflexivity|].
    apply Synchronous_app; [apply transport_is_quiet, T | repeat constructor].
  - pose proof (lifecycle LStart) as H. cbn [op_of] in H.
    destruct (exec os Start i l) as [[v i'] l']. destruct H as (A & B & C).
    split; [exact A|]. split; [intros _; exact B | exact C].
  - pose proof (lifecycle LStop) as H. cbn [op_of] in H.
    destruct (exec os Stop i l) as [[v i'] l']. destruct H as (A & B & C).
    split; [exact A|]. split; [intros _; exact B | exact C].
  - pose proof (lifecycle LPause) as H. cbn [op_of] in H.
    destruct (exec os Pause i l) as [[v i'] l']. destruct H as (A & B & C).
    split; [exact A|]. split; [intros _; exact B | exact C].
  - pose proof (lifecycle LResume) as H. cbn [op_of] in H.
    destruct (exec os Resume i l) as [[v i'] l']. destruct H as (A & B & C).
    split; [exact A|]. split; [intros _; exact B | exact C].
  - pose proof (runTest_outcome os dev params i l) as H.
    cbn [exec]. unfold bind, ret.
    destruct (runTest os dev params i l) as [[r i'] l'].
    destruct H as (-> & _ & _ & calls & -> & T).
    split; [left; reflexivity|]. split; [|intros [H|[H _]]; discriminate H].
    intros _ Hi. split; [exact Hi|]. eexists. split; [reflexivity|].
    apply sync_other; [reflexivity|]. apply sync_other; [reflexivity|].
    apply transport_is_quiet, T.
  - cbn. split; [left; reflexivity|]. split; [|intros [H|[H _]]; discriminate H].
    intros _ Hi. split; [exact Hi | apply quiet].
  - cbn. split; [left; reflexivity|]. split; [|intros [H|[H _]]; discriminate H].
    intros _ Hi. split; [exact Hi | apply quiet].
  - destruct callback; cbn.
    + split; [left; destruct i; reflexivity|].
      split; [|intros [H|[H _]]; discriminate H].
      intros _ _. split; [destruct i; reflexivity | apply quiet].
    + split; [left; destruct i; reflexivity|]. split; [discriminate|].
      intros [H|[H _]]; discriminate H.
  - cbn [exec]. unfold bind, ret.
    destruct (status_eqb (status i) IDLE) eqn:Hs.
    + apply status_eqb_eq in Hs. rewrite (calibrate_from_idle os i l Hs). cbv zeta.
      assert (forall s, lastError (set_status s i) = lastError i) as Le
        by (intro; destruct i; reflexivity).
      assert (forall s, statusCallback (set_status s i) = statusCallback i) as Lc
        by (intro; destruct i; reflexivity).
      rewrite Hs. cbn [refuses].
      destruct (hardware i) as [[fd [|]]|];
        cbn [SerialInterface.connected SerialInterface.serial_fd];
        try match goal with
            | |- context [if Str.contains ?p ?r then _ else _] =>
                destruct (Str.contains p r)
            end;
        (split; [left; apply Le|]);
        (split; [|intros [H|[H _]]; discriminate H]);
        intros _ Hi; rewrite Lc; (split; [exact Hi|]);
        rewrite Hi; rewrite <- !app_assoc;
        eexists; (split; [reflexivity|]); repeat constructor.
    + assert (status i <> IDLE) as Hn.
      { intro E. apply status_eqb_eq in E. rewrite E in Hs. discriminate Hs. }
      rewrite (calibrate_refused os i l Hn).
      split; [right; split; [reflexivity | destruct i; discriminate]|].
      split; [|reflexivity].
      intros _ Hi. split; [destruct i; exact Hi | apply quiet].
  - cbn. split; [left; reflexivity|]. split; [|intros [H|[H _]]; discriminate H].
    intros _ Hi. split; [exact Hi | apply quiet].
Qed.

Lemma run_synchronous (os : OS) (ops : list Op) :
  forall (i : Impl) (l : list Event),
  statusCallback i = true ->
  forallb keeps_callback ops = true ->
  let '(_, i', l') := run os ops i l in
  statusCallback i' = true /\
  exists new, l' = (l ++ new)%list /\ Synchronous new.
Proof.
  induction ops as [|op later IH]; intros i l Hi Hk.
  - cbn. split; [exact Hi|]. exists []. split; [rewrite app_nil_r; reflexivity|constructor].
  - cbn in Hk. apply andb_prop in Hk as [Hop Hlater].
    cbn [run]. unfold bind, ret.
    pose proof (exec_frame os op i l) as F.
    destruct (exec os op i l) as [[v i1] l1].
    destruct F as (_ & F & _). destruct (F Hop Hi) as (Hi1 & new1 & -> & S1).
    specialize (IH i1 (l ++ new1)%list Hi1 Hlater).
    destruct (run os later i1 (l ++ new1)%list) as [[vs i2] l2].
    destruct IH as (Hi2 & new2 & -> & S2).
    split; [exact Hi2|]. exists (new1 ++ new2)%list.
    split; [rewrite app_assoc; reflexivity | apply Synchronous_app; assumption].
Qed.

(** ** The last error *)

Lemma run_keeps_last_error (os : OS) (ops : list Op) :
  forall (i : Impl) (l : list Event),
  existsb returned_false (fst (fst (run os ops i l))) = false ->
  lastError (snd (fst (run os ops i l))) = lastError i.
Proof.
  induction ops as [|op later IH]; intros i l H.
  - reflexivity.
  - revert H. cbn [run]. unfold bind, ret.
    pose proof (exec_frame os op i l) as F.
    destruct (exec os op i l) as [[v i1] l1].
    destruct F as (F & _ & _).
    specialize (IH i1 l1).
    destruct (run os later i1 l1) as [[vs i2] l2].
    cbn [fst snd existsb] in *. intro H.
    apply orb_false_elim in H as [Hv Hvs].
    rewrite (IH Hvs).
    destruct F as [F|[-> _]]; [exact F | discriminate Hv].
Qed.

(** What each operation does to the last error. *)
Lemma exec_records (os : OS) (op : Op) (i : Impl) (l : list Event) :
  let '(v, i', l') := exec os op i l in
  lastError i' =
    (match recorded op (status i) v with
     | Some text => text
     | None => lastError i
     end) /\
  (recorded op (status i) v <> None -> v = VBool false /\ lastError i' <> EmptyString).
Proof.
  assert (lifecycle : forall t,
    let '(v, i', l') := exec os (op_of t) i l in
    lastError i' =
      (match recorded (op_of t) (status i) v with
       | Some text => text
       | None => lastError i
       end) /\
    (recorded (op_of t) (status i) v <> None ->
     v = VBool false /\ lastError i' <> EmptyString)).
  { intro t. rewrite lifecycle_step.
    destruct i as [s c e cb h]. cbn [status statusCallback lastError].
    destruct t, s; cbn -[String.append];
      (split; [reflexivity|]); intro H;
      first [contradiction H; reflexivity | split; [reflexivity | discriminate]]. }
  destruct op as [cfg| | | | |dev params| | |callback| |].
  - pose proof (initialize_outcome os cfg i l) as H. cbn [exec]. unfold bind, ret.
    destruct (initialize os cfg i l) as [[ok i'] l'].
    destruct H as (_ & _ & He & _). unfold recorded. cbn [refuses].
    destruct ok.
    + split; [exact He|]. intro H. contradiction H. reflexivity.
    + split; [exact He|]. intros _. split; [reflexivity|]. rewrite He. discriminate.
  - exact (lifecycle LStart).
  - exact (lifecycle LStop).
  - exact (lifecycle LPause).
  - exact (lifecycle LResume).
  - pose proof (runTest_outcome os dev params i l) as H.
    cbn [exec]. unfold bind, ret.
    destruct (runTest os dev params i l) as [[r i'] l'].
    destruct H as (-> & _). unfold recorded. cbn [refuses].
    split; [reflexivity|]. intro H. contradiction H. reflexivity.
  - cbn. split; [reflexivity|]. intro H. contradiction H. reflexivity.
  - cbn. split; [reflexivity|]. intro H. contradiction H. reflexivity.
  - destruct i as [s c e cb h]. cbn.
    split; [reflexivity|]. intro H. contradiction H. reflexivity.
  - cbn [exec]. unfold bind, ret.
    destruct (status_eqb (status i) IDLE) eqn:Hs.
    + apply status_eqb_eq in Hs. rewrite (calibrate_from_idle os i l Hs). cbv zeta.
      assert (forall s, lastError (set_status s i) = lastError i) as Le
        by (intro; destruct i; reflexivity).
      rewrite Hs. unfold recorded. cbn [refuses].
      destruct (hardware i) as [[fd [|]]|];
        cbn [SerialInterface.connected SerialInterface.serial_fd];
        try match goal with
            | |- context [if Str.contains ?p ?r then _ else _] =>
                destruct (Str.contains p r)
            end;
        rewrite Le; (split; [reflexivity|]); intro H; contradiction H; reflexivity.
    + assert (status i <> IDLE) as Hn.
      { intro E. apply status_eqb_eq in E. rewrite E in Hs. discriminate Hs. }
      rewrite (calibrate_refused os i l Hn).
      destruct i as [s c e cb h]. cbn [status lastError set_lastError] in *.
      unfold recorded. destruct s; try (contradiction Hn; reflexivity);
        cbn -[String.append]; (split; [reflexivity|]); intros _;
        (split; [reflexivity | discriminate]).
  - cbn. split; [reflexivity|]. intro H. contradiction H. reflexivity.
Qed.

Lemma run_last_message (os : OS) (ops : list Op) :
  forall (i : Impl) (l : list Event),
  lastError (snd (fst (run os ops i l))) = last_message os ops i l (lastError i).
Proof.
  induction ops as [|op later IH]; intros i l; [reflexivity|].
  cbn [run last_message]. unfold bind, ret.
  pose proof (exec_records os op i l) as E.
  destruct (exec os op i l) as [[v i1] l1].
  destruct E as (E & _). rewrite <- E, <- IH.
  destruct (run os later i1 l1) as [[vs i2] l2]. reflexivity.
Qed.

(** C9, as the code has it.  An operation writes the last error in two
    cases only, and then it answers false and the text is not empty: when
    it refuses because of the status it finds (start, pause, resume,
    calibrate), it records the reason, and when initialize cannot connect,
    it records that.  Every other call leaves the text alone: the calls
    that succeed, runTest whatever its result, the getters,
    setStatusCallback, and a calibrate that fails on the device, which
    answers false and records nothing.  So after every sequence of
    operations getLastError returns the text of the latest operation that
    recorded one; in particular it keeps returning the same text over every
    sequence of operations of which none answers false: the text is never
    cleared. *)
Theorem last_error_survives_successes (os : OS) (op : Op) (ops : list Op)
    (i : Impl) (l : list Event) :
  let '(v, i1, l1) := exec os op i l in
  lastError i1 =
    (match recorded op (status i) v with
     | Some text => text
     | None => lastError i
     end) /\
  (recorded op (status i) v <> None -> v = VBool false /\ lastError i1 <> EmptyString) /\
  let '(values, i2, l2) := run os ops i1 l1 in
  fst (fst (getLastError i2 l2)) = last_message os ops i1 l1 (lastError i1) /\
  (existsb returned_false values = false ->
   fst (fst (getLastError i2 l2)) = lastError i1).
Proof.
  pose proof (exec_records os op i l) as E.
  destruct (exec os op i l) as [[v i1] l1].
  destruct E as (E1 & E2). split; [exact E1|]. split; [exact E2|].
  pose proof (run_last_message os ops i1 l1) as M.
  pose proof (run_keeps_last_error os ops i1 l1) as K.
  destruct (run os ops i1 l1) as [[values i2] l2]. cbn [fst snd] in *.
  split; [exact M | exact K].
Qed.

(** C9, as it is stated, fails: without a device, a pause in Idle is
    refused and records its reason; the calibrate that follows fails, it
    answers false, and records nothing; getLastError then returns the
    reason of the pause, which is not the latest operation that failed. *)
Lemma failed_calibrate_records_nothing :
  fst (fst (run Scenario.no_device [Pause; Calibrate; GetLastError] Impl_new [])) =
    [VBool false; VBool false; VString "Equipment must be running to pause"] /\
  recorded Calibrate IDLE (VBool false) = None.
Proof. split; reflexivity. Qed.

(** ** Health metrics *)

(** C10. After every sequence of operations from every state, and so in
    every status and with or without connected hardware, getHealthMetrics
    returns the same five pairs in the same order, changes nothing of the
    controller and logs nothing: it does not act on the transport, and the
    set of keys is the same at every call. *)
Theorem health_metrics_are_constant (os : OS) (ops : list Op) (i0 : Impl)
    (l0 : list Event) :
  let '(_, i, l) := run os ops i0 l0 in
  let '(metrics, i', l') := getHealthMetrics i l in
  metrics = [ ("Temperature", 23.5%float);
              ("Vibration", 0.02%float);
              ("Power_Consumption", 125.3%float);
              ("Uptime_Hours", 1234.5%float);
              ("Error_Rate", 0.001%float) ] /\
  map fst metrics =
    ["Temperature"; "Vibration"; "Power_Consumption"; "Uptime_Hours"; "Error_Rate"] /\
  i' = i /\ l' = l /\ transport l' = transport l.
Proof.
  destruct (run os ops i0 l0) as [[vs i] l].
  unfold getHealthMetrics, push_back, ret. cbn [app].
  repeat split.
Qed.

(** ** The test identifier *)

Lemma length_append (a b : string) :
  String.length (a ++ b) = (String.length a + String.length b)%nat.
Proof. induction a as [|c a IH]; cbn; [reflexivity | rewrite IH; reflexivity]. Qed.

(** Two texts that end in tails of the same length are equal part by part. *)
Lemma append_inj (a b t u : string) :
  String.length t = String.length u -> a ++ t = b ++ u -> a = b /\ t = u.
Proof.
  revert b. induction a as [|c a IH]; intros [|d b] Hl H; cbn in H.
  - split; [reflexivity | exact H].
  - exfalso. rewrite H in Hl. cbn in Hl. rewrite length_append in Hl. lia.
  - exfalso. rewrite <- H in Hl. cbn in Hl. rewrite length_append in Hl. lia.
  - injection H as -> H. destruct (IH b Hl H) as [-> ->]. split; reflexivity.
Qed.

Lemma decimal_inj (a b : Z) : Chrono.decimal a = Chrono.decimal b -> a = b.
Proof.
  unfold Chrono.decimal. intro H. apply to_int_inj.
  assert (proper : forall z, Z.to_int z <> Decimal.Pos Decimal.Nil /\
                             Z.to_int z <> Decimal.Neg Decimal.Nil).
  { intros [|p|p]; cbn; split; try discriminate;
      intro E; injection E as E; exact (DecimalPos.Unsigned.to_uint_nonnil p E). }
  apply (f_equal NilZero.int_of_string) in H.
  rewrite !NilZero.isi in H by apply proper.
  injection H as H. exact H.
Qed.

Lemma two_digits_read (z : Z) :
  0 <= z <= 99 ->
  read_two_digits (Chrono.two_digits z) = z /\
  String.length (Chrono.two_digits z) = 2%nat.
Proof.
  intros [Hlo Hhi]. destruct z as [|p|p]; [split; reflexivity| |lia].
  do 7 (destruct p as [p|p|]; try lia; try (split; reflexivity)).
Qed.

Lemma two_digits_inj (a b : Z) :
  0 <= a <= 99 -> 0 <= b <= 99 ->
  Chrono.two_digits a = Chrono.two_digits b -> a = b.
Proof.
  intros Ha Hb H.
  rewrite <- (proj1 (two_digits_read a Ha)), <- (proj1 (two_digits_read b Hb)), H.
  reflexivity.
Qed.

(** Within the ranges of a [struct tm], the text of a time stamp determines
    the six fields it was written from. *)
Lemma put_time_inj (t u : Chrono.tm) :
  Chrono.valid t -> Chrono.valid u -> Chrono.put_time t = Chrono.put_time u -> t = u.
Proof.
  intros (Tm & Td & Th & Tn & Ts) (Um & Ud & Uh & Un & Us).
  unfold Chrono.put_time.
  destruct t as [ty tm td th tn ts], u as [uy um ud uh un us]; cbn in *.
  assert (two : forall z, 0 <= z <= 99 -> String.length (Chrono.two_digits z) = 2%nat)
    by (intros z Hz; apply two_digits_read, Hz).
  intro H.
  apply append_inj in H;
    [|cbn; rewrite !length_append; cbn; rewrite !length_append; cbn;
      rewrite !length_append; cbn; rewrite !length_append; cbn;
      rewrite !two by lia; reflexivity].
  destruct H as [Hy H]. apply decimal_inj in Hy.
  injection H as H.
  apply append_inj in H;
    [|cbn; rewrite !length_append; cbn; rewrite !length_append; cbn;
      rewrite !length_append; cbn; rewrite !two by lia; reflexivity].
  destruct H as [Hm H]. apply two_digits_inj in Hm; [|lia|lia].
  injection H as H.
  apply append_inj in H;
    [|cbn; rewrite !length_append; cbn; rewrite !length_append; cbn;
      rewrite !two by lia; reflexivity].
  destruct H as [Hd H]. apply two_digits_inj in Hd; [|lia|lia].
  injection H as H.
  apply append_inj in H;
    [|cbn; rewrite !length_append; cbn; rewrite !two by lia; reflexivity].
  destruct H as [Hh H]. apply two_digits_inj in Hh; [|lia|lia].
  injection H as H.
  apply append_inj in H; [|cbn; rewrite !two by lia; reflexivity].
  destruct H as [Hn H]. apply two_digits_inj in Hn; [|lia|lia].
  injection H as H. apply two_digits_inj in H; [|lia|lia].
  f_equal; lia.
Qed.

(** C8, as the code has it.  The test identifier of a result is "TEST_"
    followed by the local time of the call, written to the second
    (YYYY-MM-DD HH:MM:SS), and the device identifier is the one the caller
    gave.  Two calls of runTest therefore return the same test identifier
    exactly when their clocks read the same second, and different ones
    otherwise. *)
Theorem test_id_names_the_second (os : OS)
    (device1 : string) (parameters1 : list string) (i1 : Impl) (l1 : list Event)
    (device2 : string) (parameters2 : list string) (i2 : Impl) (l2 : list Event) :
  Chrono.valid (sys_localtime os l1) ->
  Chrono.valid (sys_localtime os l2) ->
  let '(r1, _, _) := runTest os device1 parameters1 i1 l1 in
  let '(r2, _, _) := runTest os device2 parameters2 i2 l2 in
  device_id r1 = device1 /\ device_id r2 = device2 /\
  test_id r1 = "TEST_" ++ Chrono.put_time (sys_localtime os l1) /\
  test_id r2 = "TEST_" ++ Chrono.put_time (sys_localtime os l2) /\
  (test_id r1 = test_id r2 <-> sys_localtime os l1 = sys_localtime os l2).
Proof.
  intros V1 V2.
  pose proof (runTest_outcome os device1 parameters1 i1 l1) as H1.
  pose proof (runTest_outcome os device2 parameters2 i2 l2) as H2.
  destruct (runTest os device1 parameters1 i1 l1) as [[r1 j1] k1].
  destruct (runTest os device2 parameters2 i2 l2) as [[r2 j2] k2].
  destruct H1 as (_ & T1 & D1 & _), H2 as (_ & T2 & D2 & _).
  repeat split; try assumption.
  - rewrite T1, T2. intro H. injection H as H.
    apply put_time_inj; assumption.
  - intro H. rewrite T1, T2, H. reflexivity.
Qed.

Lemma test_id_names_the_second_witness :
  let os := Scenario.bench in
  let l2 := [Localtime; Localtime] in
  (Chrono.valid (sys_localtime os []) /\ Chrono.valid (sys_localtime os l2)) /\
  let '(r1, _, _) := runTest os "D1" ["voltage"] Impl_new [] in
  let '(r2, _, _) := runTest os "D1" ["voltage"] Impl_new l2 in
  device_id r1 = "D1" /\ device_id r2 = "D1" /\
  test_id r1 = "TEST_" ++ Chrono.put_time (sys_localtime os []) /\
  test_id r2 = "TEST_" ++ Chrono.put_time (sys_localtime os l2) /\
  (test_id r1 = test_id r2 <-> sys_localtime os [] = sys_localtime os l2).
Proof.
  cbv zeta. split.
  - split; cbv; repeat split; discriminate.
  - apply (test_id_names_the_second Scenario.bench
             "D1" ["voltage"] Impl_new [] "D1" ["voltage"] Impl_new
             [Localtime; Localtime]);
      cbv; repeat split; discriminate.
Defined.

(** C8, as it is stated, fails: two calls of runTest, one after the other
    on the same controller and for two devices, within one second of the
    clock, return the same test identifier. *)
Lemma test_id_repeats_within_a_second :
  let '(r1, i1, l1) := runTest Scenario.no_device "D1" ["voltage"] Impl_new [] in
  let '(r2, _, _) := runTest Scenario.no_device "D2" ["voltage"] i1 l1 in
  test_id r1 = "TEST_2024-03-07 09:30:05" /\ test_id r2 = test_id r1.
Proof. split; reflexivity. Qed.

(** * Further properties of the code *)

(** ** The serial interface *)

Lemma opened_from_app (os : OS) (a b past : list Event) :
  opened_from os past (a ++ b) =
  opened_from os past a + opened_from os (past ++ a) b.
Proof.
  revert past. induction a as [|e a IH]; intro past; cbn [app opened_from].
  - rewrite app_nil_r. reflexivity.
  - rewrite IH, <- app_assoc. cbn [app]. lia.
Qed.

Lemma closed_app (a b : list Event) : closed (a ++ b) = closed a + closed b.
Proof.
  induction a as [|e a IH]; cbn [app closed]; [reflexivity|].
  destruct e; rewrite IH; lia.
Qed.

(** X1. [connect] on a fresh interface succeeds exactly when [open] gives a
    descriptor and both terminal calls answer 0; then the interface is
    connected and keeps the descriptor.  On every failure the interface
    stays disconnected and a descriptor that was opened is closed again, so
    none is lost.  The baud rate has no influence on what happens. *)
Theorem connect_all_or_nothing (os : OS) (port : string) (baud other_baud : Z)
    (l : list Event) :
  let '(ok, h', l') := SerialInterface.connect os port baud SerialInterface.new l in
  let fd := sys_open os l port in
  let l1 := (l ++ [Open port])%list in
  let l2 := (l1 ++ [Tcgetattr fd])%list in
  ok = ((0 <=? fd) && (sys_tcgetattr os l1 fd =? 0) &&
        (sys_tcsetattr os l2 fd =? 0))%bool /\
  SerialInterface.connected h' = ok /\
  SerialInterface.serial_fd h' = fd /\
  (exists calls,
      l' = (l ++ Open port :: calls)%list /\
      opened_from os l (Open port :: calls) - closed (Open port :: calls) =
        if ok then 1 else 0) /\
  SerialInterface.connect os port other_baud SerialInterface.new l = (ok, h', l').
Proof.
  unfold SerialInterface.connect, bind, call, modify, ret.
  cbn -[Z.leb Z.ltb Z.eqb].
  destruct (Z.ltb_spec (sys_open os l port) 0) as [Hlt|Hge].
  - assert ((0 <=? sys_open os l port) = false) as Ho by (apply Z.leb_gt; lia).
    rewrite Ho. cbn -[Z.leb Z.ltb Z.eqb]. repeat split.
    exists []. split; reflexivity.
  - assert ((0 <=? sys_open os l port) = true) as Ho by (apply Z.leb_le; lia).
    rewrite Ho. cbn -[Z.leb Z.ltb Z.eqb].
    destruct (sys_tcgetattr os _ _ =? 0); cbn -[Z.leb Z.ltb Z.eqb].
    + destruct (sys_tcsetattr os _ _ =? 0); cbn -[Z.leb Z.ltb Z.eqb];
        repeat split; rewrite <- !app_assoc; cbn [app];
        eexists; (split; [reflexivity|]); reflexivity.
    + repeat split; rewrite <- !app_assoc; cbn [app].
      eexists; (split; [reflexivity|]); reflexivity.
Qed.

(** X2. [disconnect] always answers true and leaves the interface
    disconnected.  On a connected interface it closes the descriptor, once,
    and forgets it; on an interface that is not connected (never opened, or
    whose connection failed) it does nothing at all; and a second
    [disconnect] does nothing, so no descriptor is closed twice. *)
Theorem disconnect_is_idempotent (h : SerialInterface.t) (l : list Event) :
  let '(ok, h1, l1) := SerialInterface.disconnect h l in
  ok = true /\
  SerialInterface.connected h1 = false /\
  SerialInterface.disconnect h1 l1 = (true, h1, l1) /\
  (if SerialInterface.connected h
   then SerialInterface.serial_fd h1 < 0 /\
        l1 = (l ++ if 0 <=? SerialInterface.serial_fd h
                   then [Close (SerialInterface.serial_fd h)] else [])%list
   else h1 = h /\ l1 = l).
Proof.
  destruct h as [fd [|]];
    unfold SerialInterface.disconnect, bind, call, gets, modify, ret; cbn.
  - destruct (Z.leb_spec 0 fd) as [Hfd|Hfd]; cbn; repeat split.
    + exact Hfd.
    + rewrite app_nil_r. reflexivity.
  - repeat split.
Qed.

Lemma rstrip_split (s : string) :
  exists spaces, s = Str.rstrip s ++ spaces /\ all_space spaces = true.
Proof.
  induction s as [|c rest (spaces & E & A)]; [exists EmptyString; split; reflexivity|].
  cbn [Str.rstrip]. destruct (Str.rstrip rest) as [|k kept] eqn:R.
  - cbn in E. subst spaces. destruct (Str.isspace c) eqn:Hc.
    + exists (String c rest). split; [reflexivity|]. cbn. rewrite Hc. exact A.
    + exists rest. split; [reflexivity | exact A].
  - exists spaces. split; [|exact A]. cbn. rewrite E at 1. reflexivity.
Qed.

Lemma rstrip_ends (s : string) : ends_in_space (Str.rstrip s) = false.
Proof.
  induction s as [|c rest IH]; [reflexivity|].
  cbn [Str.rstrip]. destruct (Str.rstrip rest) as [|k kept].
  - destruct (Str.isspace c) eqn:Hc; [reflexivity | cbn; exact Hc].
  - exact IH.
Qed.

Lemma all_space_append (a b : string) :
  all_space (a ++ b) = (all_space a && all_space b)%bool.
Proof.
  induction a as [|c a IH]; cbn; [reflexivity|].
  rewrite IH, andb_assoc. reflexivity.
Qed.

Lemma all_space_ends (s : string) :
  all_space s = true -> s = EmptyString \/ ends_in_space s = true.
Proof.
  induction s as [|c rest IH]; [left; reflexivity|].
  cbn. intro H. apply andb_prop in H as [Hc Hr]. right.
  destruct rest as [|d rest']; [exact Hc|].
  destruct (IH Hr) as [E|E]; [discriminate E | exact E].
Qed.

(** X3. What [receiveResponse] returns never ends in white space: it is
    what the polling loop gathered without the white space at its end (the
    line terminator included), and it is empty exactly when the loop
    gathered nothing but white space.  The interface is left as it was and
    one polling loop is logged; a disconnected interface answers the empty
    text without reading. *)
Theorem receiveResponse_strips (os : OS) (timeout_ms : Z)
    (h : SerialInterface.t) (l : list Event) :
  let '(response, h', l') := SerialInterface.receiveResponse os timeout_ms h l in
  h' = h /\
  if SerialInterface.connected h then
    let fd := SerialInterface.serial_fd h in
    let gathered := SerialInterface.poll (sys_read os l fd timeout_ms) EmptyString in
    l' = (l ++ [Poll fd timeout_ms])%list /\
    ends_in_space response = false /\
    (exists spaces, gathered = response ++ spaces /\ all_space spaces = true) /\
    (response = EmptyString <-> all_space gathered = true)
  else response = EmptyString /\ l' = l.
Proof.
  destruct h as [fd [|]];
    unfold SerialInterface.receiveResponse, bind, call, gets, ret;
    cbn -[Str.rstrip SerialInterface.poll]; [|repeat split].
  set (gathered := SerialInterface.poll (sys_read os l fd timeout_ms) EmptyString).
  split; [reflexivity|]. split; [reflexivity|].
  split; [apply rstrip_ends|].
  destruct (rstrip_split gathered) as (spaces & E & A).
  split; [exists spaces; split; assumption|].
  split.
  - intro R. rewrite E, R. exact A.
  - intro G. rewrite E, all_space_append in G. apply andb_prop in G as [G _].
    destruct (all_space_ends _ G) as [H|H]; [exact H|].
    rewrite rstrip_ends in H. discriminate H.
Qed.

Lemma poll_app (a b : list string) :
  forall r : string,
  Str.contains_char line_feed r = false ->
  SerialInterface.poll (a ++ b) r =
  if Str.contains_char line_feed (SerialInterface.poll a r)
  then SerialInterface.poll a r
  else SerialInterface.poll b (SerialInterface.poll a r).
Proof.
  induction a as [|chunk a IH]; intros r Hr; cbn [app SerialInterface.poll].
  - rewrite Hr. reflexivity.
  - destruct (String.substring 0 255 chunk) as [|c rest] eqn:B; [apply IH, Hr|].
    fold line_feed.
    destruct (Str.contains_char line_feed (r ++ Str.c_str (String c rest))) eqn:Hc.
    + rewrite Hc. reflexivity.
    + apply IH, Hc.
Qed.

Lemma poll_all (a : list string) :
  forall r : string,
  Str.contains_char line_feed (SerialInterface.poll a r) = false ->
  SerialInterface.poll a r = r ++ String.concat EmptyString (map as_read a).
Proof.
  assert (app_empty : forall s : string, s ++ EmptyString = s)
    by (induction s as [|c s IH]; cbn; [|rewrite IH]; reflexivity).
  assert (app_assoc' : forall x y z : string, (x ++ y) ++ z = x ++ y ++ z)
    by (induction x as [|c x IH]; intros; cbn; [|rewrite IH]; reflexivity).
  assert (concat_cons : forall (x : string) (xs : list string),
             String.concat EmptyString (x :: xs) = x ++ String.concat EmptyString xs).
  { intros x [|y ys]; cbn; [rewrite app_empty|]; reflexivity. }
  induction a as [|chunk a IH]; intros r; cbn [SerialInterface.poll map].
  - intros _. cbn. rewrite app_empty. reflexivity.
  - rewrite concat_cons. unfold as_read at 1.
    destruct (String.substring 0 255 chunk) as [|c rest] eqn:B.
    + intro H. rewrite (IH r H). reflexivity.
    + fold line_feed.
      destruct (Str.contains_char line_feed (r ++ Str.c_str (String c rest))) eqn:Hc.
      * intro H. rewrite H in Hc. discriminate Hc.
      * intro H. rewrite (IH _ H), app_assoc'. reflexivity.
Qed.

(** X4. The polling loop of [receiveResponse] ends with the first line
    feed: once the text gathered holds one, what later reads would return
    is not made part of the response.  Without a line feed it runs to the
    timeout and the response is everything that was read, so a line that
    the device has not finished is still returned and not dropped. *)
Theorem poll_ends_with_the_line (chunks later : list string) :
  let gathered := SerialInterface.poll chunks EmptyString in
  if Str.contains_char line_feed gathered then
    SerialInterface.poll (chunks ++ later) EmptyString = gathered
  else
    gathered = String.concat EmptyString (map as_read chunks) /\
    SerialInterface.poll (chunks ++ later) EmptyString =
      SerialInterface.poll later gathered.
Proof.
  cbv zeta. rewrite (poll_app chunks later EmptyString eq_refl).
  destruct (Str.contains_char line_feed (SerialInterface.poll chunks EmptyString)) eqn:H.
  - reflexivity.
  - split; [|reflexivity]. exact (poll_all chunks EmptyString H).
Qed.

(** ** Tokens *)

Lemma append_empty (s : string) : s ++ EmptyString = s.
Proof. induction s as [|c s IH]; cbn; [|rewrite IH]; reflexivity. Qed.

Lemma append_assoc (x y z : string) : (x ++ y) ++ z = x ++ y ++ z.
Proof. induction x as [|c x IH]; cbn; [|rewrite IH]; reflexivity. Qed.

Lemma contains_char_append (c : ascii) (a b : string) :
  Str.contains_char c (a ++ b) = (Str.contains_char c a || Str.contains_char c b)%bool.
Proof.
  induction a as [|d a IH]; cbn; [reflexivity|].
  rewrite IH, orb_assoc. reflexivity.
Qed.

Lemma read_tokens_nonempty (iss token : string) : Str.read_tokens iss token <> [].
Proof.
  revert token. induction iss as [|c rest IH]; intro token; cbn; [discriminate|].
  destruct (Ascii.eqb c ":"); [discriminate | apply IH].
Qed.

Lemma join_colon_cons (token : string) (later : list string) :
  later <> [] -> join_colon (token :: later) = token ++ ":" ++ join_colon later.
Proof. destruct later; [intro H; contradiction H|]; reflexivity. Qed.

(** One [getline] loop in the middle of a token. *)
Lemma read_tokens_joined (iss : string) :
  forall token : string,
  Str.contains_char ":" token = false ->
  token ++ iss =
    join_colon (Str.read_tokens iss token) ++
    (if ends_in_colon iss then ":" else EmptyString) /\
  Forall (fun t => Str.contains_char ":" t = false) (Str.read_tokens iss token).
Proof.
  induction iss as [|c rest IH]; intros token Ht.
  - cbn. split; [reflexivity | repeat constructor; exact Ht].
  - cbn [Str.read_tokens]. destruct (Ascii.eqb_spec c ":") as [->|Hc].
    + destruct rest as [|d rest'].
      * cbn. split; [reflexivity | repeat constructor; exact Ht].
      * destruct (IH EmptyString eq_refl) as [E F].
        rewrite join_colon_cons by apply read_tokens_nonempty.
        split; [|constructor; assumption].
        cbn [append] in E. change (ends_in_colon (String ":" (String d rest')))
          with (ends_in_colon (String d rest')).
        rewrite !append_assoc, <- E. reflexivity.
    + assert (Str.contains_char ":" (token ++ String c EmptyString) = false) as Ht'.
      { rewrite contains_char_append, Ht. cbn -[Ascii.eqb].
        rewrite orb_false_r. apply Ascii.eqb_neq. intro E. apply Hc.
        symmetry. exact E. }
      destruct (IH _ Ht') as [E F]. split; [|exact F].
      rewrite append_assoc in E. cbn [append] in E. rewrite E.
      destruct rest as [|d rest']; [|reflexivity].
      cbn -[Ascii.eqb]. apply Ascii.eqb_neq in Hc. rewrite Hc. reflexivity.
Qed.

(** X5. The tokens that the [getline] loop of [runTest] cuts a response
    into hold no colon, and written one after the other with colons in
    between they give the response back, but for one colon at its very end,
    which the loop drops: a response that ends in a colon has no empty last
    token. *)
Theorem split_colon_then_join (response : string) :
  response =
    join_colon (Str.split_colon response) ++
    (if ends_in_colon response then ":" else EmptyString) /\
  Forall (fun t => Str.contains_char ":" t = false) (Str.split_colon response).
Proof.
  destruct response as [|c rest]; [split; [reflexivity | constructor]|].
  unfold Str.split_colon.
  exact (read_tokens_joined (String c rest) EmptyString eq_refl).
Qed.

Lemma read_tokens_over (token : string) :
  forall iss acc : string,
  Str.contains_char ":" token = false ->
  Str.read_tokens (token ++ iss) acc = Str.read_tokens iss (acc ++ token).
Proof.
  induction token as [|c token IH]; intros iss acc H.
  - rewrite append_empty. reflexivity.
  - cbn -[Ascii.eqb] in H. apply orb_false_elim in H as [Hc Ht].
    cbn [append Str.read_tokens].
    rewrite Ascii.eqb_sym, Hc, (IH _ _ Ht), append_assoc. reflexivity.
Qed.

Lemma read_tokens_of_join (later : list string) :
  forall token acc : string,
  Forall (fun t => Str.contains_char ":" t = false) (token :: later) ->
  last (token :: later) EmptyString <> EmptyString ->
  Str.read_tokens (join_colon (token :: later)) acc = (acc ++ token) :: later.
Proof.
  induction later as [|u us IH]; intros token acc F L.
  - cbn [join_colon]. rewrite <- (append_empty token) at 1.
    rewrite read_tokens_over by (inversion F; assumption). reflexivity.
  - rewrite join_colon_cons by discriminate.
    inversion F as [|? ? Ht F']; subst.
    rewrite read_tokens_over by exact Ht.
    cbn [append Str.read_tokens]. cbn [Ascii.eqb Bool.eqb andb].
    change (last (token :: u :: us) EmptyString) with (last (u :: us) EmptyString) in L.
    specialize (IH u EmptyString F' L). cbn [append] in IH.
    destruct (join_colon (u :: us)) as [|d rest] eqn:J.
    + exfalso. destruct us as [|v vs].
      * cbn in J, L. subst u. apply L. reflexivity.
      * rewrite join_colon_cons in J by discriminate.
        destruct u; discriminate J.
    + rewrite IH. reflexivity.
Qed.

Lemma test_command_join (device : string) (parameters : list string) :
  test_command device parameters = join_colon ("TEST" :: device :: parameters).
Proof.
  unfold test_command.
  assert (fold : forall ps acc,
    fold_left (fun command param => command ++ ":" ++ param) ps acc =
    match ps with
    | [] => acc
    | _ :: _ => acc ++ ":" ++ join_colon ps
    end).
  { induction ps as [|p ps IH]; intro acc; [reflexivity|].
    cbn [fold_left]. rewrite IH. destruct ps as [|q qs].
    - reflexivity.
    - rewrite append_assoc. reflexivity. }
  rewrite fold. destruct parameters as [|p ps].
  - reflexivity.
  - rewrite (join_colon_cons "TEST") by discriminate.
    rewrite (join_colon_cons device) by discriminate.
    rewrite append_assoc. reflexivity.
Qed.

(** X6. The command of [runTest] is framed by the rule its own tokenizer
    reads: when neither the device identifier nor any parameter holds a
    colon and the last of them is not empty, cutting the command
    TEST:<device>[:<parameter>]* at its colons gives back TEST, the device
    identifier and the parameters, in this order. *)
Theorem test_command_round_trip (device : string) (parameters : list string) :
  Forall (fun t => Str.contains_char ":" t = false) (device :: parameters) ->
  last (device :: parameters) EmptyString <> EmptyString ->
  Str.split_colon (test_command device parameters) = "TEST" :: device :: parameters.
Proof.
  intros F L. rewrite test_command_join.
  assert (Str.read_tokens (join_colon ("TEST" :: device :: parameters)) EmptyString
          = "TEST" :: device :: parameters) as R.
  { apply (read_tokens_of_join (device :: parameters) "TEST" EmptyString).
    - constructor; [reflexivity | exact F].
    - exact L. }
  unfold Str.split_colon.
  destruct (join_colon ("TEST" :: device :: parameters)) eqn:J; [|exact R].
  rewrite join_colon_cons in J by discriminate. discriminate J.
Qed.

Lemma test_command_round_trip_witness :
  (Forall (fun t => Str.contains_char ":" t = false) ["D1"; "voltage"; "5.0"] /\
   last ["D1"; "voltage"; "5.0"] EmptyString <> EmptyString) /\
  Str.split_colon (test_command "D1" ["voltage"; "5.0"]) =
    ["TEST"; "D1"; "voltage"; "5.0"].
Proof.
  split.
  - split; [repeat constructor | discriminate].
  - apply (test_command_round_trip "D1" ["voltage"; "5.0"]);
      [repeat constructor | discriminate].
Defined.

(** ** The operations of the controller, case by case *)

(** All of [runTest], by the status and the state of the interface. *)
Lemma runTest_cases (os : OS) (device : string) (parameters : list string)
    (i : Impl) (l : list Event) :
  runTest os device parameters i l =
  let result := fresh_result os device l in
  let l2 := (l ++ [Localtime; Localtime])%list in
  let failed note := set_notes note (set_passed false result) in
  if negb (status_eqb (status i) RUNNING) then
    (failed "Equipment not in running state", i, l2)
  else
    match hardware i with
    | Some h =>
        if SerialInterface.connected h then
          let fd := SerialInterface.serial_fd h in
          let wire := test_command device parameters ++ Str.crlf in
          if sys_write os l2 fd wire =? Z.of_nat (String.length wire) then
            (decode_response
               (Str.rstrip
                  (SerialInterface.poll
                     (sys_read os (l2 ++ [Write fd wire]) fd 5000) EmptyString))
               result,
             i, (l2 ++ [Write fd wire; Poll fd 5000])%list)
          else (failed "Failed to send test command", i, (l2 ++ [Write fd wire])%list)
        else (failed "Hardware not connected", i, l2)
    | None => (failed "Hardware not connected", i, l2)
    end.
Proof.
  cbv zeta.
  destruct (status_eqb (status i) RUNNING) eqn:Hs; cbn [negb].
  - apply status_eqb_eq in Hs.
    destruct (hardware i) as [[fd [|]]|] eqn:Hh.
    + rewrite (runTest_exchange os device parameters i l
                 {| SerialInterface.serial_fd := fd;
                    SerialInterface.connected := true |} Hs Hh eq_refl).
      cbv zeta.
      unfold SerialInterface.sendCommand, SerialInterface.receiveResponse,
        bind, call, gets, ret.
      cbn -[String.append Str.rstrip SerialInterface.poll decode_response
            test_command Z.of_nat String.length fresh_result].
      rewrite <- !app_assoc. cbn [app].
      destruct (_ =? _); rewrite <- ?app_assoc; reflexivity.
    + destruct i as [s c e cb h]. cbn in Hs, Hh. subst s h.
      cbn. rewrite <- app_assoc. reflexivity.
    + destruct i as [s c e cb h]. cbn in Hs, Hh. subst s h.
      cbn. rewrite <- app_assoc. reflexivity.
  - assert (status i <> RUNNING) as Hn.
    { intro E. apply status_eqb_eq in E. rewrite E in Hs. discriminate Hs. }
    rewrite (runTest_not_running os device parameters i l Hn).
    rewrite <- app_assoc. reflexivity.
Qed.

(** All of [initialize], by the answer of [connect]. *)
Lemma initialize_cases (os : OS) (cfg : EquipmentConfig) (i : Impl)
    (l : list Event) :
  initialize os cfg i l =
  let '(ok, h', l2) :=
    SerialInterface.connect os (device_port cfg) (baud_rate cfg)
      SerialInterface.new (l ++ closes_of i)%list in
  let i2 := set_hardware (Some h') (set_config cfg i) in
  if ok then
    (true, set_status IDLE i2,
     (l2 ++ notification (statusCallback i) IDLE
              "Equipment initialized successfully")%list)
  else
    (false,
     set_status IDLE
       (set_lastError ("Failed to connect to device on port " ++ device_port cfg) i2),
     (l2 ++ notification (statusCallback i) IDLE
              "Equipment initialized (simulation mode)")%list).
Proof.
  destruct i as [s c e cb h].
  unfold initialize, deref, bind, modify, gets, ret, setStatus, call, closes_of,
    SerialInterface.disconnect.
  cbn -[SerialInterface.connect String.append].
  destruct h as [[fd [|]]|]; cbn -[SerialInterface.connect String.append];
    [destruct (0 <=? fd); cbn -[SerialInterface.connect String.append]| |];
    rewrite ?app_nil_r;
    match goal with
    | |- context [SerialInterface.connect os ?p ?b SerialInterface.new ?l1] =>
        destruct (SerialInterface.connect os p b SerialInterface.new l1)
          as [[ok h'] l2]
    end;
    destruct ok, cb; cbn -[String.append]; rewrite <- ?app_assoc; reflexivity.
Qed.

Lemma committed_app (a b : list Event) :
  committed (a ++ b) = (committed a ++ committed b)%list.
Proof. apply flat_map_app. Qed.

Lemma delivered_app (a b : list Event) :
  delivered (a ++ b) = (delivered a ++ delivered b)%list.
Proof. apply flat_map_app. Qed.

Lemma connect_account (os : OS) (port : string) (baud : Z) (l : list Event) :
  let '(ok, h', l') := SerialInterface.connect os port baud SerialInterface.new l in
  SerialInterface.connected h' = ok /\
  (ok = true -> 0 <= SerialInterface.serial_fd h') /\
  exists calls,
    l' = (l ++ calls)%list /\
    opened_from os l calls - closed calls = (if ok then 1 else 0) /\
    committed calls = [] /\ delivered calls = [].
Proof.
  unfold SerialInterface.connect, bind, call, modify, ret.
  cbn -[Z.leb Z.ltb Z.eqb].
  destruct (Z.ltb_spec (sys_open os l port) 0) as [Hlt|Hge].
  - cbn -[Z.leb]. split; [reflexivity|]. split; [discriminate|].
    exists [Open port]. split; [reflexivity|]. cbn -[Z.leb].
    rewrite (proj2 (Z.leb_gt 0 _) Hlt). repeat split.
  - assert ((0 <=? sys_open os l port) = true) as Ho by (apply Z.leb_le; lia).
    cbn -[Z.leb Z.ltb Z.eqb].
    destruct (sys_tcgetattr os _ _ =? 0); cbn -[Z.leb Z.ltb Z.eqb];
      [destruct (sys_tcsetattr os _ _ =? 0); cbn -[Z.leb Z.ltb Z.eqb]|];
      (split; [reflexivity|]); (split; [first [intros _; exact Hge | discriminate]|]);
      rewrite <- !app_assoc; cbn [app];
      eexists; (split; [reflexivity|]); cbn -[Z.leb]; rewrite Ho; repeat split.
Qed.

Lemma closes_account (os : OS) (i : Impl) (l : list Event) :
  committed (closes_of i) = [] /\ delivered (closes_of i) = [] /\
  opened_from os l (closes_of i) = 0 /\
  (holds_valid i -> closed (closes_of i) = held i).
Proof.
  unfold closes_of, holds_valid, held.
  destruct (hardware i) as [[fd [|]]|]; cbn -[Z.leb]; repeat split.
  - destruct (0 <=? fd); reflexivity.
  - destruct (0 <=? fd); reflexivity.
  - destruct (0 <=? fd); reflexivity.
  - intro H. rewrite (proj2 (Z.leb_le 0 fd) (H eq_refl)). reflexivity.
Qed.

Lemma notification_account (os : OS) (cb : bool) (s : EquipmentStatus)
    (m : string) (l : list Event) :
  committed (notification cb s m) = [(s, m)] /\
  delivered (notification cb s m) = (if cb then [(s, m)] else []) /\
  opened_from os l (notification cb s m) = 0 /\
  closed (notification cb s m) = 0.
Proof. destruct cb; repeat split. Qed.

Lemma initialize_events (os : OS) (cfg : EquipmentConfig) (i : Impl)
    (l : list Event) :
  let '(_, i', l') := initialize os cfg i l in
  statusCallback i' = statusCallback i /\
  (holds_valid i -> holds_valid i') /\
  exists new,
    l' = (l ++ new)%list /\
    status i' = ends_in (committed new) (status i) /\
    (statusCallback i = false -> delivered new = []) /\
    (holds_valid i -> opened_from os l new - closed new = held i' - held i).
Proof.
  rewrite initialize_cases.
  pose proof (connect_account os (device_port cfg) (baud_rate cfg)
                (l ++ closes_of i)%list) as C.
  destruct (SerialInterface.connect os (device_port cfg) (baud_rate cfg)
              SerialInterface.new (l ++ closes_of i)%list) as [[ok h'] l2].
  destruct C as (Hc & Hfd & calls & -> & Hopen & Hcom & Hdel).
  destruct (closes_account os i l) as (Kc & Kd & Ko & Kh).
  destruct (notification_account os (statusCallback i) IDLE
              (if ok then "Equipment initialized successfully"
               else "Equipment initialized (simulation mode)")
              ((l ++ closes_of i) ++ calls)%list) as (Nc & Nd & No & Ncl).
  destruct ok; cbv beta iota zeta;
    (split; [destruct i; reflexivity|]);
    (split; [intros _; unfold holds_valid; destruct i; cbn; intro D;
             first [apply Hfd; reflexivity | rewrite Hc in D; discriminate D]|]);
    eexists; (split; [rewrite <- !app_assoc; reflexivity|]);
    rewrite !committed_app, !delivered_app, Kc, Kd, Hcom, Hdel, Nc, Nd;
    (split; [destruct i; reflexivity|]);
    (split; [intros ->; reflexivity|]);
    intro V; rewrite !opened_from_app, !closed_app, Ko, (Kh V), Ncl;
    rewrite No;
    generalize (held i); intro before_held;
    remember (closes_of i) as closes eqn:E; clear E Kc Kd Ko Kh Nc Nd No Ncl V;
    destruct i; unfold held;
    cbn [hardware set_status set_lastError set_hardware set_config];
    rewrite Hc; lia.
Qed.

Ltac new_events :=
  first [ exists []; split; [rewrite app_nil_r; reflexivity|]
        | eexists; split; [rewrite <- ?app_assoc; reflexivity|] ].

(** What each public operation adds to the log and how its events account
    for the status, the callback and the descriptors. *)
Lemma exec_events (os : OS) (op : Op) (i : Impl) (l : list Event) :
  let '(_, i', l') := exec os op i l in
  statusCallback i' = callback_after op i /\
  (holds_valid i -> holds_valid i') /\
  exists new,
    l' = (l ++ new)%list /\
    status i' = ends_in (committed new) (status i) /\
    (statusCallback i = false -> delivered new = []) /\
    (holds_valid i -> opened_from os l new - closed new = held i' - held i).
Proof.
  assert (lifecycle : forall t,
    let '(_, i', l') := exec os (op_of t) i l in
    statusCallback i' = statusCallback i /\
    (holds_valid i -> holds_valid i') /\
    exists new,
      l' = (l ++ new)%list /\
      status i' = ends_in (committed new) (status i) /\
      (statusCallback i = false -> delivered new = []) /\
      (holds_valid i -> opened_from os l new - closed new = held i' - held i)).
  { intro t. rewrite lifecycle_step.
    destruct i as [s c e cb h]. unfold holds_valid, held.
    cbn [status statusCallback lastError hardware].
    destruct t, s; cbn -[String.append];
      (split; [reflexivity|]); (split; [exact (fun H => H)|]);
      new_events; (split; [destruct cb; reflexivity|]);
      (split; [intros ->; reflexivity | intros _; destruct cb; cbn; lia]). }
  destruct op as [cfg| | | | |dev params| | |callback| |].
  - cbn [exec callback_after]. unfold bind, ret.
    pose proof (initialize_events os cfg i l) as H.
    destruct (initialize os cfg i l) as [[v i'] l']. exact H.
  - pose proof (lifecycle LStart) as H. cbn [op_of] in H.
    destruct (exec os Start i l) as [[v i'] l']. exact H.
  - pose proof (lifecycle LStop) as H. cbn [op_of] in H.
    destruct (exec os Stop i l) as [[v i'] l']. exact H.
  - pose proof (lifecycle LPause) as H. cbn [op_of] in H.
    destruct (exec os Pause i l) as [[v i'] l']. exact H.
  - pose proof (lifecycle LResume) as H. cbn [op_of] in H.
    destruct (exec os Resume i l) as [[v i'] l']. exact H.
  - cbn [exec callback_after]. unfold bind, ret. rewrite runTest_cases. cbv zeta.
    destruct (negb _);
      [|destruct (hardware i) as [[fd [|]]|];
        cbn [SerialInterface.connected SerialInterface.serial_fd];
        [destruct (_ =? _)| |]];
      (split; [reflexivity|]); (split; [exact (fun H => H)|]);
      eexists; (split; [rewrite <- ?app_assoc; reflexivity|]);
      (split; [reflexivity|]); (split; [reflexivity|]); intros _; cbn; lia.
  - cbn. split; [reflexivity|]. split; [exact (fun H => H)|].
    new_events. repeat split. cbn. lia.
  - cbn. split; [reflexivity|]. split; [exact (fun H => H)|].
    new_events. repeat split. cbn. lia.
  - destruct i as [s c e cb h]. cbn. split; [reflexivity|].
    split; [exact (fun H => H)|]. new_events. repeat split.
    destruct h as [[fd [|]]|]; reflexivity.
  - cbn [exec callback_after]. unfold bind, ret.
    destruct (status_eqb (status i) IDLE) eqn:Hs.
    + apply status_eqb_eq in Hs. rewrite (calibrate_from_idle os i l Hs). cbv zeta.
      destruct i as [s c e cb h]. cbn [status statusCallback hardware] in *. subst s.
      unfold holds_valid, held. cbn [hardware].
      destruct h as [[fd [|]]|];
        cbn [SerialInterface.connected SerialInterface.serial_fd set_status
             hardware statusCallback status];
        try match goal with
            | |- context [if Str.contains ?p ?r then _ else _] =>
                destruct (Str.contains p r)
            end;
        (split; [reflexivity|]); (split; [exact (fun H => H)|]);
        eexists; (split; [rewrite <- ?app_assoc; reflexivity|]);
        (split; [destruct cb; reflexivity|]);
        (split; [intros ->; reflexivity | intros _; destruct cb; cbn; lia]).
    + assert (status i <> IDLE) as Hn.
      { intro E. apply status_eqb_eq in E. rewrite E in Hs. discriminate Hs. }
      rewrite (calibrate_refused os i l Hn).
      destruct i as [s c e cb h]. cbn. split; [reflexivity|].
      split; [exact (fun H => H)|]. new_events. repeat split.
      destruct h as [[fd [|]]|]; reflexivity.
  - cbn. split; [reflexivity|]. split; [exact (fun H => H)|].
    new_events. repeat split. cbn. lia.
Qed.


Lemma last_nonempty {A : Type} (x : list A) (d e : A) :
  x <> [] -> last x d = last x e.
Proof.
  induction x as [|c x IH]; intro H; [contradiction H; reflexivity|].
  destruct x as [|c' x]; [reflexivity|].
  change (last (c' :: x) d = last (c' :: x) e). apply IH. discriminate.
Qed.

Lemma last_app {A : Type} (x y : list A) (d : A) :
  last (x ++ y) d = last y (last x d).
Proof.
  induction x as [|c x IH]; [reflexivity|].
  destruct x as [|c' x].
  - cbn [app]. destruct y as [|e y]; [reflexivity|].
    change (last (e :: y) d = last (e :: y) c). apply last_nonempty. discriminate.
  - change (last ((c' :: x) ++ y) d = last y (last (c' :: x) d)). exact IH.
Qed.

Lemma ends_in_app (a b : list (EquipmentStatus * string)) (s : EquipmentStatus) :
  ends_in (a ++ b) s = ends_in b (ends_in a s).
Proof. unfold ends_in. rewrite map_app. apply last_app. Qed.

(** What a sequence of operations adds to the log, and how its events
    account for the status, the callback and the descriptors. *)
Lemma run_events (os : OS) (ops : list Op) :
  forall (i : Impl) (l : list Event),
  let '(_, i', l') := run os ops i l in
  (holds_valid i -> holds_valid i') /\
  exists new,
    l' = (l ++ new)%list /\
    status i' = ends_in (committed new) (status i) /\
    (statusCallback i = false -> existsb registers ops = false ->
     statusCallback i' = false /\ delivered new = []) /\
    (holds_valid i -> opened_from os l new - closed new = held i' - held i).
Proof.
  induction ops as [|op later IH]; intros i l.
  - cbn. split; [exact (fun H => H)|]. exists [].
    split; [rewrite app_nil_r; reflexivity|]. split; [reflexivity|].
    split; [intros H _; split; [exact H | reflexivity] | intros _; cbn; lia].
  - cbn [run]. unfold bind, ret.
    pose proof (exec_events os op i l) as E.
    destruct (exec os op i l) as [[v i1] l1].
    destruct E as (Ecb & Ev & new1 & -> & Es & Ed & Eo).
    specialize (IH i1 (l ++ new1)%list).
    destruct (run os later i1 (l ++ new1)%list) as [[vs i2] l2].
    destruct IH as (Rv & new2 & -> & Rs & Rd & Ro).
    split; [intro V; exact (Rv (Ev V))|].
    exists (new1 ++ new2)%list. split; [rewrite app_assoc; reflexivity|].
    rewrite committed_app, delivered_app, ends_in_app, <- Es.
    split; [exact Rs|]. split.
    + intros Hcb Hops. cbn [existsb] in Hops.
      apply orb_false_elim in Hops as [Hop Hlater].
      assert (statusCallback i1 = false) as Hcb1.
      { rewrite Ecb. destruct op as [| | | | | | | |[|]| |];
          first [exact Hcb | discriminate Hop | reflexivity]. }
      destruct (Rd Hcb1 Hlater) as [R1 R2].
      split; [exact R1|]. rewrite (Ed Hcb), R2. reflexivity.
    + intro V. rewrite opened_from_app, closed_app.
      specialize (Eo V). specialize (Ro (Ev V)). lia.
Qed.

(** ** The subscriber and the status, operation by operation *)





(** ** The status and its subscriber *)

(** X7. Over every sequence of public operations from every state, the
    status that getStatus returns afterwards is the one of the last status
    change the sequence committed, and the status before the sequence when
    it committed none: setStatus is the only place that assigns the status,
    whether or not a callback is registered. *)
Theorem status_is_the_last_change (os : OS) (ops : list Op) (i : Impl)
    (l : list Event) :
  let '(_, i', l') := run os ops i l in
  exists new,
    l' = (l ++ new)%list /\
    fst (fst (getStatus i' l')) = ends_in (committed new) (status i) /\
    (committed new = [] -> status i' = status i).
Proof.
  pose proof (run_events os ops i l) as R.
  destruct (run os ops i l) as [[vs i'] l'].
  destruct R as (_ & new & -> & Rs & _).
  exists new. split; [reflexivity|]. split; [exact Rs|].
  intro H. rewrite Rs, H. reflexivity.
Qed.

(** X8. While no callback is registered and none of the operations
    registers one, no callback is called, whatever the operations do to the
    status; and no callback is registered afterwards. *)
Theorem unsubscribed_hears_nothing (os : OS) (ops : list Op) (i : Impl)
    (l : list Event) :
  statusCallback i = false ->
  existsb registers ops = false ->
  let '(_, i', l') := run os ops i l in
  statusCallback i' = false /\
  exists new, l' = (l ++ new)%list /\ delivered new = [].
Proof.
  intros Hcb Hops.
  pose proof (run_events os ops i l) as R.
  destruct (run os ops i l) as [[vs i'] l'].
  destruct R as (_ & new & -> & _ & Rd & _).
  destruct (Rd Hcb Hops) as [R1 R2].
  split; [exact R1|]. exists new. split; [reflexivity | exact R2].
Qed.

Lemma unsubscribed_hears_nothing_witness :
  let os := Scenario.bench in
  let ops := [Initialize Scenario.usb_config; Calibrate; Start; Pause;
              SetStatusCallback false; Resume; RunTest "D1" ["voltage"]; Stop] in
  (statusCallback Impl_new = false /\ existsb registers ops = false) /\
  let '(_, i', l') := run os ops Impl_new [] in
  statusCallback i' = false /\
  exists new, l' = ([] ++ new)%list /\ delivered new = [].
Proof.
  cbv zeta. split.
  - split; reflexivity.
  - apply (unsubscribed_hears_nothing Scenario.bench
             [Initialize Scenario.usb_config; Calibrate; Start; Pause;
              SetStatusCallback false; Resume; RunTest "D1" ["voltage"]; Stop]
             Impl_new []); reflexivity.
Defined.

(** X9. With a callback registered and kept, after every sequence of
    public operations that changed the status at all, the status the
    callback was last called with is the status getStatus returns: between
    calls, the subscriber's view of the status is never stale. *)
Theorem subscriber_knows_the_status (os : OS) (ops : list Op) (i : Impl)
    (l : list Event) :
  statusCallback i = true ->
  forallb keeps_callback ops = true ->
  let '(_, i', l') := run os ops i l in
  exists new,
    l' = (l ++ new)%list /\
    fst (fst (getStatus i' l')) = ends_in (delivered new) (status i) /\
    (status i' <> status i -> delivered new <> []).
Proof.
  intros Hcb Hops.
  pose proof (run_events os ops i l) as R.
  pose proof (run_synchronous os ops i l Hcb Hops) as S.
  destruct (run os ops i l) as [[vs i'] l'].
  destruct R as (_ & new & -> & Rs & _).
  destruct S as (_ & new' & E & S).
  apply app_inv_head in E. subst new'.
  exists new. rewrite (Synchronous_delivered new S).
  split; [reflexivity|]. split; [exact Rs|].
  intros Hne Hnil. apply Hne. rewrite Rs, Hnil. reflexivity.
Qed.

Lemma subscriber_knows_the_status_witness :
  let os := Scenario.bench in
  let ops := [Initialize Scenario.usb_config; Calibrate; Start; Pause; Resume;
              RunTest "D1" ["voltage"; "5.0"]] in
  let i := set_statusCallback true Impl_new in
  (statusCallback i = true /\ forallb keeps_callback ops = true) /\
  let '(_, i', l') := run os ops i [] in
  exists new,
    l' = ([] ++ new)%list /\
    fst (fst (getStatus i' l')) = ends_in (delivered new) (status i) /\
    (status i' <> status i -> delivered new <> []).
Proof.
  cbv zeta. split.
  - split; reflexivity.
  - apply (subscriber_knows_the_status Scenario.bench
             [Initialize Scenario.usb_config; Calibrate; Start; Pause; Resume;
              RunTest "D1" ["voltage"; "5.0"]]
             (set_statusCallback true Impl_new) []); reflexivity.
Defined.

(** ** The descriptors of the serial line *)

(** X10. Over the life of a controller, from its constructor through every
    sequence of public operations, the descriptors that open handed out
    and that were not closed again are the one of the connected interface,
    or none: a second initialize closes the descriptor of the first before
    it opens the port again, and a connect that fails after open closes
    what it opened.  The destructor closes the descriptor that is left, so
    that every descriptor opened has been closed once. *)
Theorem descriptors_are_balanced (os : OS) (ops : list Op) :
  let '(_, i, l) := run os ops Impl_new [] in
  opened os l - closed l = held i /\
  0 <= held i <= 1 /\
  let '(_, i', l') := destroy i l in
  hardware i' = None /\ opened os l' = closed l'.
Proof.
  pose proof (run_events os ops Impl_new []) as R.
  destruct (run os ops Impl_new []) as [[vs i] l].
  destruct R as (Rv & new & -> & _ & _ & Ro).
  assert (holds_valid Impl_new) as V0 by exact I.
  specialize (Rv V0). specialize (Ro V0).
  cbn [app] in *. change (held Impl_new) with 0 in Ro.
  unfold opened. split; [lia|].
  split; [unfold held; destruct (hardware i) as [[fd [|]]|]; cbn; lia|].
  unfold destroy, deref, SerialInterface.disconnect, bind, modify, gets, call, ret.
  revert Rv Ro. unfold holds_valid, held.
  destruct i as [s c e cb [[fd [|]]|]]; cbn -[Z.leb opened_from closed];
    intros Rv Ro.
  - rewrite (proj2 (Z.leb_le 0 fd) (Rv eq_refl)). cbn -[opened_from closed].
    split; [reflexivity|]. rewrite opened_from_app, closed_app. cbn. lia.
  - split; [reflexivity | lia].
  - split; [reflexivity | lia].
Qed.


(** ** The status over a run *)

(** How one operation moves the status. *)
Lemma exec_status (os : OS) (op : Op) (i : Impl) (l : list Event) :
  let '(v, i', l') := exec os op i l in
  (status i <> MAINTENANCE -> status i' <> MAINTENANCE) /\
  (operational (status i) = true -> is_calibrate op = false ->
   operational (status i') = true) /\
  (status i = ERROR -> resets op = false ->
   status i' = ERROR /\ succeeded v = false).
Proof.
  assert (lifecycle : forall t,
    let '(v, i', l') := exec os (op_of t) i l in
    (status i <> MAINTENANCE -> status i' <> MAINTENANCE) /\
    (operational (status i) = true -> operational (status i') = true) /\
    (status i = ERROR -> resets (op_of t) = false ->
     status i' = ERROR /\ succeeded v = false)).
  { intro t. rewrite lifecycle_step.
    destruct i as [s c e cb h]. cbn [status].
    destruct t, s; cbn -[String.append];
      (split; [first [exact (fun H => H) | discriminate]|]);
      (split; [first [exact (fun H => H) | reflexivity | discriminate]|]);
      intros H1 H2; first [discriminate H1 | discriminate H2 | split; reflexivity]. }
  destruct op as [cfg| | | | |dev params| | |callback| |].
  - pose proof (initialize_outcome os cfg i l) as H. cbn [exec]. unfold bind, ret.
    destruct (initialize os cfg i l) as [[ok i'] l'].
    destruct H as (Hs & _). rewrite Hs.
    split; [discriminate|]. split; [reflexivity | discriminate].
  - pose proof (lifecycle LStart) as H. cbn [op_of] in H.
    destruct (exec os Start i l) as [[v i'] l']. destruct H as (A & B & C).
    split; [exact A|]. split; [intros H _; exact (B H) | exact C].
  - pose proof (lifecycle LStop) as H. cbn [op_of] in H.
    destruct (exec os Stop i l) as [[v i'] l']. destruct H as (A & B & C).
    split; [exact A|]. split; [intros H _; exact (B H) | exact C].
  - pose proof (lifecycle LPause) as H. cbn [op_of] in H.
    destruct (exec os Pause i l) as [[v i'] l']. destruct H as (A & B & C).
    split; [exact A|]. split; [intros H _; exact (B H) | exact C].
  - pose proof (lifecycle LResume) as H. cbn [op_of] in H.
    destruct (exec os Resume i l) as [[v i'] l']. destruct H as (A & B & C).
    split; [exact A|]. split; [intros H _; exact (B H) | exact C].
  - cbn [exec]. unfold bind, ret. rewrite runTest_cases. cbv zeta.
    destruct (negb (status_eqb (status i) RUNNING)) eqn:Hn;
      [|destruct (hardware i) as [[fd [|]]|];
        cbn [SerialInterface.connected SerialInterface.serial_fd];
        [destruct (_ =? _)| |]];
      (split; [exact (fun H => H)|]); (split; [exact (fun H _ => H)|]);
      intros Hs _;
      first [ rewrite Hs in Hn; discriminate Hn
            | split; [exact Hs | reflexivity] ].
  - cbn. split; [exact (fun H => H)|]. split; [exact (fun H _ => H)|].
    intros H _. split; [exact H | reflexivity].
  - cbn. split; [exact (fun H => H)|]. split; [exact (fun H _ => H)|].
    intros H _. split; [exact H | reflexivity].
  - destruct i as [s c e cb h]. cbn.
    split; [exact (fun H => H)|]. split; [exact (fun H _ => H)|].
    intros H _. split; [exact H | reflexivity].
  - cbn [exec]. unfold bind, ret.
    destruct (status_eqb (status i) IDLE) eqn:Hs.
    + apply status_eqb_eq in Hs. rewrite (calibrate_from_idle os i l Hs). cbv zeta.
      assert (forall s, status (set_status s i) = s) as Ls
        by (intro; destruct i; reflexivity).
      rewrite Hs.
      destruct (hardware i) as [[fd [|]]|];
        cbn [SerialInterface.connected SerialInterface.serial_fd];
        try match goal with
            | |- context [if Str.contains ?p ?r then _ else _] =>
                destruct (Str.contains p r)
            end;
        rewrite Ls;
        (split; [discriminate|]); (split; [discriminate|]); discriminate.
    + assert (status i <> IDLE) as Hn.
      { intro E. apply status_eqb_eq in E. rewrite E in Hs. discriminate Hs. }
      rewrite (calibrate_refused os i l Hn).
      destruct i as [s c e cb h]. cbn.
      split; [exact (fun H => H)|]. split; [discriminate|].
      intros H _. split; [exact H | reflexivity].
  - cbn. split; [exact (fun H => H)|]. split; [exact (fun H _ => H)|].
    intros H _. split; [exact H | reflexivity].
Qed.

(** X11. Maintenance is a status of the inside of calibrate only: from a
    status other than Maintenance, after every sequence of public
    operations the status is not Maintenance, although each calibrate that
    passes its guard assigns it and tells the subscriber.  calibrate blocks
    until it has left that status again, for Idle or for Error. *)
Theorem maintenance_is_transient (os : OS) (ops : list Op) (i : Impl)
    (l : list Event) :
  status i <> MAINTENANCE ->
  let '(_, i', l') := run os ops i l in
  fst (fst (getStatus i' l')) <> MAINTENANCE.
Proof.
  revert i l. induction ops as [|op later IH]; intros i l H.
  - exact H.
  - cbn [run]. unfold bind, ret.
    pose proof (exec_status os op i l) as E.
    destruct (exec os op i l) as [[v i1] l1].
    destruct E as (E & _). specialize (IH i1 l1 (E H)).
    destruct (run os later i1 l1) as [[vs i2] l2]. exact IH.
Qed.

Lemma maintenance_is_transient_witness :
  let ops := [Initialize Scenario.usb_config; Calibrate; Start; Calibrate] in
  status Impl_new <> MAINTENANCE /\
  In (MAINTENANCE, "Calibration in progress")
     (committed (snd (run Scenario.bench ops Impl_new []))) /\
  let '(_, i', l') := run Scenario.bench ops Impl_new [] in
  fst (fst (getStatus i' l')) <> MAINTENANCE.
Proof.
  cbv zeta. split; [discriminate|]. split.
  - vm_compute. right. left. reflexivity.
  - apply (maintenance_is_transient Scenario.bench
             [Initialize Scenario.usb_config; Calibrate; Start; Calibrate]
             Impl_new []).
    discriminate.
Defined.

(** X12. Only calibrate leads to the status Error: from Idle, Running or
    Paused, after every sequence of public operations without a calibrate
    the status is one of these three; a failure of initialize, of a
    life-cycle call or of a test never puts the controller in Error. *)
Theorem error_only_from_calibrate (os : OS) (ops : list Op) (i : Impl)
    (l : list Event) :
  operational (status i) = true ->
  existsb is_calibrate ops = false ->
  let '(_, i', l') := run os ops i l in
  operational (fst (fst (getStatus i' l'))) = true.
Proof.
  revert i l. induction ops as [|op later IH]; intros i l H Hops.
  - exact H.
  - cbn [existsb] in Hops. apply orb_false_elim in Hops as [Hop Hlater].
    cbn [run]. unfold bind, ret.
    pose proof (exec_status os op i l) as E.
    destruct (exec os op i l) as [[v i1] l1].
    destruct E as (_ & E & _). specialize (IH i1 l1 (E H Hop) Hlater).
    destruct (run os later i1 l1) as [[vs i2] l2]. exact IH.
Qed.

Lemma error_only_from_calibrate_witness :
  let ops := [Initialize Scenario.usb_config; Pause; Start; Start;
              RunTest "D1" []; Resume; Stop] in
  (operational (status Impl_new) = true /\ existsb is_calibrate ops = false) /\
  let '(_, i', l') := run Scenario.no_device ops Impl_new [] in
  operational (fst (fst (getStatus i' l'))) = true.
Proof.
  cbv zeta. split.
  - split; reflexivity.
  - apply (error_only_from_calibrate Scenario.no_device
             [Initialize Scenario.usb_config; Pause; Start; Start;
              RunTest "D1" []; Resume; Stop] Impl_new []); reflexivity.
Defined.

(** X13. The status Error is left by stop and by initialize only: from
    Error, over every sequence of the other operations the status stays
    Error and nothing succeeds; start, pause, resume and calibrate answer
    false and every test fails. *)
Theorem error_is_left_by_stop_or_initialize (os : OS) (ops : list Op)
    (i : Impl) (l : list Event) :
  status i = ERROR ->
  existsb resets ops = false ->
  let '(values, i', l') := run os ops i l in
  fst (fst (getStatus i' l')) = ERROR /\ existsb succeeded values = false.
Proof.
  revert i l. induction ops as [|op later IH]; intros i l H Hops.
  - split; [exact H | reflexivity].
  - cbn [existsb] in Hops. apply orb_false_elim in Hops as [Hop Hlater].
    cbn [run]. unfold bind, ret.
    pose proof (exec_status os op i l) as E.
    destruct (exec os op i l) as [[v i1] l1].
    destruct E as (_ & _ & E). destruct (E H Hop) as [E1 E2].
    specialize (IH i1 l1 E1 Hlater).
    destruct (run os later i1 l1) as [[vs i2] l2].
    destruct IH as [IH1 IH2]. split; [exact IH1|].
    cbn [existsb]. rewrite E2, IH2. reflexivity.
Qed.

Lemma error_is_left_by_stop_or_initialize_witness :
  let ops := [Start; Pause; Resume; Calibrate; RunTest "D1" ["voltage"];
              GetStatus; SetStatusCallback true; GetHealthMetrics] in
  let i := snd (fst (exec Scenario.no_device Calibrate Impl_new [])) in
  (status i = ERROR /\ existsb resets ops = false) /\
  let '(values, i', l') := run Scenario.bench ops i [] in
  fst (fst (getStatus i' l')) = ERROR /\ existsb succeeded values = false.
Proof.
  cbv zeta. split.
  - split; reflexivity.
  - apply (error_is_left_by_stop_or_initialize Scenario.bench
             [Start; Pause; Resume; Calibrate; RunTest "D1" ["voltage"];
              GetStatus; SetStatusCallback true; GetHealthMetrics]
             (snd (fst (exec Scenario.no_device Calibrate Impl_new []))) []);
      reflexivity.
Defined.


(** ** What a test result holds *)

Lemma decode_response_fields (response : string) (result : TestResult) :
  measurement_value result = None -> units result = EmptyString ->
  let r := decode_response response result in
  (exists verdict, passed r = Some verdict) /\
  (notes r = completed <-> measurement_value r <> None) /\
  (notes r <> completed -> passed r = Some false /\ units r = EmptyString).
Proof.
  intros Hm Hu. cbv zeta. unfold decode_response, parse_response, completed.
  destruct response as [|c rest].
  - destruct result. cbn in *. subst.
    split; [eexists; reflexivity|].
    split; [split; [discriminate | intro H; contradiction H; reflexivity]|].
    intros _. split; reflexivity.
  - destruct (_ && _)%bool.
    + destruct (Stod.stod _); destruct result; cbn in *; subst.
      * split; [eexists; reflexivity|].
        split; [split; [discriminate | reflexivity]|].
        intro H. contradiction H. reflexivity.
      * split; [eexists; reflexivity|].
        split; [split; [discriminate | intro H; contradiction H; reflexivity]|].
        intros _. split; reflexivity.
      * split; [eexists; reflexivity|].
        split; [split; [discriminate | intro H; contradiction H; reflexivity]|].
        intros _. split; reflexivity.
    + destruct result. cbn in *. subst.
      split; [eexists; reflexivity|].
      split; [split; [discriminate | intro H; contradiction H; reflexivity]|].
      intros _. split; reflexivity.
Qed.

(** X14. runTest changes nothing of the controller, whatever happens to
    the test, and always assigns the verdict.  It assigns the measured
    value exactly when the note is "Test completed successfully"; on every
    other path (refused, not connected, not sent, no response, malformed
    response) the verdict is false, the units are empty and the measured
    value is left without a value, as the declaration [TestResult result;]
    made it. *)
Theorem runTest_measures_on_success_only (os : OS) (device : string)
    (parameters : list string) (i : Impl) (l : list Event) :
  let '(r, i', l') := runTest os device parameters i l in
  i' = i /\
  (exists verdict, passed r = Some verdict) /\
  (notes r = completed <-> measurement_value r <> None) /\
  (notes r <> completed -> passed r = Some false /\ units r = EmptyString).
Proof.
  rewrite runTest_cases. cbv zeta.
  assert (forall note,
    note <> completed ->
    let r := set_notes note (set_passed false (fresh_result os device l)) in
    (exists verdict, passed r = Some verdict) /\
    (notes r = completed <-> measurement_value r <> None) /\
    (notes r <> completed -> passed r = Some false /\ units r = EmptyString)) as F.
  { intros note Hn. cbn. split; [eexists; reflexivity|].
    split; [split; [intro H; contradiction (Hn H) | intro H; contradiction H; reflexivity]|].
    intros _. split; reflexivity. }
  destruct (negb _);
    [|destruct (hardware i) as [[fd [|]]|];
      cbn [SerialInterface.connected SerialInterface.serial_fd];
      [destruct (_ =? _)| |]];
    (split; [reflexivity|]);
    first [ apply F; discriminate
          | apply decode_response_fields; reflexivity ].
Qed.

(** X15. When write does not take the whole command (it returns an error
    or a count short of the length of the line), the test fails with the
    note "Failed to send test command" and the controller does not wait
    for a response: the log ends with the write, and no read of the line
    follows. *)
Theorem short_write_fails_the_test (os : OS) (device : string)
    (parameters : list string) (i : Impl) (l : list Event)
    (h : SerialInterface.t) :
  let fd := SerialInterface.serial_fd h in
  let wire := test_command device parameters ++ Str.crlf in
  status i = RUNNING ->
  hardware i = Some h ->
  SerialInterface.connected h = true ->
  sys_write os (l ++ [Localtime; Localtime])%list fd wire
    <> Z.of_nat (String.length wire) ->
  let '(r, i', l') := runTest os device parameters i l in
  passed r = Some false /\
  notes r = "Failed to send test command" /\
  measurement_value r = None /\
  i' = i /\
  l' = (l ++ [Localtime; Localtime; Write fd wire])%list.
Proof.
  cbv zeta. intros Hs Hh Hc Hw.
  rewrite runTest_cases. cbv zeta. rewrite Hs, Hh, Hc. cbn [status_eqb negb].
  apply Z.eqb_neq in Hw. rewrite Hw.
  repeat split. rewrite <- app_assoc. reflexivity.
Qed.

Lemma short_write_fails_the_test_witness :
  let os := Scenario.no_device in
  let i := Scenario.running in
  let h := {| SerialInterface.serial_fd := 3; SerialInterface.connected := true |} in
  let fd := SerialInterface.serial_fd h in
  let wire := test_command "D1" ["voltage"; "5.0"] ++ Str.crlf in
  (status i = RUNNING /\ hardware i = Some h /\ SerialInterface.connected h = true /\
   sys_write os ([] ++ [Localtime; Localtime])%list fd wire
     <> Z.of_nat (String.length wire)) /\
  let '(r, i', l') := runTest os "D1" ["voltage"; "5.0"] i [] in
  passed r = Some false /\
  notes r = "Failed to send test command" /\
  measurement_value r = None /\
  i' = i /\
  l' = ([] ++ [Localtime; Localtime; Write fd wire])%list.
Proof.
  cbv zeta. split.
  - repeat split. discriminate.
  - apply (short_write_fails_the_test Scenario.no_device "D1" ["voltage"; "5.0"]
             Scenario.running []
             {| SerialInterface.serial_fd := 3; SerialInterface.connected := true |});
      [reflexivity | reflexivity | reflexivity | discriminate].
Defined.


Lemma rstrip_empty (s : string) :
  Str.rstrip s = EmptyString <-> all_space s = true.
Proof.
  destruct (rstrip_split s) as (spaces & E & A). split; intro H.
  - rewrite H in E. cbn in E. rewrite E. exact A.
  - rewrite E, all_space_append in H. apply andb_prop in H as [H _].
    destruct (all_space_ends _ H) as [K|K]; [exact K|].
    rewrite rstrip_ends in K. discriminate K.
Qed.

(** X16. A response of white space only (a bare line terminator, say) is
    taken for no response at all: with the status Running, a connected
    interface and the command written in full, the note of the test is "No
    response from device" exactly when the polling loop gathered nothing
    but white space within the 5000 ms, be it nothing at all. *)
Theorem blank_response_is_no_response (os : OS) (device : string)
    (parameters : list string) (i : Impl) (l : list Event)
    (h : SerialInterface.t) :
  let fd := SerialInterface.serial_fd h in
  let wire := test_command device parameters ++ Str.crlf in
  let l2 := (l ++ [Localtime; Localtime])%list in
  let gathered :=
    SerialInterface.poll (sys_read os (l2 ++ [Write fd wire]) fd 5000) EmptyString in
  status i = RUNNING ->
  hardware i = Some h ->
  SerialInterface.connected h = true ->
  sys_write os l2 fd wire = Z.of_nat (String.length wire) ->
  let '(r, _, l') := runTest os device parameters i l in
  (notes r = "No response from device" <-> all_space gathered = true) /\
  l' = (l2 ++ [Write fd wire; Poll fd 5000])%list.
Proof.
  cbv zeta. intros Hs Hh Hc Hw.
  rewrite runTest_cases. cbv zeta. rewrite Hs, Hh, Hc. cbn [status_eqb negb].
  apply Z.eqb_eq in Hw. rewrite Hw.
  split; [|reflexivity].
  rewrite <- rstrip_empty.
  destruct (Str.rstrip _) as [|c rest].
  - split; reflexivity.
  - split; [|discriminate].
    unfold decode_response, parse_response.
    destruct (_ && _)%bool; [destruct (Stod.stod _)|]; discriminate.
Qed.

Lemma blank_response_is_no_response_witness :
  let os := {| sys_open := fun _ _ => 3;
               sys_tcgetattr := fun _ _ => 0;
               sys_tcsetattr := fun _ _ => 0;
               sys_write := fun _ _ bytes => Z.of_nat (String.length bytes);
               sys_read := fun _ _ _ => [" "; Str.crlf; "RESULT:1:V:PASS"];
               sys_localtime := fun _ => Scenario.morning |} in
  let i := Scenario.running in
  let h := {| SerialInterface.serial_fd := 3; SerialInterface.connected := true |} in
  let fd := SerialInterface.serial_fd h in
  let wire := test_command "D1" [] ++ Str.crlf in
  let l2 := ([] ++ [Localtime; Localtime])%list in
  let gathered :=
    SerialInterface.poll (sys_read os (l2 ++ [Write fd wire]) fd 5000) EmptyString in
  (status i = RUNNING /\ hardware i = Some h /\ SerialInterface.connected h = true /\
   sys_write os l2 fd wire = Z.of_nat (String.length wire) /\
   all_space gathered = true) /\
  let '(r, _, l') := runTest os "D1" [] i [] in
  (notes r = "No response from device" <-> all_space gathered = true) /\
  l' = (l2 ++ [Write fd wire; Poll fd 5000])%list.
Proof.
  cbv zeta. split.
  - repeat split.
  - apply (blank_response_is_no_response
             {| sys_open := fun _ _ => 3;
                sys_tcgetattr := fun _ _ => 0;
                sys_tcsetattr := fun _ _ => 0;
                sys_write := fun _ _ bytes => Z.of_nat (String.length bytes);
                sys_read := fun _ _ _ => [" "; Str.crlf; "RESULT:1:V:PASS"];
                sys_localtime := fun _ => Scenario.morning |}
             "D1" [] Scenario.running []
             {| SerialInterface.serial_fd := 3; SerialInterface.connected := true |});
      reflexivity.
Defined.

(** ** Without a device *)

Lemma transport_notification (cb : bool) (s : EquipmentStatus) (m : string) :
  transport (notification cb s m) = [].
Proof. destruct cb; reflexivity. Qed.

(** An operation other than initialize keeps the interface; without a
    connected one it leaves the line alone and cannot succeed at a test or
    a calibration. *)
Lemma exec_offline (os : OS) (op : Op) (i : Impl) (l : list Event) :
  held i = 0 -> is_initialize op = false ->
  let '(v, i', l') := exec os op i l in
  held i' = 0 /\ transport l' = transport l /\
  (needs_device op = true -> succeeded v = false).
Proof.
  intros Hh Hop.
  assert (lifecycle : forall t,
    let '(v, i', l') := exec os (op_of t) i l in
    held i' = 0 /\ transport l' = transport l /\
    (needs_device (op_of t) = true -> succeeded v = false)).
  { intro t. rewrite lifecycle_step.
    destruct i as [s c e cb h]. unfold held in *. cbn [status statusCallback hardware] in *.
    destruct t, s; cbn -[String.append transport];
      (split; [exact Hh|]);
      rewrite ?transport_app, ?transport_notification, ?app_nil_r;
      (split; [reflexivity | discriminate]). }
  destruct op as [cfg| | | | |dev params| | |callback| |].
  - discriminate Hop.
  - pose proof (lifecycle LStart) as H. exact H.
  - pose proof (lifecycle LStop) as H. exact H.
  - pose proof (lifecycle LPause) as H. exact H.
  - pose proof (lifecycle LResume) as H. exact H.
  - cbn [exec]. unfold bind, ret. rewrite runTest_cases. cbv zeta.
    pose proof Hh as Hc. unfold held in Hc. revert Hc.
    destruct (negb _);
      [|destruct (hardware i) as [[fd [|]]|];
        cbn [SerialInterface.connected SerialInterface.serial_fd]];
      intro Hc; try discriminate Hc;
      (split; [exact Hh|]);
      rewrite transport_app, app_nil_r;
      (split; [reflexivity|]); reflexivity.
  - cbn. split; [exact Hh|]. split; [reflexivity | discriminate].
  - cbn. split; [exact Hh|]. split; [reflexivity | discriminate].
  - destruct i as [s c e cb h]. cbn.
    split; [exact Hh|]. split; [reflexivity | discriminate].
  - cbn [exec]. unfold bind, ret.
    destruct (status_eqb (status i) IDLE) eqn:Hs.
    + apply status_eqb_eq in Hs. rewrite (calibrate_from_idle os i l Hs). cbv zeta.
      assert (forall s, held (set_status s i) = held i) as Lh
        by (intro; destruct i; reflexivity).
      pose proof Hh as Hc. unfold held in Hc. revert Hc.
      destruct (hardware i) as [[fd [|]]|];
        cbn [SerialInterface.connected SerialInterface.serial_fd];
        intro Hc; try discriminate Hc;
        rewrite Lh; (split; [exact Hh|]);
        rewrite !transport_app, !transport_notification, ?app_nil_r;
        (split; [reflexivity|]); reflexivity.
    + assert (status i <> IDLE) as Hn.
      { intro E. apply status_eqb_eq in E. rewrite E in Hs. discriminate Hs. }
      rewrite (calibrate_refused os i l Hn).
      destruct i as [s c e cb h]. cbn.
      split; [exact Hh|]. split; [reflexivity|]. reflexivity.
  - cbn. split; [exact Hh|]. split; [reflexivity | discriminate].
Qed.

Lemma run_offline (os : OS) (ops : list Op) :
  forall (i : Impl) (l : list Event),
  held i = 0 -> existsb is_initialize ops = false ->
  let '(values, i', l') := run os ops i l in
  held i' = 0 /\ transport l' = transport l /\
  Forall (fun call => needs_device (fst call) = true -> succeeded (snd call) = false)
         (combine ops values).
Proof.
  induction ops as [|op later IH]; intros i l Hh Hops.
  - cbn. split; [exact Hh|]. split; [reflexivity | constructor].
  - cbn [existsb] in Hops. apply orb_false_elim in Hops as [Hop Hlater].
    cbn [run]. unfold bind, ret.
    pose proof (exec_offline os op i l Hh Hop) as E.
    destruct (exec os op i l) as [[v i1] l1].
    destruct E as (E1 & E2 & E3).
    specialize (IH i1 l1 E1 Hlater).
    destruct (run os later i1 l1) as [[vs i2] l2].
    destruct IH as (R1 & R2 & R3).
    split; [exact R1|]. split; [rewrite R2; exact E2|].
    cbn [combine]. constructor; [exact E3 | exact R3].
Qed.

(** X17. The simulation mode is offline for good: after an initialize that
    answered false, over every sequence of operations without a further
    initialize nothing is sent to or read from the serial line and no
    descriptor is held, every test fails and every calibration fails; the
    controller does not try to connect again by itself. *)
Theorem simulation_mode_is_offline (os : OS) (cfg : EquipmentConfig)
    (ops : list Op) (i : Impl) (l : list Event) :
  fst (fst (initialize os cfg i l)) = false ->
  existsb is_initialize ops = false ->
  let '(_, i1, l1) := initialize os cfg i l in
  let '(values, i2, l2) := run os ops i1 l1 in
  held i2 = 0 /\
  transport l2 = transport l1 /\
  Forall (fun call => needs_device (fst call) = true -> succeeded (snd call) = false)
         (combine ops values).
Proof.
  intros Hf Hops.
  assert (held (snd (fst (initialize os cfg i l))) = 0) as Hh.
  { revert Hf. rewrite initialize_cases.
    pose proof (connect_account os (device_port cfg) (baud_rate cfg)
                  (l ++ closes_of i)%list) as C.
    destruct (SerialInterface.connect os (device_port cfg) (baud_rate cfg)
                SerialInterface.new (l ++ closes_of i)%list) as [[ok h'] l2].
    destruct C as (Hc & _). cbv zeta.
    destruct ok; cbn [fst snd]; intro Hf; [discriminate Hf|].
    destruct i. unfold held. cbn. rewrite Hc. reflexivity. }
  destruct (initialize os cfg i l) as [[ok i1] l1]. cbn [fst snd] in *.
  exact (run_offline os ops i1 l1 Hh Hops).
Qed.

Lemma simulation_mode_is_offline_witness :
  let os := Scenario.no_device in
  let cfg := Scenario.usb_config in
  let ops := [Start; RunTest "D1" ["voltage"; "5.0"]; Pause; Resume; Stop;
              Calibrate; Stop; Start; RunTest "D2" []] in
  (fst (fst (initialize os cfg Impl_new [])) = false /\
   existsb is_initialize ops = false) /\
  let '(_, i1, l1) := initialize os cfg Impl_new [] in
  let '(values, i2, l2) := run os ops i1 l1 in
  held i2 = 0 /\
  transport l2 = transport l1 /\
  Forall (fun call => needs_device (fst call) = true -> succeeded (snd call) = false)
         (combine ops values).
Proof.
  cbv zeta. split.
  - split; reflexivity.
  - apply (simulation_mode_is_offline Scenario.no_device Scenario.usb_config
             [Start; RunTest "D1" ["voltage"; "5.0"]; Pause; Resume; Stop;
              Calibrate; Stop; Start; RunTest "D2" []] Impl_new []); reflexivity.
Defined.


(** ** The configuration *)

Lemma connect_ignores_baud (os : OS) (port : string) (baud other : Z)
    (h : SerialInterface.t) (l : list Event) :
  SerialInterface.connect os port baud h l = SerialInterface.connect os port other h l.
Proof. reflexivity. Qed.

Lemma exec_without_config (os : OS) (a b : Op) (i j : Impl) (l : list Event) :
  alike a b -> without_config i = without_config j ->
  let '(v, i', l') := exec os a i l in
  let '(w, j', m') := exec os b j l in
  v = w /\ l' = m' /\ without_config i' = without_config j'.
Proof.
  intros Hab Hij.
  destruct i as [s c e cb h], j as [s' c' e' cb' h'].
  unfold without_config in Hij. cbn in Hij.
  injection Hij as <- <- <- <-.
  destruct a as [cfg| | | | |dev params| | |callback| |];
    destruct b as [cfg'| | | | |dev' params'| | |callback'| |];
    cbn in Hab; try discriminate Hab.
  - cbn [exec]. unfold bind, ret. rewrite !initialize_cases.
    unfold closes_of. cbn [hardware statusCallback]. rewrite <- Hab.
    rewrite (connect_ignores_baud os (device_port cfg) (baud_rate cfg') (baud_rate cfg)).
    destruct (SerialInterface.connect _ _ _ _ _) as [[ok h2] l2].
    cbv zeta. destruct ok; rewrite ?Hab; repeat split.
  - destruct s, cb; cbn; repeat split.
  - destruct s, cb; cbn; repeat split.
  - destruct s, cb; cbn; repeat split.
  - destruct s, cb; cbn; repeat split.
  - injection Hab as <- <-. cbn [exec]. unfold bind, ret.
    rewrite !runTest_cases. cbv zeta. cbn [status hardware].
    destruct (negb _);
      [|destruct h as [[fd [|]]|];
        cbn [SerialInterface.connected SerialInterface.serial_fd];
        [destruct (_ =? _)| |]];
      repeat split.
  - cbn. repeat split.
  - cbn. repeat split.
  - injection Hab as <-. cbn. repeat split.
  - cbn [exec]. unfold bind, ret.
    destruct (status_eqb s IDLE) eqn:Hs.
    + apply status_eqb_eq in Hs. subst s.
      rewrite !calibrate_from_idle by reflexivity. cbv zeta.
      cbn [hardware statusCallback].
      destruct h as [[fd [|]]|];
        cbn [SerialInterface.connected SerialInterface.serial_fd];
        try match goal with
            | |- context [if Str.contains ?p ?r then _ else _] =>
                destruct (Str.contains p r)
            end;
        repeat split.
    + assert (s <> IDLE) as Hn.
      { intro E. apply status_eqb_eq in E. rewrite E in Hs. discriminate Hs. }
      rewrite !calibrate_refused by exact Hn. repeat split.
  - cbn. repeat split.
Qed.

(** X18. Of the configuration, only the port has an effect.  Two sequences
    of operations that differ only in the configurations given to
    initialize, and there in anything but the port (the baud rate, the
    measurement tolerance, the retry attempts, the logging switch and the
    log file), return the same answers and act the same on the system, and
    leave controllers that differ in the stored configuration alone: the
    controller stores the configuration and never reads it back. *)
Theorem only_the_port_matters (os : OS) (ops ops' : list Op) (i j : Impl)
    (l : list Event) :
  Forall2 alike ops ops' ->
  without_config i = without_config j ->
  let '(values, i', l') := run os ops i l in
  let '(values', j', m') := run os ops' j l in
  values = values' /\ l' = m' /\ without_config i' = without_config j'.
Proof.
  intro H. revert i j l. induction H as [|a b ops ops' Hab _ IH]; intros i j l Hij.
  - cbn. repeat split. exact Hij.
  - cbn [run]. unfold bind, ret.
    pose proof (exec_without_config os a b i j l Hab Hij) as E.
    destruct (exec os a i l) as [[v i1] l1].
    destruct (exec os b j l) as [[w j1] m1].
    destruct E as (-> & -> & E).
    specialize (IH i1 j1 m1 E).
    destruct (run os ops i1 m1) as [[vs i2] l2].
    destruct (run os ops' j1 m1) as [[ws j2] m2].
    destruct IH as (-> & -> & IH). repeat split. exact IH.
Qed.

Lemma only_the_port_matters_witness :
  let other := {| device_port := "/dev/ttyUSB0"; baud_rate := 9600;
                  measurement_tolerance := 5%float; max_retry_attempts := 0;
                  enable_logging := true; log_file_path := "bench.log" |} in
  let ops := [Initialize Scenario.usb_config; Calibrate; Start;
              RunTest "D1" ["voltage"; "5.0"]; Stop] in
  let ops' := [Initialize other; Calibrate; Start;
               RunTest "D1" ["voltage"; "5.0"]; Stop] in
  (Forall2 alike ops ops' /\ without_config Impl_new = without_config Impl_new) /\
  let '(values, i', l') := run Scenario.bench ops Impl_new [] in
  let '(values', j', m') := run Scenario.bench ops' Impl_new [] in
  values = values' /\ l' = m' /\ without_config i' = without_config j'.
Proof.
  cbv zeta.
  assert (Forall2 alike
            [Initialize Scenario.usb_config; Calibrate; Start;
             RunTest "D1" ["voltage"; "5.0"]; Stop]
            [Initialize {| device_port := "/dev/ttyUSB0"; baud_rate := 9600;
                           measurement_tolerance := 5%float; max_retry_attempts := 0;
                           enable_logging := true; log_file_path := "bench.log" |};
             Calibrate; Start; RunTest "D1" ["voltage"; "5.0"]; Stop]) as H
    by (repeat constructor).
  split.
  - split; [exact H | reflexivity].
  - apply (only_the_port_matters Scenario.bench _ _ Impl_new Impl_new [] H).
    reflexivity.
Defined.


(** * The command-line program *)

(** ** The arguments *)

(** A prefix of the arguments that the loop runs through leaves nothing
    behind but the locals it set. *)
Lemma parse_args_app (later : list string) :
  forall (n : nat) (args : list string) (v v' : Main.Locals),
  (List.length args <= n)%nat ->
  Main.parse_args args v = Main.Proceed v' ->
  Main.parse_args (args ++ later) v = Main.parse_args later v'.
Proof.
  induction n as [|n IH]; intros args v v' Hn H.
  - destruct args; [|cbn in Hn; lia].
    cbn in H. injection H as ->. reflexivity.
  - destruct args as [|arg rest].
    + cbn in H. injection H as ->. reflexivity.
    + cbn [List.length] in Hn. cbn [Main.parse_args app] in *.
      destruct (_ || _)%bool; [discriminate H|].
      destruct (_ || _)%bool.
      { destruct rest as [|value rest']; [discriminate H|].
        cbn [List.length] in Hn. cbn [app]. apply IH; [lia | exact H]. }
      destruct (_ || _)%bool.
      { destruct rest as [|value rest']; [discriminate H|].
        cbn [List.length] in Hn. cbn [app].
        destruct (Stoi.stoi value); [|discriminate H].
        apply IH; [lia | exact H]. }
      destruct (_ || _)%bool.
      { destruct rest as [|value rest']; [discriminate H|].
        cbn [List.length] in Hn. cbn [app]. apply IH; [lia | exact H]. }
      destruct (_ || _)%bool; [apply IH; [lia | exact H]|].
      destruct (_ || _)%bool; [apply IH; [lia | exact H]|].
      discriminate H.
Qed.

(** X19. The arguments are taken from left to right, and the first one
    that ends the program decides, whatever follows it.  After arguments
    that the loop runs through, the rest is read with the locals they set;
    a help option there ends the program with the usage and the code 0,
    even when wrong arguments follow, and so does an unknown argument with
    the code 1, even when a help option follows. *)
Theorem arguments_left_to_right (args later : list string) (unknown : string)
    (v v' : Main.Locals) :
  Main.parse_args args v = Main.Proceed v' ->
  Main.parse_args [unknown] v' =
    Main.Return 1 (Main.Cerr ("Error: Unknown argument: " ++ unknown ++ Main.endl)
                     :: Main.printUsage) ->
  Main.parse_args (args ++ later) v = Main.parse_args later v' /\
  Main.parse_args (args ++ "-h" :: later) v = Main.Return 0 Main.printUsage /\
  Main.parse_args (args ++ "--help" :: later) v = Main.Return 0 Main.printUsage /\
  Main.parse_args (args ++ unknown :: later) v =
    Main.Return 1 (Main.Cerr ("Error: Unknown argument: " ++ unknown ++ Main.endl)
                     :: Main.printUsage).
Proof.
  intros H U.
  split; [exact (parse_args_app later _ args v v' (le_n _) H)|].
  split; [rewrite (parse_args_app _ _ args v v' (le_n _) H); reflexivity|].
  split; [rewrite (parse_args_app _ _ args v v' (le_n _) H); reflexivity|].
  rewrite (parse_args_app _ _ args v v' (le_n _) H).
  revert U. cbn [Main.parse_args].
  destruct (_ || _)%bool; [discriminate|].
  destruct (_ || _)%bool; [discriminate|].
  destruct (_ || _)%bool; [discriminate|].
  destruct (_ || _)%bool; [discriminate|].
  destruct (_ || _)%bool; [discriminate|].
  destruct (_ || _)%bool; [discriminate|].
  intros _. reflexivity.
Qed.

Lemma arguments_left_to_right_witness :
  let args := ["-p"; "-h"; "--baud"; " +9600 baud"; "-s"; "-t"; "--help"; "-c"] in
  let later := ["--port"] in
  let v' := Main.set_run_calibration true
              (Main.set_test_device "--help"
                 (Main.set_show_status true
                    (Main.set_baud_rate 9600
                       (Main.set_device_port "-h" Main.defaults)))) in
  (Main.parse_args args Main.defaults = Main.Proceed v' /\
   Main.parse_args ["--fast"] v' =
     Main.Return 1 (Main.Cerr ("Error: Unknown argument: " ++ "--fast" ++ Main.endl)
                      :: Main.printUsage)) /\
  Main.parse_args (args ++ later) Main.defaults = Main.parse_args later v' /\
  Main.parse_args (args ++ "-h" :: later) Main.defaults =
    Main.Return 0 Main.printUsage /\
  Main.parse_args (args ++ "--help" :: later) Main.defaults =
    Main.Return 0 Main.printUsage /\
  Main.parse_args (args ++ "--fast" :: later) Main.defaults =
    Main.Return 1 (Main.Cerr ("Error: Unknown argument: " ++ "--fast" ++ Main.endl)
                     :: Main.printUsage).
Proof.
  cbv zeta. split.
  - split; reflexivity.
  - apply (arguments_left_to_right
             ["-p"; "-h"; "--baud"; " +9600 baud"; "-s"; "-t"; "--help"; "-c"]
             ["--port"] "--fast" Main.defaults); reflexivity.
Defined.

(** How the loop over the arguments can end, and what it leaves alone. *)
Lemma parse_args_outcome :
  forall (n : nat) (args : list string) (v : Main.Locals),
  (List.length args <= n)%nat ->
  match Main.parse_args args v with
  | Main.Proceed v' =>
      measurement_tolerance (Main.config v') = measurement_tolerance (Main.config v) /\
      max_retry_attempts (Main.config v') = max_retry_attempts (Main.config v) /\
      enable_logging (Main.config v') = enable_logging (Main.config v) /\
      log_file_path (Main.config v') = log_file_path (Main.config v) /\
      (Main.run_calibration v = true -> Main.run_calibration v' = true) /\
      (Main.show_status v = true -> Main.show_status v' = true)
  | Main.Return code out =>
      (code = 0 /\ out = Main.printUsage) \/
      (code = 1 /\ exists text rest, out = Main.Cerr text :: rest)
  | Main.Uncaught e =>
      exists (before : list string) (flag value : string) (after : list string)
             (v1 : Main.Locals),
        args = (before ++ flag :: value :: after)%list /\
        (flag = "-b" \/ flag = "--baud") /\
        Main.parse_args before v = Main.Proceed v1 /\
        Stoi.stoi value = Stoi.Throws e
  end.
Proof.
  assert (forall arg, (arg =? "-b")%string || (arg =? "--baud")%string = true ->
                      arg = "-b" \/ arg = "--baud") as Hb.
  { intros arg H. apply orb_prop in H as [H|H]; apply String.eqb_eq in H; auto. }
  induction n as [|n IH]; intros args v Hn.
  - destruct args; [|cbn in Hn; lia]. cbn. repeat split; exact (fun H => H).
  - destruct args as [|arg rest]; [cbn; repeat split; exact (fun H => H)|].
    cbn [List.length] in Hn. cbn [Main.parse_args].
    destruct ((arg =? "-h") || (arg =? "--help"))%string eqn:E1;
      [left; split; reflexivity|].
    destruct ((arg =? "-p") || (arg =? "--port"))%string eqn:E2.
    { destruct rest as [|value rest'];
        [right; split; [reflexivity | eexists; eexists; reflexivity]|].
      cbn [List.length] in Hn.
      assert (List.length rest' <= n)%nat as Hr by lia.
      specialize (IH rest' (Main.set_device_port value v) Hr).
      destruct (Main.parse_args rest' _) as [v'|code out|e]; [exact IH | exact IH|].
      destruct IH as (before & o & w & after & v1 & -> & Ho & Hp & Hw).
      exists (arg :: value :: before), o, w, after, v1.
      split; [reflexivity|]. split; [exact Ho|]. split; [|exact Hw].
      cbn [Main.parse_args]. rewrite E1, E2. exact Hp. }
    destruct ((arg =? "-b") || (arg =? "--baud"))%string eqn:E3.
    { destruct rest as [|value rest'];
        [right; split; [reflexivity | eexists; eexists; reflexivity]|].
      cbn [List.length] in Hn.
      assert (List.length rest' <= n)%nat as Hr by lia.
      destruct (Stoi.stoi value) as [rate|e] eqn:Hv.
      - specialize (IH rest' (Main.set_baud_rate rate v) Hr).
        destruct (Main.parse_args rest' _) as [v'|code out|e]; [exact IH | exact IH|].
        destruct IH as (before & o & w & after & v1 & -> & Ho & Hp & Hw).
        exists (arg :: value :: before), o, w, after, v1.
        split; [reflexivity|]. split; [exact Ho|]. split; [|exact Hw].
        cbn [Main.parse_args]. rewrite E1, E2, E3, Hv. exact Hp.
      - exists [], arg, value, rest', v.
        split; [reflexivity|]. split; [exact (Hb arg E3)|].
        split; [reflexivity | exact Hv]. }
    destruct ((arg =? "-t") || (arg =? "--test"))%string eqn:E4.
    { destruct rest as [|value rest'];
        [right; split; [reflexivity | eexists; eexists; reflexivity]|].
      cbn [List.length] in Hn.
      assert (List.length rest' <= n)%nat as Hr by lia.
      specialize (IH rest' (Main.set_test_device value v) Hr).
      destruct (Main.parse_args rest' _) as [v'|code out|e]; [exact IH | exact IH|].
      destruct IH as (before & o & w & after & v1 & -> & Ho & Hp & Hw).
      exists (arg :: value :: before), o, w, after, v1.
      split; [reflexivity|]. split; [exact Ho|]. split; [|exact Hw].
      cbn [Main.parse_args]. rewrite E1, E2, E3, E4. exact Hp. }
    destruct ((arg =? "-c") || (arg =? "--calibrate"))%string eqn:E5.
    { assert (List.length rest <= n)%nat as Hr by lia.
      specialize (IH rest (Main.set_run_calibration true v) Hr).
      destruct (Main.parse_args rest _) as [v'|code out|e]; [|exact IH|].
      - destruct IH as (A & B & C & D & E & F).
        repeat split; try assumption. intros _. apply E. reflexivity.
      - destruct IH as (before & o & w & after & v1 & -> & Ho & Hp & Hw).
        exists (arg :: before), o, w, after, v1.
        split; [reflexivity|]. split; [exact Ho|]. split; [|exact Hw].
        cbn [Main.parse_args]. rewrite E1, E2, E3, E4, E5. exact Hp. }
    destruct ((arg =? "-s") || (arg =? "--status"))%string eqn:E6.
    { assert (List.length rest <= n)%nat as Hr by lia.
      specialize (IH rest (Main.set_show_status true v) Hr).
      destruct (Main.parse_args rest _) as [v'|code out|e]; [|exact IH|].
      - destruct IH as (A & B & C & D & E & F).
        repeat split; try assumption. intros _. apply F. reflexivity.
      - destruct IH as (before & o & w & after & v1 & -> & Ho & Hp & Hw).
        exists (arg :: before), o, w, after, v1.
        split; [reflexivity|]. split; [exact Ho|]. split; [|exact Hw].
        cbn [Main.parse_args]. rewrite E1, E2, E3, E4, E5, E6. exact Hp. }
    right. split; [reflexivity | eexists; eexists; reflexivity].
Qed.

(** X20. The loop over the arguments ends in one of three ways.  When it
    runs through them, the measurement tolerance, the retry attempts, the
    logging switch and the log file are the defaults still (no option sets
    them) and a flag once set stays set.  When main returns from it, the
    code is 0 with the usage written (a help option) or 1 with a line on
    cerr first.  Otherwise std::stoi threw, which nothing catches, and it
    did so on the value of a baud option: the arguments are some that the
    loop runs through, then -b or --baud, then a value on which std::stoi
    throws that exception, then whatever follows. *)
Theorem arguments_end_in_three_ways (args : list string) (v : Main.Locals) :
  match Main.parse_args args v with
  | Main.Proceed v' =>
      measurement_tolerance (Main.config v') = measurement_tolerance (Main.config v) /\
      max_retry_attempts (Main.config v') = max_retry_attempts (Main.config v) /\
      enable_logging (Main.config v') = enable_logging (Main.config v) /\
      log_file_path (Main.config v') = log_file_path (Main.config v) /\
      (Main.run_calibration v = true -> Main.run_calibration v' = true) /\
      (Main.show_status v = true -> Main.show_status v' = true)
  | Main.Return code out =>
      (code = 0 /\ out = Main.printUsage) \/
      (code = 1 /\ exists text rest, out = Main.Cerr text :: rest)
  | Main.Uncaught e =>
      exists (before : list string) (flag value : string) (after : list string)
             (v1 : Main.Locals),
        args = (before ++ flag :: value :: after)%list /\
        (flag = "-b" \/ flag = "--baud") /\
        Main.parse_args before v = Main.Proceed v1 /\
        Stoi.stoi value = Stoi.Throws e
  end.
Proof.
  pose proof (parse_args_outcome (List.length args) args v (le_n _)) as H.
  destruct (Main.parse_args args v) as [v'|code out|e].
  - exact H.
  - destruct H as [[H1 H2]|[H1 H2]]; [left | right]; split; assumption.
  - destruct H as (before & o & w & after & v1 & H).
    exists before, o, w, after, v1. exact H.
Qed.

(** X21. A baud option whose value holds no number, or one that does not
    fit an int, ends the program by the exception of std::stoi: behind
    arguments that the loop runs through, main is aborted before the
    controller exists, with nothing written but the banner and nothing
    done on the serial line, whatever follows on the command line. *)
Theorem bad_baud_rate_aborts (os : OS) (args later lines : list string)
    (value last : string) (v : Main.Locals) (e : Stoi.exception) :
  Main.parse_args args Main.defaults = Main.Proceed v ->
  Stoi.stoi value = Stoi.Throws e ->
  Main.main os (args ++ "-b" :: value :: later) lines last =
    (Main.Aborted e, [], Main.banner) /\
  Main.main os (args ++ "--baud" :: value :: later) lines last =
    (Main.Aborted e, [], Main.banner).
Proof.
  intros H E. unfold Main.main.
  rewrite !(parse_args_app _ _ args Main.defaults v (le_n _) H).
  cbn [Main.parse_args]. cbn -[Stoi.stoi]. rewrite E. split; reflexivity.
Qed.

Lemma bad_baud_rate_aborts_witness :
  let args := ["-p"; "/dev/ttyS0"; "-c"] in
  let v := Main.set_run_calibration true
             (Main.set_device_port "/dev/ttyS0" Main.defaults) in
  (Main.parse_args args Main.defaults = Main.Proceed v /\
   Stoi.stoi "fast" = Stoi.Throws Stoi.invalid_argument) /\
  Main.main Scenario.bench (args ++ "-b" :: "fast" :: ["-h"]) ["quit"] EmptyString =
    (Main.Aborted Stoi.invalid_argument, [], Main.banner) /\
  Main.main Scenario.bench (args ++ "--baud" :: "fast" :: ["-h"]) ["quit"] EmptyString =
    (Main.Aborted Stoi.invalid_argument, [], Main.banner).
Proof.
  cbv zeta. split.
  - split; reflexivity.
  - apply (bad_baud_rate_aborts Scenario.bench ["-p"; "/dev/ttyS0"; "-c"] ["-h"]
             ["quit"] "fast" EmptyString
             (Main.set_run_calibration true
                (Main.set_device_port "/dev/ttyS0" Main.defaults))
             Stoi.invalid_argument); reflexivity.
Defined.


(** ** The descriptors over a run of the program *)

Lemma balanced_exec (os : OS) (op : Op) (i : Impl) (l : list Event) :
  balanced os i l ->
  let '(_, i', l') := exec os op i l in balanced os i' l'.
Proof.
  intros [V B].
  pose proof (exec_events os op i l) as E.
  destruct (exec os op i l) as [[v i'] l'].
  destruct E as (_ & Ev & new & -> & _ & _ & Eo).
  split; [exact (Ev V)|].
  unfold opened in *. rewrite opened_from_app, closed_app. cbn [app].
  specialize (Eo V). lia.
Qed.

Lemma keeps_ret (os : OS) {A : Type} (a : A) : keeps os (ret a).
Proof. intros s l H. exact H. Qed.

Lemma keeps_bind (os : OS) {A B : Type} (m : Eff Main.Session A)
    (f : A -> Eff Main.Session B) :
  keeps os m -> (forall a, keeps os (f a)) -> keeps os (bind m f).
Proof.
  intros Hm Hf s l H. unfold bind.
  specialize (Hm s l H). destruct (m s l) as [[a s1] l1].
  exact (Hf a s1 l1 Hm).
Qed.

Lemma keeps_print (os : OS) (items : list Main.Item) : keeps os (Main.print items).
Proof. intros s l H. exact H. Qed.

(** A method that is one of the public operations. *)
Lemma keeps_method (os : OS) {A : Type} (method : Eff Impl A) (op : Op)
    (value : A -> Value) :
  (forall i l, exec os op i l = let '(a, i', l') := method i l in (value a, i', l')) ->
  keeps os (Main.controller method).
Proof.
  intros E s l H. unfold Main.controller.
  pose proof (balanced_exec os op (fst s) l H) as B. rewrite E in B.
  destruct (method (fst s) l) as [[a i'] l']. exact B.
Qed.

Lemma keeps_destroy (os : OS) :
  forall (s : Main.Session) (l : list Event),
  balanced os (fst s) l ->
  let '(_, s', l') := Main.controller destroy s l in
  hardware (fst s') = None /\ opened os l' = closed l'.
Proof.
  intros [i out] l [V B]. cbn [fst] in *.
  unfold Main.controller, destroy, deref, SerialInterface.disconnect,
    bind, modify, gets, call, ret.
  revert V B. unfold holds_valid, held, opened.
  destruct i as [s c e cb [[fd [|]]|]]; cbn -[Z.leb opened_from closed];
    intros V B.
  - rewrite (proj2 (Z.leb_le 0 fd) (V eq_refl)). cbn -[opened_from closed].
    split; [reflexivity|]. rewrite opened_from_app, closed_app. cbn. lia.
  - split; [reflexivity | lia].
  - split; [reflexivity | lia].
Qed.

Ltac keeps_step :=
  first
    [ apply keeps_ret
    | apply keeps_print
    | apply (keeps_method _ _ Start VBool); reflexivity
    | apply (keeps_method _ _ Stop VBool); reflexivity
    | apply (keeps_method _ _ Pause VBool); reflexivity
    | apply (keeps_method _ _ Resume VBool); reflexivity
    | apply (keeps_method _ _ Calibrate VBool); reflexivity
    | apply (keeps_method _ _ GetStatus VStatus); reflexivity
    | apply (keeps_method _ _ GetLastError VString); reflexivity
    | apply (keeps_method _ _ GetHealthMetrics VMetrics); reflexivity
    | apply (keeps_method _ _ (SetStatusCallback true) (fun _ => VUnit)); reflexivity
    | match goal with
      | |- keeps _ (Main.controller (initialize _ ?cfg)) =>
          apply (keeps_method _ _ (Initialize cfg) VBool); reflexivity
      | |- keeps _ (Main.controller (runTest _ ?d ?p)) =>
          apply (keeps_method _ _ (RunTest d p) VResult); reflexivity
      | |- keeps _ (if ?b then _ else _) => destruct b
      | |- keeps _ (bind _ _) => apply keeps_bind; [|intro]
      end ].

Lemma keeps_attempt (os : OS) (method : Eff Impl bool) (done failed : string) :
  keeps os (Main.controller method) ->
  keeps os (Main.attempt method done failed).
Proof.
  intro H. unfold Main.attempt. apply keeps_bind; [exact H|].
  intro ok. repeat keeps_step.
Qed.

Lemma keeps_interact (os : OS) (command : string) :
  keeps os (Main.interact os command).
Proof.
  unfold Main.interact.
  repeat first [ apply keeps_attempt | keeps_step ].
Qed.

Lemma keeps_loop (os : OS) (lines : list string) (last : string) :
  keeps os (Main.loop os lines last).
Proof.
  induction lines as [|command rest IH]; cbn [Main.loop].
  - apply keeps_bind; [apply keeps_print | intros _; apply keeps_interact].
  - apply keeps_bind; [apply keeps_print | intros _].
    apply keeps_bind; [apply keeps_interact | intros [|]];
      [apply keeps_ret | exact IH].
Qed.

Lemma run_test_if_specified_code (os : OS) (v : Main.Locals)
    (s : Main.Session) (l : list Event) :
  let '(early, _, _) := Main.run_test_if_specified os v s l in
  early = None \/ early = Some 1.
Proof.
  unfold Main.run_test_if_specified.
  destruct (_ =? _)%string; [left; reflexivity|].
  unfold bind, ret, Main.print, modify, Main.controller. cbn [fst snd].
  destruct (start _ _) as [[[|] i1] l1].
  - destruct (runTest _ _ _ _ _) as [[r i2] l2].
    destruct (stop _ _) as [[b i3] l3]. left. reflexivity.
  - right. reflexivity.
Qed.

(** X22. However main ends, the descriptors are accounted for.  When it
    returns, the code is 0 or 1 and every descriptor that open gave has
    been closed, by a later initialize or by the destructor of the
    controller, also on the early return after a start that failed.  When
    std::stoi aborts it, nothing was opened.  While it stays in the
    interactive loop it holds one descriptor at most. *)
Theorem main_closes_what_it_opened (os : OS) (args lines : list string)
    (last : string) :
  let '(exit, l, _) := Main.main os args lines last in
  match exit with
  | Main.Returned code => (code = 0 \/ code = 1) /\ opened os l = closed l
  | Main.Aborted _ => l = []
  | Main.Spins => 0 <= opened os l - closed l <= 1
  end.
Proof.
  unfold Main.main.
  pose proof (parse_args_outcome (List.length args) args Main.defaults (le_n _)) as P.
  destruct (Main.parse_args args Main.defaults) as [v|code out|e].
  - clear P.
    assert (keeps os (Main.create_and_initialize os v)) as K1
      by (unfold Main.create_and_initialize; repeat keeps_step).
    assert (keeps os (Main.show_status_if_requested v)) as K2
      by (unfold Main.show_status_if_requested; repeat keeps_step).
    assert (keeps os (Main.run_calibration_if_requested os v)) as K3
      by (unfold Main.run_calibration_if_requested; repeat keeps_step).
    assert (keeps os (Main.run_test_if_specified os v)) as K4
      by (unfold Main.run_test_if_specified; repeat keeps_step).
    assert (keeps os (Main.interactive_mode os v lines last)) as K5.
    { unfold Main.interactive_mode.
      destruct (_ && _)%bool; [|apply keeps_ret].
      apply keeps_bind; [apply keeps_print | intros _; apply keeps_loop]. }
    assert (keeps os (Main.controller stop)) as K6 by keeps_step.
    assert (balanced os Impl_new []) as B by (split; [exact I | reflexivity]).
    unfold Main.after_arguments, bind.
    apply (K1 (Impl_new, Main.banner) []) in B.
    destruct (Main.create_and_initialize os v _ _) as [[u1 s1] l1].
    apply K2 in B. destruct (Main.show_status_if_requested v s1 l1) as [[u2 s2] l2].
    apply K3 in B.
    destruct (Main.run_calibration_if_requested os v s2 l2) as [[u3 s3] l3].
    apply K4 in B. pose proof (run_test_if_specified_code os v s3 l3) as C.
    destruct (Main.run_test_if_specified os v s3 l3) as [[early s4] l4].
    destruct C as [-> | ->].
    + apply K5 in B.
      destruct (Main.interactive_mode os v lines last s4 l4) as [[[|] s5] l5].
      * unfold Main.print at 1, modify.
        match goal with
        | |- context [Main.controller stop ?s ?l] =>
            pose proof (K6 s l B) as B6;
            destruct (Main.controller stop s l) as [[b s6] l6]
        end.
        clear B. rename B6 into B. apply keeps_destroy in B.
        destruct (Main.controller destroy s6 l6) as [[u7 s7] l7].
        cbn [ret]. split; [left; reflexivity | exact (proj2 B)].
      * cbn [ret]. destruct B as [_ B]. rewrite B. unfold held.
        destruct (hardware (fst s5)) as [[fd [|]]|]; cbn; lia.
    + apply keeps_destroy in B.
      destruct (Main.controller destroy s4 l4) as [[u5 s5] l5].
      cbn [ret]. split; [right; reflexivity | exact (proj2 B)].
  - destruct P as [[-> _]|[-> _]].
    + split; [left; reflexivity | reflexivity].
    + split; [right; reflexivity | reflexivity].
  - reflexivity.
Qed.


(** ** The batch mode *)

Lemma transport_no_clock (calls : list Event) :
  Forall (fun e => is_transport e = true) calls -> existsb is_clock calls = false.
Proof.
  induction 1 as [|e rest He _ IH]; [reflexivity|].
  cbn [existsb]. rewrite IH. destruct e; try discriminate He; reflexivity.
Qed.

Lemma notification_no_clock (cb : bool) (s : EquipmentStatus) (m : string) :
  existsb is_clock (notification cb s m) = false.
Proof. destruct cb; reflexivity. Qed.

Lemma initialize_no_clock (os : OS) (cfg : EquipmentConfig) (i : Impl)
    (l : list Event) :
  let '(_, i', l') := initialize os cfg i l in
  status i' = IDLE /\ existsb is_clock l' = existsb is_clock l.
Proof.
  pose proof (initialize_outcome os cfg i l) as H.
  destruct (initialize os cfg i l) as [[ok i'] l'].
  destruct H as (Hs & _ & _ & _ & _ & calls & T & ->).
  split; [exact Hs|].
  rewrite !existsb_app, (transport_no_clock calls T), notification_no_clock.
  rewrite !orb_false_r. reflexivity.
Qed.

Lemma calibrate_idle_no_clock (os : OS) (i : Impl) (l : list Event) :
  status i = IDLE ->
  let '(ok, i', l') := calibrate os i l in
  status i' = (if ok then IDLE else ERROR) /\
  existsb is_clock l' = existsb is_clock l.
Proof.
  intro Hs. rewrite (calibrate_from_idle os i l Hs). cbv zeta.
  assert (forall s, status (set_status s i) = s) as Ls
    by (intro; destruct i; reflexivity).
  destruct (hardware i) as [[fd [|]]|];
    cbn [SerialInterface.connected SerialInterface.serial_fd];
    try match goal with
        | |- context [if Str.contains ?p ?r then _ else _] =>
            destruct (Str.contains p r)
        end;
    rewrite Ls; (split; [reflexivity|]);
    rewrite !existsb_app, !notification_no_clock; cbn [existsb is_clock];
    rewrite ?orb_false_r; reflexivity.
Qed.

Lemma create_and_initialize_state (os : OS) (v : Main.Locals)
    (out : list Main.Item) :
  let '(_, i1, l1) :=
    initialize os (Main.config v) (set_statusCallback true Impl_new) [] in
  exists out1,
    Main.create_and_initialize os v (Impl_new, out) [] = (tt, (i1, out1), l1).
Proof.
  unfold Main.create_and_initialize, Main.controller, Main.print,
    setStatusCallback, getLastError, bind, modify, gets, ret.
  cbn [fst snd].
  destruct (initialize os (Main.config v) (set_statusCallback true Impl_new) [])
    as [[[|] i1] l1]; eexists; reflexivity.
Qed.

Lemma show_status_state (v : Main.Locals) (i : Impl) (out : list Main.Item)
    (l : list Event) :
  exists out', Main.show_status_if_requested v (i, out) l = (tt, (i, out'), l).
Proof.
  unfold Main.show_status_if_requested, Main.controller, Main.print,
    getStatus, getHealthMetrics, bind, modify, gets, ret.
  destruct (Main.show_status v); eexists; reflexivity.
Qed.

Lemma run_calibration_state (os : OS) (v : Main.Locals) (i : Impl)
    (out : list Main.Item) (l : list Event) :
  let '(_, i', l') := calibrate os i l in
  exists out',
    Main.run_calibration_if_requested os v (i, out) l =
    if Main.run_calibration v then (tt, (i', out'), l') else (tt, (i, out'), l).
Proof.
  unfold Main.run_calibration_if_requested, Main.controller, Main.print,
    getLastError, bind, modify, gets, ret.
  destruct (calibrate os i l) as [[ok i'] l'] eqn:E.
  destruct (Main.run_calibration v); cbn [fst snd]; rewrite ?E;
    destruct ok; eexists; reflexivity.
Qed.

Lemma stop_no_clock (s : Main.Session) (l : list Event) :
  let '(_, _, l') := Main.controller stop s l in
  existsb is_clock l' = existsb is_clock l.
Proof.
  unfold Main.controller, stop, setStatus, bind, gets, modify, call, ret.
  destruct s as [[st c e cb h] out]. cbn [fst snd status].
  destruct st, cb; cbn -[existsb];
    rewrite ?existsb_app; cbn [existsb is_clock]; rewrite ?orb_false_r; reflexivity.
Qed.

Lemma destroy_no_clock (s : Main.Session) (l : list Event) :
  let '(_, _, l') := Main.controller destroy s l in
  existsb is_clock l' = existsb is_clock l.
Proof.
  unfold Main.controller, destroy, deref, SerialInterface.disconnect,
    bind, gets, modify, call, ret.
  destruct s as [[st c e cb [[fd [|]]|]] out]; cbn -[existsb Z.leb];
    [destruct (0 <=? fd); cbn -[existsb]| |];
    rewrite ?existsb_app; cbn [existsb is_clock]; rewrite ?orb_false_r; reflexivity.
Qed.

Lemma start_cases (i : Impl) (l : list Event) :
  start i l =
  match status i with
  | IDLE | PAUSED =>
      (true, set_status RUNNING i,
       (l ++ notification (statusCallback i) RUNNING "Equipment started")%list)
  | _ =>
      (false, set_lastError "Equipment must be in IDLE or PAUSED state to start" i, l)
  end.
Proof.
  destruct i as [s c e cb h].
  destruct s, cb; cbn; rewrite <- ?app_assoc; reflexivity.
Qed.

Lemma run_test_from_idle (os : OS) (v : Main.Locals) (i : Impl)
    (out : list Main.Item) (l : list Event) :
  Main.test_device v <> EmptyString ->
  status i = IDLE ->
  let '(early, _, l') := Main.run_test_if_specified os v (i, out) l in
  early = None /\ existsb is_clock l' = true.
Proof.
  intros Hd Hs. apply String.eqb_neq in Hd.
  unfold Main.run_test_if_specified. rewrite Hd.
  unfold bind at 1. unfold Main.print at 1, modify. unfold bind at 1.
  unfold Main.controller at 1. cbn [fst snd]. rewrite start_cases, Hs.
  unfold bind at 1. unfold Main.controller at 1. cbn [fst snd].
  match goal with
  | |- context [runTest ?o ?d ?p ?i ?l] =>
      pose proof (runTest_outcome o d p i l) as R;
      destruct (runTest o d p i l) as [[r i2] l2];
      destruct R as (-> & _ & _ & calls & -> & _)
  end.
  unfold bind at 1. unfold Main.print at 1, modify. unfold bind at 1.
  match goal with
  | |- context [Main.controller stop ?s ?l] =>
      pose proof (stop_no_clock s l) as S;
      destruct (Main.controller stop s l) as [[b s3] l3]
  end.
  cbn [ret]. split; [reflexivity|]. rewrite S, !existsb_app. cbn [existsb is_clock].
  rewrite ?orb_true_r. reflexivity.
Qed.

Lemma run_test_from_error (os : OS) (v : Main.Locals) (i : Impl)
    (out : list Main.Item) (l : list Event) :
  Main.test_device v <> EmptyString ->
  status i = ERROR ->
  let '(early, _, l') := Main.run_test_if_specified os v (i, out) l in
  early = Some 1 /\ l' = l.
Proof.
  intros Hd Hs. apply String.eqb_neq in Hd.
  unfold Main.run_test_if_specified. rewrite Hd.
  unfold bind at 1. unfold Main.print at 1, modify. unfold bind at 1.
  unfold Main.controller at 1. cbn [fst snd]. rewrite start_cases, Hs.
  unfold Main.controller, getLastError, Main.print, bind, gets, modify, ret.
  cbn [fst snd]. split; reflexivity.
Qed.

(** X23. With a test device on the command line, main returns 1 exactly
    when a calibration was asked for and failed: the controller is then in
    Error, start refuses, and main returns without having run the test.
    Otherwise it starts the equipment, runs the test and returns 0,
    whatever the result of the test; the standard input plays no part. *)
Theorem batch_test_needs_the_calibration (os : OS) (args lines : list string)
    (last : string) (v : Main.Locals) :
  Main.parse_args args Main.defaults = Main.Proceed v ->
  Main.test_device v <> EmptyString ->
  let '(_, i1, l1) :=
    initialize os (Main.config v) (set_statusCallback true Impl_new) [] in
  let failed :=
    (Main.run_calibration v && negb (fst (fst (calibrate os i1 l1))))%bool in
  let '(exit, l, _) := Main.main os args lines last in
  exit = Main.Returned (if failed then 1 else 0) /\
  existsb is_clock l = negb failed.
Proof.
  intros Hp Hd. unfold Main.main. rewrite Hp.
  pose proof (initialize_no_clock os (Main.config v)
                (set_statusCallback true Impl_new) []) as I1.
  pose proof (create_and_initialize_state os v Main.banner) as C1.
  destruct (initialize os (Main.config v) (set_statusCallback true Impl_new) [])
    as [[ok i1] l1].
  destruct I1 as (Hs1 & Hc1). cbn [existsb] in Hc1.
  destruct C1 as (out1 & C1).
  cbv zeta. unfold Main.after_arguments.
  unfold bind at 1. rewrite C1.
  unfold bind at 1. destruct (show_status_state v i1 out1 l1) as (out2 & ->).
  unfold bind at 1.
  pose proof (run_calibration_state os v i1 out2 l1) as C3.
  pose proof (calibrate_idle_no_clock os i1 l1 Hs1) as I3.
  destruct (calibrate os i1 l1) as [[cal i3] l3]. cbn [fst snd].
  destruct I3 as (Hs3 & Hc3). destruct C3 as (out3 & ->).
  assert (Main.interactive_mode os v lines last = ret true) as Hi.
  { unfold Main.interactive_mode. apply String.eqb_neq in Hd. rewrite Hd.
    rewrite andb_false_r. reflexivity. }
  rewrite Hi.
  destruct (Main.run_calibration v); cbn [andb].
  - unfold bind at 1.
    destruct cal; cbn [negb].
    + pose proof (run_test_from_idle os v i3 out3 l3 Hd Hs3) as T.
      destruct (Main.run_test_if_specified os v (i3, out3) l3) as [[early s4] l4].
      destruct T as (-> & Hc4).
      unfold bind at 1. unfold ret at 1. unfold bind at 1.
      unfold Main.print at 1, modify. unfold bind at 1.
      match goal with
      | |- context [Main.controller stop ?s ?l] =>
          pose proof (stop_no_clock s l) as S;
          destruct (Main.controller stop s l) as [[b s5] l5]
      end.
      unfold bind.
      pose proof (destroy_no_clock s5 l5) as D.
      destruct (Main.controller destroy s5 l5) as [[u s6] l6].
      cbn [ret]. split; [reflexivity|]. rewrite D, S. exact Hc4.
    + pose proof (run_test_from_error os v i3 out3 l3 Hd Hs3) as T.
      destruct (Main.run_test_if_specified os v (i3, out3) l3) as [[early s4] l4].
      destruct T as (-> & ->).
      unfold bind.
      pose proof (destroy_no_clock s4 l3) as D.
      destruct (Main.controller destroy s4 l3) as [[u s6] l6].
      cbn [ret]. split; [reflexivity|]. rewrite D, Hc3. exact Hc1.
  - unfold bind at 1.
    pose proof (run_test_from_idle os v i1 out3 l1 Hd Hs1) as T.
    destruct (Main.run_test_if_specified os v (i1, out3) l1) as [[early s4] l4].
    destruct T as (-> & Hc4).
    unfold bind at 1. unfold ret at 1. unfold bind at 1.
    unfold Main.print at 1, modify. unfold bind at 1.
    match goal with
    | |- context [Main.controller stop ?s ?l] =>
        pose proof (stop_no_clock s l) as S;
        destruct (Main.controller stop s l) as [[b s5] l5]
    end.
    unfold bind.
    pose proof (destroy_no_clock s5 l5) as D.
    destruct (Main.controller destroy s5 l5) as [[u s6] l6].
    cbn [ret]. split; [reflexivity|]. rewrite D, S. exact Hc4.
Qed.

Lemma batch_test_needs_the_calibration_witness :
  let os := Scenario.no_device in
  let args := ["-c"; "-t"; "D1"] in
  let v := Main.set_test_device "D1" (Main.set_run_calibration true Main.defaults) in
  (Main.parse_args args Main.defaults = Main.Proceed v /\
   Main.test_device v <> EmptyString /\
   fst (fst (Main.main os args [] EmptyString)) = Main.Returned 1) /\
  let '(_, i1, l1) :=
    initialize os (Main.config v) (set_statusCallback true Impl_new) [] in
  let failed :=
    (Main.run_calibration v && negb (fst (fst (calibrate os i1 l1))))%bool in
  let '(exit, l, _) := Main.main os args [] EmptyString in
  exit = Main.Returned (if failed then 1 else 0) /\
  existsb is_clock l = negb failed.
Proof.
  cbv zeta. split.
  - split; [reflexivity|]. split; [discriminate | reflexivity].
  - apply (batch_test_needs_the_calibration Scenario.no_device ["-c"; "-t"; "D1"]
             [] EmptyString
             (Main.set_test_device "D1"
                (Main.set_run_calibration true Main.defaults)));
      [reflexivity | discriminate].
Defined.


(** ** The interactive mode *)

Lemma bind_ret_answer {S A B : Type} (m : Eff S A) (b : B) (s : S)
    (l : list Event) :
  fst (fst ((m ;;; ret b)%eff s l)) = b.
Proof. unfold bind, ret. destruct (m s l) as [[a s'] l']. reflexivity. Qed.

Lemma interact_answer (os : OS) (command : string) (s : Main.Session)
    (l : list Event) :
  fst (fst (Main.interact os command s l)) = Main.is_quit command.
Proof.
  unfold Main.interact. destruct (Main.is_quit command); [reflexivity|].
  apply bind_ret_answer.
Qed.

Lemma loop_answer (os : OS) (lines : list string) (last : string) :
  forall (s : Main.Session) (l : list Event),
  fst (fst (Main.loop os lines last s l)) = existsb Main.is_quit (lines ++ [last]).
Proof.
  induction lines as [|command rest IH]; intros s l; cbn [Main.loop app existsb].
  - unfold bind, Main.print, modify. rewrite interact_answer, orb_false_r.
    reflexivity.
  - unfold bind at 1. unfold Main.print at 1, modify. unfold bind at 1.
    match goal with
    | |- context [Main.interact ?o ?c ?s ?l] =>
        pose proof (interact_answer o c s l) as H;
        destruct (Main.interact o c s l) as [[quits s1] l1]
    end.
    cbn [fst] in H. subst quits.
    destruct (Main.is_quit command); [reflexivity | apply IH].
Qed.

Lemma loop_until_quit (os : OS) (before after : list string)
    (command last : string) :
  Main.is_quit command = true ->
  forall (s : Main.Session) (l : list Event),
  Main.loop os (before ++ command :: after) last s l =
  Main.loop os (before ++ [command]) EmptyString s l.
Proof.
  intro Hq. induction before as [|c rest IH]; intros s l; cbn [Main.loop app].
  - unfold bind, Main.print, modify, Main.interact, ret. rewrite Hq. reflexivity.
  - unfold bind, Main.print, modify.
    destruct (Main.interact os c _ l) as [[[|] s1] l1]; [reflexivity | apply IH].
Qed.

(** X24. In the interactive mode (no status, calibration or test asked
    for) main returns, with the code 0, exactly when one of the lines of
    the standard input, or what follows the last line feed, is quit or
    exit; otherwise it never returns: at the end of the input it stays in
    the loop for ever.  What follows the first quit or exit is not
    obeyed. *)
Theorem interactive_mode_ends_with_quit (os : OS) (args lines : list string)
    (last : string) (v : Main.Locals) :
  Main.parse_args args Main.defaults = Main.Proceed v ->
  Main.show_status v = false ->
  Main.run_calibration v = false ->
  Main.test_device v = EmptyString ->
  fst (fst (Main.main os args lines last)) =
    (if existsb Main.is_quit (lines ++ [last]) then Main.Returned 0 else Main.Spins) /\
  forall (before after : list string) (command : string),
    lines = (before ++ command :: after)%list ->
    Main.is_quit command = true ->
    Main.main os args lines last =
    Main.main os args (before ++ [command]) EmptyString.
Proof.
  intros Hp Hs Hc Hd.
  assert (forall lines last,
    Main.main os args lines last =
    let '(_, s1, l1) := Main.create_and_initialize os v (Impl_new, Main.banner) [] in
    let '(quits, s2, l2) :=
      Main.loop os lines last
        (fst s1,
         (snd s1 ++
          [Main.Cout (Main.endl ++ "=== Interactive Mode ===" ++ Main.endl);
           Main.Cout ("Commands: start, stop, pause, resume, test <device>, calibrate, status, quit" ++ Main.endl)])%list)
        l1 in
    if quits then
      let '(_, s3, l3) :=
        Main.controller stop
          (fst s2, (snd s2 ++ [Main.Cout (Main.endl ++ "Shutting down..." ++ Main.endl)])%list)
          l2 in
      let '(_, s4, l4) := Main.controller destroy s3 l3 in
      (Main.Returned 0, l4, snd s4)
    else (Main.Spins, l2, snd s2)) as E.
  { intros lines' last'. unfold Main.main. rewrite Hp.
    unfold Main.after_arguments, Main.show_status_if_requested,
      Main.run_calibration_if_requested, Main.run_test_if_specified,
      Main.interactive_mode.
    rewrite Hs, Hc, Hd. cbn [negb andb String.eqb].
    unfold bind at 1.
    destruct (Main.create_and_initialize os v _ _) as [[u1 s1] l1].
    unfold bind at 1. unfold ret at 1. unfold bind at 1. unfold ret at 1.
    unfold bind at 1. unfold ret at 1. unfold bind at 1.
    unfold bind at 1. unfold Main.print at 1, modify.
    destruct (Main.loop os lines' last' _ l1) as [[[|] s2] l2]; [|reflexivity].
    unfold bind at 1. unfold Main.print at 1, modify. unfold bind at 1.
    destruct (Main.controller stop _ l2) as [[b s3] l3].
    unfold bind. destruct (Main.controller destroy s3 l3) as [[u4 s4] l4].
    reflexivity. }
  split.
  - rewrite E.
    destruct (Main.create_and_initialize os v _ _) as [[u1 s1] l1].
    match goal with
    | |- context [Main.loop ?o ?ls ?la ?s ?l] =>
        pose proof (loop_answer o ls la s l) as H;
        destruct (Main.loop o ls la s l) as [[quits s2] l2]
    end.
    cbn [fst] in H. subst quits.
    destruct (existsb _ _); [|reflexivity].
    destruct (Main.controller stop _ l2) as [[b s3] l3].
    destruct (Main.controller destroy s3 l3) as [[u4 s4] l4]. reflexivity.
  - intros before after command -> Hq. rewrite !E.
    destruct (Main.create_and_initialize os v _ _) as [[u1 s1] l1].
    rewrite (loop_until_quit os before after command last Hq). reflexivity.
Qed.

Lemma interactive_mode_ends_with_quit_witness :
  let os := Scenario.no_device in
  let args := ["--port"; "/dev/ttyS1"] in
  let v := Main.set_device_port "/dev/ttyS1" Main.defaults in
  let lines := ["start"; "test D7"; "exit"; "calibrate"] in
  (Main.parse_args args Main.defaults = Main.Proceed v /\
   Main.show_status v = false /\ Main.run_calibration v = false /\
   Main.test_device v = EmptyString /\
   fst (fst (Main.main os args ["start"; "stop"] "qui")) = Main.Spins) /\
  fst (fst (Main.main os args lines "quit")) =
    (if existsb Main.is_quit (lines ++ ["quit"]) then Main.Returned 0 else Main.Spins) /\
  forall (before after : list string) (command : string),
    lines = (before ++ command :: after)%list ->
    Main.is_quit command = true ->
    Main.main os args lines "quit" =
    Main.main os args (before ++ [command]) EmptyString.
Proof.
  cbv zeta. split.
  - repeat split.
  - apply (interactive_mode_ends_with_quit Scenario.no_device
             ["--port"; "/dev/ttyS1"] ["start"; "test D7"; "exit"; "calibrate"]
             "quit" (Main.set_device_port "/dev/ttyS1" Main.defaults));
      reflexivity.
Defined.


(** ** What the program writes about a test *)

Lemma runTest_fields (os : OS) (device : string) (parameters : list string)
    (i : Impl) (l : list Event) :
  let '(r, _, _) := runTest os device parameters i l in
  (exists verdict, passed r = Some verdict) /\
  (notes r = completed <-> measurement_value r <> None).
Proof.
  rewrite runTest_cases. cbv zeta.
  assert (forall note,
    note <> completed ->
    let r := set_notes note (set_passed false (fresh_result os device l)) in
    (exists verdict, passed r = Some verdict) /\
    (notes r = completed <-> measurement_value r <> None)) as F.
  { intros note Hn. cbn. split; [eexists; reflexivity|].
    split; [intro H; contradiction (Hn H) | intro H; contradiction H; reflexivity]. }
  destruct (negb _);
    [|destruct (hardware i) as [[fd [|]]|];
      cbn [SerialInterface.connected SerialInterface.serial_fd];
      [destruct (_ =? _)| |]];
    first [ apply F; discriminate
          | pose proof (decode_response_fields
                          (Str.rstrip
                             (SerialInterface.poll
                                (sys_read os
                                   ((l ++ [Localtime; Localtime]) ++
                                    [Write fd (test_command device parameters ++ Str.crlf)])
                                   fd 5000) EmptyString))
                          (fresh_result os device l) eq_refl eq_refl) as D;
            cbv zeta in D; destruct D as (D1 & D2 & _); split; assumption ].
Qed.

(** X25. The lines main writes under "Test Results:" hold the value of a
    variable that was never assigned exactly when the test did not
    complete: the measurement is written whatever the note, and runTest
    assigns it on success only.  The verdict it writes is always one that
    runTest assigned. *)
Theorem failed_test_prints_an_unassigned_value (os : OS) (device : string)
    (parameters : list string) (i : Impl) (l : list Event) :
  let '(r, _, _) := runTest os device parameters i l in
  (In Main.Indeterminate (Main.print_result r) <-> notes r <> completed) /\
  Main.verdict r "PASS" "FAIL" <> Main.Indeterminate /\
  Main.verdict r "PASSED" "FAILED" <> Main.Indeterminate.
Proof.
  pose proof (runTest_fields os device parameters i l) as F.
  destruct (runTest os device parameters i l) as [[r i'] l'].
  destruct F as ((verdict & Hp) & Hm).
  unfold Main.print_result, Main.verdict. rewrite Hp.
  split; [|split; destruct verdict; discriminate].
  split.
  - intros H Hn. apply Hm in Hn.
    destruct (measurement_value r) as [value|]; [|contradiction Hn; reflexivity].
    cbn in H. destruct verdict;
      repeat (destruct H as [H|H]; [discriminate H|]); contradiction H.
  - intro Hn. destruct (measurement_value r) as [value|] eqn:E.
    + contradiction Hn. apply Hm. discriminate.
    + do 8 right. left. reflexivity.
Qed.

Lemma substring_all (s : string) : String.substring 0 (String.length s) s = s.
Proof. induction s as [|c s IH]; cbn; [reflexivity | rewrite IH; reflexivity]. Qed.

(** X26. In the interactive mode every line that begins with test runs a
    test, and the device is what follows the fifth character, whatever
    that character is: a line of test, one more character and a device
    name does what the line with a blank in that place does, and a line
    with nothing behind the fifth character tests default_device, as the
    line test does. *)
Theorem test_line_skips_a_character (os : OS) (c : ascii) (device : string)
    (s : Main.Session) (l : list Event) :
  (device <> EmptyString ->
   Main.interact os ("test" ++ String c device) s l =
   Main.interact os ("test " ++ device) s l) /\
  Main.interact os ("test" ++ String c EmptyString) s l =
  Main.interact os "test" s l /\
  Main.interact os "test" s l =
  (result <- Main.controller (runTest os "default_device" ["default"; "test"]) ;;
   Main.print [Main.Cout "Test "; Main.verdict result "PASSED" "FAILED";
               Main.Cout Main.endl;
               Main.Cout ("Notes: " ++ notes result ++ Main.endl)] ;;;
   ret false)%eff s l.
Proof.
  split; [|split].
  - intro Hd. destruct device as [|d rest]; [contradiction Hd; reflexivity|].
    unfold Main.interact.
    change (String.length ("test" ++ String c (String d rest)))
      with (5 + String.length (String d rest))%nat.
    change (String.length ("test " ++ String d rest))
      with (5 + String.length (String d rest))%nat.
    replace (5 + String.length (String d rest) - 5)%nat
      with (String.length (String d rest)) by lia.
    change (String.substring 5 (String.length (String d rest))
              ("test" ++ String c (String d rest)))
      with (String.substring 0 (String.length (String d rest)) (String d rest)).
    change (String.substring 5 (String.length (String d rest))
              ("test " ++ String d rest))
      with (String.substring 0 (String.length (String d rest)) (String d rest)).
    rewrite substring_all.
    reflexivity.
  - reflexivity.
  - unfold Main.interact, bind, ret.
    cbn -[runTest Main.controller Main.print Main.verdict String.append].
    destruct (Main.controller _ s l) as [[r s1] l1]. reflexivity.
Qed.

Lemma test_line_skips_a_character_witness :
  let s : Main.Session := (Scenario.running, []) in
  "D7" <> EmptyString /\
  Main.interact Scenario.bench ("test" ++ String "="%char "D7") s [] =
  Main.interact Scenario.bench ("test " ++ "D7") s [].
Proof.
  cbv zeta. split; [discriminate|].
  apply (proj1 (test_line_skips_a_character Scenario.bench "="%char "D7"
                  (Scenario.running, []) [])).
  discriminate.
Defined.


(** ** The fields of a response *)

(** X27. A response of the device is read field by field, as it was sent.
    For RESULT, a value, units, a verdict and any further tokens, joined
    by colons (none of them holding a colon, the last not empty), with a
    value that std::stod converts: the measured value is that number, the
    units are the units token, and the test passed exactly when the
    verdict token is PASS, letter for letter; the tokens behind the verdict
    are ignored, and the value is not compared with anything. *)
Theorem result_line_is_read_field_by_field (value units_token verdict : string)
    (more : list string) (x : float) (result : TestResult) :
  Forall (fun t => Str.contains_char ":" t = false)
         (value :: units_token :: verdict :: more) ->
  last (verdict :: more) EmptyString <> EmptyString ->
  Stod.stod value = Stod.Converted x ->
  decode_response (join_colon ("RESULT" :: value :: units_token :: verdict :: more))
    result =
  set_notes completed
    (set_passed (verdict =? "PASS")%string
       (set_units units_token (set_measurement_value x result))).
Proof.
  intros F L Hx.
  assert (Str.split_colon
            (join_colon ("RESULT" :: value :: units_token :: verdict :: more))
          = "RESULT" :: value :: units_token :: verdict :: more) as R.
  { assert (Str.read_tokens
              (join_colon ("RESULT" :: value :: units_token :: verdict :: more))
              EmptyString
            = "RESULT" :: value :: units_token :: verdict :: more) as R.
    { apply (read_tokens_of_join (value :: units_token :: verdict :: more)
               "RESULT" EmptyString).
      - constructor; [reflexivity | exact F].
      - exact L. }
    unfold Str.split_colon.
    destruct (join_colon _) eqn:J; [|exact R].
    rewrite join_colon_cons in J by discriminate. discriminate J. }
  unfold decode_response.
  destruct (join_colon _) as [|c rest] eqn:J.
  - rewrite join_colon_cons in J by discriminate. discriminate J.
  - unfold parse_response. rewrite R.
    cbn [List.length Nat.leb Str.at_ nth String.eqb Ascii.eqb Bool.eqb andb].
    rewrite Hx. reflexivity.
Qed.

Lemma result_line_is_read_field_by_field_witness :
  (Forall (fun t => Str.contains_char ":" t = false) ["4.98"; "V"; "pass"; "retry"] /\
   last ["pass"; "retry"] EmptyString <> EmptyString /\
   Stod.stod "4.98" = Stod.Converted 4.98%float) /\
  decode_response (join_colon ["RESULT"; "4.98"; "V"; "pass"; "retry"]) TestResult_new =
  set_notes completed
    (set_passed false (set_units "V" (set_measurement_value 4.98%float TestResult_new))).
Proof.
  split.
  - split; [repeat constructor|]. split; [discriminate | reflexivity].
  - apply (result_line_is_read_field_by_field "4.98" "V" "pass" ["retry"]
             4.98%float TestResult_new).
    + repeat constructor.
    + discriminate.
    + reflexivity.
Defined.


(** * The unit tests *)

Lemma with_controller_answer {A : Type} (body : Eff Impl A) (l : list Event) :
  fst (fst (SimpleTest.with_controller body tt l)) = fst (fst (body Impl_new l)).
Proof.
  unfold SimpleTest.with_controller.
  destruct (body Impl_new l) as [[a i] l1].
  destruct (destroy i l1) as [[u i2] l2]. reflexivity.
Qed.

Lemma skipn_past {A : Type} (l new : list A) :
  skipn (List.length l) (l ++ new) = new.
Proof. induction l as [|a l IH]; [reflexivity | exact IH]. Qed.

Lemma tests_pass (os : OS) :
  passes SimpleTest.test_equipment_controller_creation /\
  passes SimpleTest.test_equipment_controller_status /\
  passes (SimpleTest.test_equipment_configuration os) /\
  passes SimpleTest.test_equipment_state_transitions /\
  passes (SimpleTest.test_test_execution os) /\
  passes SimpleTest.test_health_metrics /\
  passes SimpleTest.test_hardware_interface_creation /\
  passes (SimpleTest.test_calibration_interface os) /\
  passes (SimpleTest.test_status_callback os) /\
  passes SimpleTest.test_error_handling.
Proof.
  unfold passes.
  repeat match goal with |- _ /\ _ => split end; intro l.
  - reflexivity.
  - reflexivity.
  - unfold SimpleTest.test_equipment_configuration.
    rewrite with_controller_answer. apply bind_ret_answer.
  - reflexivity.
  - unfold SimpleTest.test_test_execution.
    rewrite with_controller_answer. unfold bind, ret.
    pose proof (runTest_outcome os "test_device" ["test_param"] Impl_new l) as R.
    destruct (runTest os "test_device" ["test_param"] Impl_new l) as [[r i] l'].
    destruct R as (_ & -> & -> & _). reflexivity.
  - reflexivity.
  - reflexivity.
  - unfold SimpleTest.test_calibration_interface.
    rewrite with_controller_answer. apply bind_ret_answer.
  - unfold SimpleTest.test_status_callback.
    rewrite with_controller_answer.
    unfold bind at 1. unfold setStatusCallback at 1, modify at 1.
    unfold bind at 1. rewrite initialize_cases.
    match goal with
    | |- context [SerialInterface.connect ?o ?p ?b ?h ?l0] =>
        pose proof (connect_account o p b l0) as C;
        destruct (SerialInterface.connect o p b h l0) as [[ok h'] l2]
    end.
    destruct C as (_ & _ & calls & -> & _).
    unfold closes_of. cbn [hardware set_statusCallback Impl_new statusCallback].
    rewrite app_nil_r.
    destruct ok; cbv zeta; unfold bind, call, ret, SimpleTest.callback_called;
      cbn [fst snd notification];
      rewrite <- !app_assoc, skipn_past, !delivered_app;
      cbn [delivered flat_map app];
      destruct (delivered calls); reflexivity.
  - reflexivity.
Qed.

Lemma run_test_passes (test_name : string) (test_func : Eff unit bool) :
  passes test_func ->
  forall (st : SimpleTest.State) (l : list Event),
  exists l',
    SimpleTest.run_test test_name test_func st l =
    (tt,
     ({| SimpleTest.tests_run := SimpleTest.tests_run (fst st) + 1;
         SimpleTest.tests_passed := SimpleTest.tests_passed (fst st) + 1;
         SimpleTest.tests_failed := SimpleTest.tests_failed (fst st) |},
      (snd st ++ [Main.Cout ("Running test: " ++ test_name ++ " ... ");
                  Main.Cout ("PASS" ++ Main.endl)])%list),
     l').
Proof.
  intros H st l. specialize (H l).
  unfold SimpleTest.run_test, SimpleTest.print, SimpleTest.count, bind, modify.
  destruct (test_func tt l) as [[ok u] l']. cbn [fst] in H. subst ok.
  exists l'. cbn [fst snd]. rewrite <- app_assoc. reflexivity.
Qed.

(** X28. The unit tests pass on every system: whatever the operating
    system answers (no device, a device that answers, one that answers
    nonsense), main of the unit tests returns 0, writes the report it
    writes without a device, and that report holds no FAIL.  The ten tests
    exercise the interface and cannot tell a working device from none. *)
Theorem unit_tests_pass_on_every_system (os : OS) :
  let '(code, _, out) := SimpleTest.main os in
  code = 0 /\
  out = snd (SimpleTest.main Scenario.no_device) /\
  ~ In (Main.Cout ("FAIL" ++ Main.endl)) out.
Proof.
  destruct (tests_pass os) as (H1 & H2 & H3 & H4 & H5 & H6 & H7 & H8 & H9 & H10).
  unfold SimpleTest.main.
  unfold bind at 1. unfold SimpleTest.print at 1, modify at 1.
  repeat (unfold bind at 1;
          match goal with
          | |- context [SimpleTest.run_test ?n ?f ?st ?l] =>
              let l' := fresh "l" in
              let E := fresh "E" in
              destruct (run_test_passes n f ltac:(assumption) st l) as (l' & E);
              rewrite E; clear E;
              cbn [fst snd SimpleTest.tests_run SimpleTest.tests_passed
                   SimpleTest.tests_failed]
          end).
  split; [reflexivity|]. split; [reflexivity|].
  cbn. intro H. repeat (destruct H as [H|H]; [discriminate H|]). exact H.
Qed.
